(** * paperless-asn-label-generator: label grid placement, pagination, settings

    A shallow embedding of [src/paperless_asn_label_generator/app.py] and the
    properties of it that the specification states.

    Conventions of the embedding:
    - a Python [int] is a [Z]; [//] and [%] are [Z.div] and [Z.modulo]
      (both floor towards minus infinity, the remainder has the sign of the
      divisor), and raise [ZeroDivisionError] on a zero divisor;
    - a Python [float] is an IEEE 754 binary64 number, [spec_float] with
      [prec = 53] and [emax = 1024], rounded to nearest, ties to even;
      float literals are written as primitive floats and read through
      [Prim2SF];
    - a Python [str] is a [string]; [str.strip] and [str.lower] act on the
      ASCII range;
    - a raised exception is the [Raise] case of [Res]; code that mutates the
      canvas threads it explicitly and keeps it when an exception escapes;
    - what reportlab and qrcode do inside [draw_label] is not modelled: a
      call of [draw_label] is recorded with its arguments and returns;
    - limits of the interpreter (memory, the longest format width, the
      longest integer it prints) are not modelled. *)

From Stdlib Require Import ZArith Lia String Ascii List Bool.
From Stdlib Require Import Floats.
From stdpp Require Import base strings gmap.

Open Scope Z_scope.

Set Warnings "-inexact-float".

(** ** Exceptions and results *)

Inductive PyExc : Type :=
  | ValueError (msg : string)
  | ZeroDivisionError (msg : string)
  | OverflowError (msg : string).

(** [str(e)] of an exception, as shown by the error dialog. *)
Definition exc_message (e : PyExc) : string :=
  match e with
  | ValueError m | ZeroDivisionError m | OverflowError m => m
  end.

Inductive Res (A : Type) : Type :=
  | Raise (e : PyExc)
  | Ok (a : A).
Arguments Raise {A} e.
Arguments Ok {A} a.

Definition res_bind {A B} (r : Res A) (k : A -> Res B) : Res B :=
  match r with
  | Raise e => Raise e
  | Ok a => k a
  end.

Declare Scope res_scope.
Delimit Scope res_scope with res.
Notation "x <- r ;; k" := (res_bind r (fun x => k))
  (at level 100, r at next level, right associativity) : res_scope.

(** ** Python numbers *)

Module PyNum.

Abbreviation pyfloat := spec_float.

Definition fadd : pyfloat -> pyfloat -> pyfloat := SFadd prec emax.
Definition fsub : pyfloat -> pyfloat -> pyfloat := SFsub prec emax.
Definition fmul : pyfloat -> pyfloat -> pyfloat := SFmul prec emax.
Definition fdiv : pyfloat -> pyfloat -> pyfloat := SFdiv prec emax.
Definition fabs : pyfloat -> pyfloat := SFabs.
Definition fltb : pyfloat -> pyfloat -> bool := SFltb.
(** [x == y] *)
Definition feqb : pyfloat -> pyfloat -> bool := SFeqb.

(** A float literal of the source. *)
Definition lit (f : float) : pyfloat := Prim2SF f.

(** An integer as an unrounded mantissa with exponent 0. *)
Definition int_exact (z : Z) : pyfloat :=
  match z with
  | Z0 => S754_zero false
  | Zpos p => S754_finite false p 0
  | Zneg p => S754_finite true p 0
  end.

(** [float(z)]: the nearest binary64 number. *)
Definition Z2SF (z : Z) : pyfloat := binary_normalize prec emax z 0 false.

(** The implicit conversion of an [int] operand in [int * float]. *)
Definition float_of_int (z : Z) : Res pyfloat :=
  match Z2SF z with
  | S754_infinity _ => Raise (OverflowError "int too large to convert to float")
  | f => Ok f
  end.

(** [a / b] on two [int]s: the correctly rounded quotient. *)
Definition int_true_div (a b : Z) : Res pyfloat :=
  if b =? 0 then Raise (ZeroDivisionError "division by zero")
  else match fdiv (int_exact a) (int_exact b) with
       | S754_infinity _ =>
           Raise (OverflowError "integer division result too large for a float")
       | f => Ok f
       end.

Definition int_floordiv (a b : Z) : Res Z :=
  if b =? 0 then Raise (ZeroDivisionError "integer division or modulo by zero")
  else Ok (a / b).

Definition int_mod (a b : Z) : Res Z :=
  if b =? 0 then Raise (ZeroDivisionError "integer division or modulo by zero")
  else Ok (a mod b).

(** The least integer not below [sm * 2^e]. *)
Definition ceil_pow2 (sm e : Z) : Z :=
  if 0 <=? e then sm * 2 ^ e else - ((- sm) / 2 ^ (- e)).

(** [math.ceil(x)] *)
Definition math_ceil (x : pyfloat) : Res Z :=
  match x with
  | S754_zero _ => Ok 0
  | S754_finite s m e => Ok (ceil_pow2 (cond_Zopp s (Z.pos m)) e)
  | S754_infinity _ => Raise (OverflowError "cannot convert float infinity to integer")
  | S754_nan => Raise (ValueError "cannot convert float NaN to integer")
  end.

Definition is_zero (x : pyfloat) : bool :=
  match x with S754_zero _ => true | _ => false end.

(** Truth value of a float: [bool(x)]. *)
Definition float_truth (x : pyfloat) : bool := negb (is_zero x).

End PyNum.
Export PyNum.

Declare Scope pyfloat_scope.
Delimit Scope pyfloat_scope with py.
Infix "+" := fadd : pyfloat_scope.
Infix "-" := fsub : pyfloat_scope.
Infix "*" := fmul : pyfloat_scope.
Infix "/" := fdiv : pyfloat_scope.

(** ** Python strings *)

Module PyStr.

(** White space removed by [str.strip()], ASCII range. *)
Definition is_space (c : ascii) : bool :=
  let n := N_of_ascii c in
  ((9 <=? n) && (n <=? 13) || (28 <=? n) && (n <=? 32))%N.

Fixpoint lstrip (s : string) : string :=
  match s with
  | String c s' => if is_space c then lstrip s' else s
  | EmptyString => EmptyString
  end.

Fixpoint rstrip (s : string) : string :=
  match s with
  | String c s' =>
      match rstrip s' with
      | EmptyString => if is_space c then EmptyString else String c EmptyString
      | t => String c t
      end
  | EmptyString => EmptyString
  end.

Definition strip (s : string) : string := rstrip (lstrip s).

Definition lower_char (c : ascii) : ascii :=
  let n := N_of_ascii c in
  if ((65 <=? n) && (n <=? 90))%N then ascii_of_N (n + 32) else c.

Fixpoint map_chars (f : ascii -> ascii) (s : string) : string :=
  match s with
  | String c s' => String (f c) (map_chars f s')
  | EmptyString => EmptyString
  end.

Definition lower (s : string) : string := map_chars lower_char s.

(** [s.replace(",", ".")] *)
Definition comma_to_dot (s : string) : string :=
  map_chars (fun c => if Ascii.eqb c "," then "."%char else c) s.

Fixpoint zeros (n : nat) : string :=
  match n with
  | O => ""
  | S n' => String "0" (zeros n')
  end.

Definition digit_char (d : Z) : ascii := ascii_of_N (48 + Z.to_N d).

(** Decimal digits of a non-negative integer, most significant first;
    [fuel] bounds the number of digits. *)
Fixpoint dec_digits_aux (fuel : nat) (n : Z) (acc : string) : string :=
  match fuel with
  | O => acc
  | S fuel' =>
      let acc' := String (digit_char (n mod 10)) acc in
      if n / 10 =? 0 then acc' else dec_digits_aux fuel' (n / 10) acc'
  end.

Definition dec_digits (n : Z) : string :=
  dec_digits_aux (S (Z.to_nat (Z.log2 n))) n "".

(** [str(z)] for an [int]. *)
Definition int_str (z : Z) : string :=
  if z <? 0 then String "-" (dec_digits (- z)) else dec_digits z.

(** [format(z, "0Wd")] for a width [W >= 0]: sign-aware zero padding to at
    least [W] characters. *)
Definition format_0d (z : Z) (width : Z) : string :=
  let sign := if z <? 0 then "-" else "" in
  let digits := dec_digits (Z.abs z) in
  let pad := (Z.to_nat width - String.length sign - String.length digits)%nat in
  sign +:+ zeros pad +:+ digits.

(** Value of a string of decimal digits. *)
Definition dec_value (s : string) : Z :=
  fold_left (fun acc c => 10 * acc + (Z.of_N (N_of_ascii c) - 48))
            (list_ascii_of_string s) 0.

End PyStr.
Export PyStr.

(** ** Sheet geometry *)

(** Constants of [reportlab.lib.units] and [reportlab.lib.pagesizes] (third
    party, not part of the repository), with the values reportlab gives
    them: [inch = 72.0], [cm = inch / 2.54], [mm = cm * 0.1],
    [A4 = (210*mm, 297*mm)]. *)
Definition inch : pyfloat := lit 72.0.
Definition cm : pyfloat := (inch / lit 2.54)%py.
Definition mm : pyfloat := (cm * lit 0.1)%py.
Definition A4 : pyfloat * pyfloat := ((lit 210 * mm)%py, (lit 297 * mm)%py).

Inductive BarcodeKind : Type := QR | CODE128.

Record SheetLayout : Type := {
  name : string;
  cols : Z;
  rows : Z;
  label_w : pyfloat;      (* points *)
  label_h : pyfloat;      (* points *)
  gap_x : pyfloat;        (* points (base gap) *)
  gap_y : pyfloat;        (* points (base gap) *)
  margin_left : pyfloat;  (* points *)
  margin_top : pyfloat;   (* points *)
}.

Definition labels_per_page (l : SheetLayout) : Z := cols l * rows l.
Definition pitch_x (l : SheetLayout) : pyfloat := (label_w l + gap_x l)%py.
Definition pitch_y (l : SheetLayout) : pyfloat := (label_h l + gap_y l)%py.

Definition AVERY_L4731 : SheetLayout := {|
  name := "Avery Zweckform L4731 / L4731REV (7x27, 25.4mm x 10mm)";
  cols := 7;
  rows := 27;
  label_w := (lit 25.4 * mm)%py;
  label_h := (lit 10.0 * mm)%py;
  gap_x := (lit 0.25 * cm)%py;
  gap_y := (lit 0.0 * cm)%py;
  margin_left := (lit 0.85 * cm)%py;
  margin_top := (lit 1.35 * cm)%py;
|}.

(** ** Label text *)

(** [f"{prefix}{number:0{leading_zeros}d}"]: the format specification is
    ["0" + str(leading_zeros) + "d"], which is not a valid one when
    [leading_zeros] is negative. *)
Definition make_asn_text (prefix : string) (number leading_zeros : Z) : Res string :=
  if leading_zeros <? 0 then
    Raise (ValueError ("Invalid format specifier '0" +:+ int_str leading_zeros
                       +:+ "d' for object of type 'int'"))
  else Ok (prefix +:+ format_0d number leading_zeros).

(** ** The canvas *)

(** One call of [draw_label]: the rectangle origin (bottom-left), the text
    and the rendering options.  What [draw_label] draws inside the rectangle
    (border, code symbol, text) is delegated to reportlab and qrcode and is
    a function of these arguments and of the layout. *)
Record DrawnLabel : Type := {
  dl_x : pyfloat;
  dl_y : pyfloat;
  dl_text : string;
  dl_kind : BarcodeKind;
  dl_border : bool;
}.

Abbreviation Page := (list DrawnLabel).
Abbreviation Document := (list Page).

(** The state of a [reportlab.pdfgen.canvas.Canvas]: its file name, the pages
    closed by [showPage] and the content of the page being drawn. *)
Record Canvas : Type := {
  cv_filename : string;
  cv_pages : list Page;
  cv_current : Page;
}.

Definition new_canvas (path : string) : Canvas :=
  {| cv_filename := path; cv_pages := []; cv_current := [] |}.

(** Canvas code: a state transformer on the canvas that may raise. *)
Definition CanvasM (A : Type) : Type := Canvas -> Canvas * Res A.

Definition cret {A} (a : A) : CanvasM A := fun c => (c, Ok a).

Definition cbind {A B} (m : CanvasM A) (k : A -> CanvasM B) : CanvasM B :=
  fun c => match m c with
           | (c', Ok a) => k a c'
           | (c', Raise e) => (c', Raise e)
           end.

Definition clift {A} (r : Res A) : CanvasM A := fun c => (c, r).

Declare Scope canvas_scope.
Delimit Scope canvas_scope with canvas.
Notation "x <- m ;; k" := (cbind m (fun x => k))
  (at level 100, m at next level, right associativity) : canvas_scope.
Notation "m ;;; k" := (cbind m (fun _ => k))
  (at level 100, right associativity) : canvas_scope.

Definition draw_label (x y : pyfloat) (layout : SheetLayout) (text : string)
    (kind : BarcodeKind) (draw_border : bool) : CanvasM unit :=
  fun c =>
    ({| cv_filename := cv_filename c;
        cv_pages := cv_pages c;
        cv_current := cv_current c ++
          [{| dl_x := x; dl_y := y; dl_text := text;
              dl_kind := kind; dl_border := draw_border |}] |}, Ok tt).

Definition showPage : CanvasM unit :=
  fun c =>
    ({| cv_filename := cv_filename c;
        cv_pages := cv_pages c ++ [cv_current c];
        cv_current := [] |}, Ok tt).

(** The document [Canvas.save] writes: the closed pages, and the page being
    drawn when it has content. *)
Definition saved_document (c : Canvas) : Document :=
  match cv_current c with
  | [] => cv_pages c
  | _ => cv_pages c ++ [cv_current c]
  end.

Definition save (c : Canvas) (fs : gmap string Document) : gmap string Document :=
  <[cv_filename c := saved_document c]> fs.

(** ** generate_pdf *)

(** What a call of [generate_pdf] leaves behind: the files, the canvas if it
    was constructed, and the returned pair [(pages_generated, next_number)]
    or the exception raised. *)
Record GenRun : Type := {
  run_files : gmap string Document;
  run_canvas : option Canvas;
  run_result : Res (Z * Z);
}.

Section GeneratePdf.

Variables (output_path : string) (start_number count : Z) (prefix : string)
          (leading_zeros : Z) (kind : BarcodeKind) (layout : SheetLayout)
          (draw_border : bool)
          (offset_x_mm offset_y_mm pitch_dx_mm pitch_dy_mm : pyfloat).

(** [_page_w, page_h = A4] *)
Definition page_h : pyfloat := snd A4.

(** Effective pitch + offsets (points): the locals [pitch_x], [pitch_y],
    [off_x], [off_y]. *)
Definition eff_pitch_x : pyfloat := (pitch_x layout + pitch_dx_mm * mm)%py.
Definition eff_pitch_y : pyfloat := (pitch_y layout + pitch_dy_mm * mm)%py.
Definition off_x : pyfloat := (offset_x_mm * mm)%py.
Definition off_y : pyfloat := (offset_y_mm * mm)%py.

(** [for i in range(n)], from index [i] on; returns [current]. *)
Fixpoint label_loop (n : nat) (i current : Z) : CanvasM Z :=
  match n with
  | O => cret current
  | S n' =>
      (r <- clift (int_floordiv i (cols layout)) ;;
       col <- clift (int_mod i (cols layout)) ;;
       fcol <- clift (float_of_int col) ;;
       let x := (margin_left layout + fcol * eff_pitch_x + off_x)%py in
       fr <- clift (float_of_int r) ;;
       let y := (page_h - margin_top layout - label_h layout
                 - fr * eff_pitch_y + off_y)%py in
       text <- clift (make_asn_text prefix current leading_zeros) ;;
       draw_label x y layout text kind draw_border ;;;
       label_loop n' (i + 1) (current + 1))%canvas
  end.

(** [for _ in range(pages)]; returns [(current, remaining)]. *)
Fixpoint page_loop (pages : nat) (current remaining : Z) : CanvasM (Z * Z) :=
  match pages with
  | O => cret (current, remaining)
  | S pages' =>
      let n_this_page := Z.min remaining (labels_per_page layout) in
      (current' <- label_loop (Z.to_nat n_this_page) 0 current ;;
       showPage ;;;
       page_loop pages' current' (remaining - n_this_page))%canvas
  end.

Definition raised (fs : gmap string Document) (e : PyExc) : GenRun :=
  {| run_files := fs; run_canvas := None; run_result := Raise e |}.

Definition generate_pdf (fs : gmap string Document) : GenRun :=
  if count <=? 0 then raised fs (ValueError "count must be > 0")
  else if start_number <=? 0 then raised fs (ValueError "start_number must be > 0")
  else if leading_zeros <? 0 then raised fs (ValueError "leading_zeros must be >= 0")
  else if String.eqb prefix "" then raised fs (ValueError "prefix must not be empty")
  else
    match (q <- int_true_div count (labels_per_page layout) ;; math_ceil q)%res with
    | Raise e => raised fs e
    | Ok pages =>
        match page_loop (Z.to_nat pages) start_number count (new_canvas output_path) with
        | (c, Raise e) =>
            {| run_files := fs; run_canvas := Some c; run_result := Raise e |}
        | (c, Ok (current, _)) =>
            {| run_files := save c fs; run_canvas := Some c;
               run_result := Ok (pages, current) |}
        end
    end.

End GeneratePdf.

(** ** Settings and the form *)

(** Built-in conversions of Python that the form relies on. *)
Class PyBuiltins : Type := {
  (** [float(s)], [None] when it raises [ValueError] *)
  float_of_str : string -> option pyfloat;
  (** [str(x)] of a float *)
  float_repr : pyfloat -> string;
  (** [int(s)], [None] when it raises [ValueError] *)
  int_of_str : string -> option Z;
}.

(** Values of a settings dictionary (what [json.loads] yields); [PyOther] is
    any other object, given by its [str()] and its truth value. *)
Inductive PyVal : Type :=
  | PyStr (s : string)
  | PyBool (b : bool)
  | PyInt (z : Z)
  | PyFloat (f : pyfloat)
  | PyNone
  | PyOther (text : string) (truth : bool).

Definition DEFAULT_SETTINGS : gmap string PyVal :=
  list_to_map [
    ("start", PyStr "1");
    ("mode", PyStr "labels");
    ("count", PyStr (int_str (labels_per_page AVERY_L4731)));
    ("pages", PyStr "1");
    ("prefix", PyStr "ASN");
    ("zeros", PyStr "7");
    ("kind", PyStr "QR");
    ("border", PyBool false);
    ("off_x", PyStr "0.0");
    ("off_y", PyStr "0.0");
    ("pitch_dx", PyStr "0.0");
    ("pitch_dy", PyStr "0.0")
  ].

Definition BASE_CALIBRATION_MM : gmap string pyfloat :=
  list_to_map [
    ("off_x", lit (-4.5));
    ("off_y", lit 7.0);
    ("pitch_dx", lit 1.2);
    ("pitch_dy", lit 0.42)
  ].

(** [BASE_CALIBRATION_MM[key]], read at the four keys above only. *)
Definition base_calibration (key : string) : pyfloat :=
  default S754_nan (BASE_CALIBRATION_MM !! key).

(** The Tk variables of [App] and the [_loading_settings] flag. *)
Record App : Type := {
  var_start : string;
  var_mode : string;
  var_count : string;
  var_pages : string;
  var_prefix : string;
  var_zeros : string;
  var_kind : string;
  var_border : bool;
  var_off_x : string;
  var_off_y : string;
  var_pitch_dx : string;
  var_pitch_dy : string;
  _loading_settings : bool;
}.

Section Form.

Context `{B : PyBuiltins}.

Definition py_str (v : PyVal) : string :=
  match v with
  | PyStr s => s
  | PyBool true => "True"
  | PyBool false => "False"
  | PyInt z => int_str z
  | PyFloat f => float_repr f
  | PyNone => "None"
  | PyOther text _ => text
  end.

Definition py_bool (v : PyVal) : bool :=
  match v with
  | PyStr s => negb (String.eqb s "")
  | PyBool b => b
  | PyInt z => negb (z =? 0)
  | PyFloat f => float_truth f
  | PyNone => false
  | PyOther _ truth => truth
  end.

Definition _settings_to_dict (self : App) : gmap string PyVal :=
  list_to_map [
    ("start", PyStr (var_start self));
    ("mode", PyStr (var_mode self));
    ("count", PyStr (var_count self));
    ("pages", PyStr (var_pages self));
    ("prefix", PyStr (var_prefix self));
    ("zeros", PyStr (var_zeros self));
    ("kind", PyStr (var_kind self));
    ("border", PyBool (var_border self));
    ("off_x", PyStr (var_off_x self));
    ("off_y", PyStr (var_off_y self));
    ("pitch_dx", PyStr (var_pitch_dx self));
    ("pitch_dy", PyStr (var_pitch_dy self));
    ("calibration_mode", PyStr "delta")
  ].

Definition _coerce_float (value : PyVal) : option pyfloat :=
  float_of_str (comma_to_dot (strip (py_str value))).

(** [str(d.get("calibration_mode", "")).strip().lower()] *)
Definition calibration_mode (d : gmap string PyVal) : string :=
  lower (strip (py_str (default (PyStr "") (d !! "calibration_mode")))).

(** The list [parsed] of the transitional case. *)
Definition parsed_calibration (d : gmap string PyVal) : list (option pyfloat) :=
  omap (fun k => _coerce_float <$> d !! k) ["off_x"; "off_y"; "pitch_dx"; "pitch_dy"].

Definition near_zero (v : option pyfloat) : bool :=
  match v with
  | Some f => fltb (fabs f) (lit 1e-9)
  | None => false
  end.

(** The flag [legacy_absolute] once the transitional case has been looked at. *)
Definition legacy_absolute (d : gmap string PyVal) : bool :=
  let mode := calibration_mode d in
  let legacy := negb (String.eqb mode "delta") in
  if String.eqb mode "" then
    let parsed := parsed_calibration d in
    if negb (bool_decide (parsed = [])) && forallb near_zero parsed then false
    else legacy
  else legacy.

(** The inner function [set_calibration_var]: the new content of [var]. *)
Definition set_calibration_var (d : gmap string PyVal) (key : string) (var : string)
  : string :=
  match d !! key with
  | None => var
  | Some v =>
      if legacy_absolute d then
        match _coerce_float v with
        | Some absolute => float_repr (absolute - base_calibration key)%py
        | None => py_str v
        end
      else py_str v
  end.

(** [if key in d: var.set(str(d[key]))] *)
Definition set_str_var (d : gmap string PyVal) (key : string) (var : string) : string :=
  match d !! key with
  | None => var
  | Some v => py_str v
  end.

Definition _apply_settings_from_dict (self : App) (d : gmap string PyVal) : App :=
  {| var_start := set_str_var d "start" (var_start self);
     var_mode := set_str_var d "mode" (var_mode self);
     var_count := set_str_var d "count" (var_count self);
     var_pages := set_str_var d "pages" (var_pages self);
     var_prefix := set_str_var d "prefix" (var_prefix self);
     var_zeros := set_str_var d "zeros" (var_zeros self);
     var_kind := set_str_var d "kind" (var_kind self);
     var_border := match d !! "border" with
                   | Some v => py_bool v
                   | None => var_border self
                   end;
     var_off_x := set_calibration_var d "off_x" (var_off_x self);
     var_off_y := set_calibration_var d "off_y" (var_off_y self);
     var_pitch_dx := set_calibration_var d "pitch_dx" (var_pitch_dx self);
     var_pitch_dy := set_calibration_var d "pitch_dy" (var_pitch_dy self);
     _loading_settings := false |}.

Definition _parse_int (s field : string) : Res Z :=
  match int_of_str (strip s) with
  | Some v => Ok v
  | None => Raise (ValueError (field +:+ " ist keine gültige Zahl."))
  end.

Definition _parse_float (s field : string) : Res pyfloat :=
  match float_of_str (comma_to_dot (strip s)) with
  | Some v => Ok v
  | None => Raise (ValueError (field +:+ " ist keine gültige Zahl (z.B. 0.2)."))
  end.

Definition _effective_count_and_pages (self : App) : Res (Z * Z) :=
  (if String.eqb (var_mode self) "pages" then
     pages <- _parse_int (var_pages self) "Anzahl A4 Blätter" ;;
     if pages <=? 0 then Raise (ValueError "Anzahl A4 Blätter muss > 0 sein.")
     else Ok (pages * labels_per_page AVERY_L4731, pages)
   else
     count <- _parse_int (var_count self) "Anzahl Labels" ;;
     if count <=? 0 then Raise (ValueError "Anzahl Labels muss > 0 sein.")
     else
       q <- int_true_div count (labels_per_page AVERY_L4731) ;;
       pages <- math_ceil q ;;
       Ok (count, pages))%res.

Definition _calibration_delta (self : App)
  : Res (pyfloat * pyfloat * pyfloat * pyfloat) :=
  (off_x <- _parse_float (var_off_x self) "Offset X" ;;
   off_y <- _parse_float (var_off_y self) "Offset Y" ;;
   pdx <- _parse_float (var_pitch_dx self) "Spalten-Pitch Δ" ;;
   pdy <- _parse_float (var_pitch_dy self) "Zeilen-Pitch Δ" ;;
   Ok (off_x, off_y, pdx, pdy))%res.

Definition _calibration (self : App) : Res (pyfloat * pyfloat * pyfloat * pyfloat) :=
  (delta <- _calibration_delta self ;;
   let '(off_x_delta, off_y_delta, pdx_delta, pdy_delta) := delta in
   Ok ((base_calibration "off_x" + off_x_delta)%py,
       (base_calibration "off_y" + off_y_delta)%py,
       (base_calibration "pitch_dx" + pdx_delta)%py,
       (base_calibration "pitch_dy" + pdy_delta)%py))%res.

(** The arguments of the call of [generate_pdf] in [on_generate_pdf]. *)
Record GenerateCall : Type := {
  call_output_path : string;
  call_start_number : Z;
  call_count : Z;
  call_prefix : string;
  call_leading_zeros : Z;
  call_kind : BarcodeKind;
  call_layout : SheetLayout;
  call_draw_border : bool;
  call_offset_x_mm : pyfloat;
  call_offset_y_mm : pyfloat;
  call_pitch_dx_mm : pyfloat;
  call_pitch_dy_mm : pyfloat;
}.

Definition run_call (a : GenerateCall) (fs : gmap string Document) : GenRun :=
  generate_pdf (call_output_path a) (call_start_number a) (call_count a)
    (call_prefix a) (call_leading_zeros a) (call_kind a) (call_layout a)
    (call_draw_border a) (call_offset_x_mm a) (call_offset_y_mm a)
    (call_pitch_dx_mm a) (call_pitch_dy_mm a) fs.

(** What the user sees of [on_generate_pdf]. *)
Inductive UiOutcome : Type :=
  | ShowError (msg : string)       (* messagebox.showerror("Fehler", str(e)) *)
  | Cancelled                      (* the save dialog returned no path *)
  | Generated (a : GenerateCall) (pages_generated next_number : Z).

(** The [try] body of [on_generate_pdf] up to the save dialog: what is
    read from the form, and the proposed file name. *)
Definition read_form (self : App)
  : Res (Z * Z * string * Z * BarcodeKind * (pyfloat * pyfloat * pyfloat * pyfloat) * string) :=
  (start <- _parse_int (var_start self) "Start-Nummer" ;;
   zeros <- _parse_int (var_zeros self) "Führende Nullen" ;;
   let prefix := strip (var_prefix self) in
   if String.eqb prefix "" then Raise (ValueError "Prefix darf nicht leer sein.")
   else
     count_pages <- _effective_count_and_pages self ;;
     let '(count, _pages) := count_pages in
     let kind := if String.eqb (var_kind self) "QR" then QR else CODE128 in
     cal <- _calibration self ;;
     let default_name :=
       "asn_labels_" +:+ int_str start +:+ "_" +:+ int_str count +:+ ".pdf" in
     Ok (start, zeros, prefix, count, kind, cal, default_name))%res.

(** [asksaveasfilename] is the user's answer to the save dialog, from the
    proposed file name; the empty string when the dialog is dismissed. *)
Definition on_generate_pdf (self : App) (asksaveasfilename : string -> string)
    (fs : gmap string Document) : App * gmap string Document * UiOutcome :=
  match read_form self with
  | Raise e => (self, fs, ShowError (exc_message e))
  | Ok (start, zeros, prefix, count, kind, (off_x, off_y, pdx, pdy), default_name) =>
      let out := asksaveasfilename default_name in
      if String.eqb out "" then (self, fs, Cancelled)
      else
        let a := {| call_output_path := out; call_start_number := start;
                    call_count := count; call_prefix := prefix;
                    call_leading_zeros := zeros; call_kind := kind;
                    call_layout := AVERY_L4731;
                    call_draw_border := var_border self;
                    call_offset_x_mm := off_x; call_offset_y_mm := off_y;
                    call_pitch_dx_mm := pdx; call_pitch_dy_mm := pdy |} in
        let run := run_call a fs in
        match run_result run with
        | Raise e => (self, run_files run, ShowError (exc_message e))
        | Ok (pages_generated, next_number) =>
            ({| var_start := int_str next_number;
                var_mode := var_mode self; var_count := var_count self;
                var_pages := var_pages self; var_prefix := var_prefix self;
                var_zeros := var_zeros self; var_kind := var_kind self;
                var_border := var_border self; var_off_x := var_off_x self;
                var_off_y := var_off_y self; var_pitch_dx := var_pitch_dx self;
                var_pitch_dy := var_pitch_dy self;
                _loading_settings := _loading_settings self |},
             run_files run, Generated a pages_generated next_number)
        end
  end.

End Form.

(** ** Vocabulary of the statements *)

(** The integer ceiling of [a / b] for a positive [b]. *)
Definition ceil_div (a b : Z) : Z := - ((- a) / b).

(** Two floats that are the same number: identical, or zeros that differ
    at most in sign ([-0.0 == 0.0] in Python). *)
Definition same_float (x y : pyfloat) : Prop :=
  x = y \/ (is_zero x = true /\ is_zero y = true).

Definition pzero : pyfloat := S754_zero false.

(** The location of [q / 2] from the location [l] of [q] (one [shr_1]). *)
Definition loc_halved (q : Z) (l : location) : location :=
  match Z.odd q, l with
  | false, loc_Exact => loc_Exact
  | false, loc_Inexact _ => loc_Inexact Lt
  | true, loc_Exact => loc_Inexact Eq
  | true, loc_Inexact _ => loc_Inexact Gt
  end.

Section Expected.

Variables (start_number count : Z) (prefix : string)
          (leading_zeros : Z) (kind : BarcodeKind) (layout : SheetLayout)
          (draw_border : bool)
          (offset_x_mm offset_y_mm pitch_dx_mm pitch_dy_mm : pyfloat).

(** Origin of the label rectangle at [column] / at [row]. *)
Definition origin_x (column : Z) : pyfloat :=
  (margin_left layout + Z2SF column * eff_pitch_x layout pitch_dx_mm
   + off_x offset_x_mm)%py.

Definition origin_y (row : Z) : pyfloat :=
  (page_h - margin_top layout - label_h layout
   - Z2SF row * eff_pitch_y layout pitch_dy_mm + off_y offset_y_mm)%py.

(** The same origins on the base layout alone, no calibration. *)
Definition base_origin_x (column : Z) : pyfloat :=
  (margin_left layout + Z2SF column * pitch_x layout)%py.

Definition base_origin_y (row : Z) : pyfloat :=
  (page_h - margin_top layout - label_h layout - Z2SF row * pitch_y layout)%py.

(** The label of within-page index [i] that carries [number]. *)
Definition label_at (i number : Z) : DrawnLabel :=
  {| dl_x := origin_x (i mod cols layout);
     dl_y := origin_y (i / cols layout);
     dl_text := prefix +:+ format_0d number leading_zeros;
     dl_kind := kind;
     dl_border := draw_border |}.

(** Labels of the within-page indices [i, i + n), numbered from [number]. *)
Definition labels_from (i number n : Z) : Page :=
  (fun j => label_at (i + j) (number + j)) <$> seqZ 0 n.

(** Page [p] of a run that starts with [remaining] labels to place:
    how many labels it holds and the number of its first label. *)
Definition page_size (remaining p : Z) : Z :=
  Z.min (Z.max (remaining - p * labels_per_page layout) 0) (labels_per_page layout).

Definition page_first (current remaining p : Z) : Z :=
  current + Z.min (p * labels_per_page layout) remaining.

Definition page_at (current remaining p : Z) : Page :=
  labels_from 0 (page_first current remaining p) (page_size remaining p).

Definition pages_from (current remaining n : Z) : Document :=
  page_at current remaining <$> seqZ 0 n.

(** Why the label loop can stop at within-page index [j] with [e]. *)
Definition stop_cause (j : Z) (e : PyExc) : Prop :=
  (cols layout = 0 /\ exists m, e = ZeroDivisionError m) \/
  float_of_int (j mod cols layout) = Raise e \/
  float_of_int (j / cols layout) = Raise e \/
  (leading_zeros < 0 /\ exists m, e = ValueError m).

(** A page drawn by the label loop: consecutive indices from 0,
    consecutive numbers. *)
Definition drawn_page (pg : Page) : Prop :=
  exists number n, pg = labels_from 0 number n.

End Expected.

(** The texts of a document, in drawing order. *)
Definition texts_of (doc : Document) : list string :=
  dl_text <$> concat doc.

(** The canvas after more labels were drawn on the current page. *)
Definition add_current (c : Canvas) (ls : Page) : Canvas :=
  {| cv_filename := cv_filename c;
     cv_pages := cv_pages c;
     cv_current := cv_current c ++ ls |}.

(** The canvas after more pages were closed, with an empty current page. *)
Definition add_pages (c : Canvas) (pgs : list Page) : Canvas :=
  {| cv_filename := cv_filename c;
     cv_pages := cv_pages c ++ pgs;
     cv_current := [] |}.

(** Arguments [generate_pdf] accepts, and layouts of the data model
    (at least one column and one row). *)
Definition valid_input (start_number count leading_zeros : Z) (prefix : string) : Prop :=
  0 < start_number /\ 0 < count /\ 0 <= leading_zeros /\ prefix <> "".

Definition valid_layout (layout : SheetLayout) : Prop :=
  1 <= cols layout /\ 1 <= rows layout.


(** The zero-padded decimal text of a label number. *)
Definition padded_decimal (number leading_zeros : Z) : string :=
  zeros (Z.to_nat leading_zeros - String.length (dec_digits number)) +:+ dec_digits number.

(** Case analysis on floats that are zeros. *)
Local Ltac same_float_cases :=
  repeat match goal with
         | H : is_zero ?x = true |- _ =>
             destruct x; try discriminate H; clear H
         end;
  repeat match goal with
         | x : pyfloat |- _ => destruct x as [[]|[]| |[] ? ?]
         | s : bool |- _ => destruct s
         end;
  unfold same_float; cbn; auto.

(** The Tk variable a calibration key is loaded into. *)
Definition calibration_var (key : string) (self : App) : string :=
  if String.eqb key "off_x" then var_off_x self
  else if String.eqb key "off_y" then var_off_y self
  else if String.eqb key "pitch_dx" then var_pitch_dx self
  else var_pitch_dy self.

Definition calibration_keys : list string := ["off_x"; "off_y"; "pitch_dx"; "pitch_dy"].

(** A table of the built-in conversions, enough for the examples: Python
    gives [float("0.0") = 0.0], [float("-4.0") = -4.0], [str(0.5) = "0.5"],
    [int("1") = 1] and so on. *)
Definition example_builtins : PyBuiltins := {|
  float_of_str := fun s =>
    if String.eqb s "0.0" then Some (lit 0.0)
    else if String.eqb s "-4.0" then Some (lit (-4.0))
    else None;
  float_repr := fun f =>
    if SFeqb f (lit 0.5) then "0.5" else "";
  int_of_str := fun s =>
    if String.eqb s "1" then Some 1
    else if String.eqb s "7" then Some 7
    else if String.eqb s "9" then Some 9
    else None;
|}.

(** The form as a fresh installation shows it, asked for 9 labels. *)
Definition example_app : App := {|
  var_start := "1"; var_mode := "labels"; var_count := "9"; var_pages := "1";
  var_prefix := "ASN"; var_zeros := "7"; var_kind := "QR"; var_border := false;
  var_off_x := "0.0"; var_off_y := "0.0"; var_pitch_dx := "0.0"; var_pitch_dy := "0.0";
  _loading_settings := false;
|}.


(** ** More of the program *)

(** What follows embeds the code the properties of the specification do not
    reach: the sizes inside a label, the label preview, the defaults, and
    the autosave. *)

(** ** More of Python's numbers *)

(** [x <= y] on floats. *)
Definition fleb : pyfloat -> pyfloat -> bool := SFleb.

(** [x / y] on floats: a zero divisor raises. *)
Definition float_true_div (x y : pyfloat) : Res pyfloat :=
  if is_zero y then Raise (ZeroDivisionError "float division by zero")
  else Ok (x / y)%py.

(** [min(a, b)] and [max(a, b)] on floats: the first argument, unless the
    second is strictly smaller (larger); a comparison with NaN is false. *)
Definition float_min (a b : pyfloat) : pyfloat := if fltb b a then b else a.
Definition float_max (a b : pyfloat) : pyfloat := if fltb a b then b else a.

(** The integer part of [sm * 2^e], rounded towards zero. *)
Definition trunc_pow2 (sm e : Z) : Z :=
  if 0 <=? e then sm * 2 ^ e else Z.quot sm (2 ^ (- e)).

(** [int(x)] of a float. *)
Definition int_of_float (x : pyfloat) : Res Z :=
  match x with
  | S754_zero _ => Ok 0
  | S754_finite s m e => Ok (trunc_pow2 (cond_Zopp s (Z.pos m)) e)
  | S754_infinity _ => Raise (OverflowError "cannot convert float infinity to integer")
  | S754_nan => Raise (ValueError "cannot convert float NaN to integer")
  end.

(** ** The sizes inside a label *)

(** The locals of [draw_label]: where the code symbol and the text go in
    the rectangle at [(x, y)], and how large they are.  [width] is the
    width [float(b.width)] that reportlab gives the Code128 barcode. *)
Module DrawLabel.

Section Locals.

Variables (x y : pyfloat) (layout : SheetLayout).

Definition pad : pyfloat := (lit 1.0 * mm)%py.
Definition code_size : pyfloat := (label_h layout * lit 0.90)%py.
Definition code_x : pyfloat := (x + pad)%py.
Definition code_y : pyfloat := (y + (label_h layout - code_size) / lit 2.0)%py.

(** [max(80, int(code_size * dpi / 72.0))] with [dpi = 600] *)
Definition target_px : Res Z :=
  (n <- int_of_float (code_size * lit 600 / lit 72.0)%py ;; Ok (Z.max 80 n))%res.

(** [barHeight=code_size * 0.85] *)
Definition barHeight : pyfloat := (code_size * lit 0.85)%py.

(** [min(1.0, desired_w / float(b.width))] with [desired_w = code_size] *)
Definition scale (width : pyfloat) : Res pyfloat :=
  (q <- float_true_div code_size width ;; Ok (float_min (lit 1.0) q))%res.

Definition text_x : pyfloat := (code_x + code_size + pad)%py.

(** [max(5.5, min(8.0, (layout.label_h / mm) * 0.55))]; [mm] is not zero. *)
Definition font_size : pyfloat :=
  float_max (lit 5.5) (float_min (lit 8.0) (label_h layout / mm * lit 0.55)%py).

(** The baseline of the text: [y + (layout.label_h - font_size) / 2.0] *)
Definition text_y : pyfloat := (y + (label_h layout - font_size) / lit 2.0)%py.

End Locals.

End DrawLabel.

(** Whether the label rectangle with origin [(x, y)] lies on the A4 page. *)
Definition on_page (layout : SheetLayout) (x y : pyfloat) : bool :=
  fleb (lit 0.0) x && fleb (x + label_w layout)%py (fst A4) &&
  fleb (lit 0.0) y && fleb (y + label_h layout)%py (snd A4).

Section Preview.

Context `{B : PyBuiltins}.

(** The text of the preview label. *)
Definition _current_text (self : App) : Res string :=
  (start <- _parse_int (var_start self) "Start-Nummer" ;;
   zeros <- _parse_int (var_zeros self) "Führende Nullen" ;;
   let prefix := strip (var_prefix self) in
   if String.eqb prefix "" then Raise (ValueError "Prefix darf nicht leer sein.")
   else if start <=? 0 then Raise (ValueError "Start-Nummer muss > 0 sein.")
   else if zeros <? 0 then Raise (ValueError "Führende Nullen muss >= 0 sein.")
   else make_asn_text prefix start zeros)%res.

End Preview.

(** The form after [self.var_start.set(s)]. *)
Definition with_var_start (self : App) (s : string) : App :=
  {| var_start := s;
     var_mode := var_mode self; var_count := var_count self;
     var_pages := var_pages self; var_prefix := var_prefix self;
     var_zeros := var_zeros self; var_kind := var_kind self;
     var_border := var_border self; var_off_x := var_off_x self;
     var_off_y := var_off_y self; var_pitch_dx := var_pitch_dx self;
     var_pitch_dy := var_pitch_dy self;
     _loading_settings := _loading_settings self |}.

(** [DEFAULT_SETTINGS[key]] for a key whose default is a string. *)
Definition default_setting (key : string) : string :=
  match DEFAULT_SETTINGS !! key with
  | Some (PyStr s) => s
  | _ => ""
  end.

(** The Tk variables as [App.__init__] creates them, before any settings
    are loaded. *)
Definition initial_vars : App := {|
  var_start := default_setting "start";
  var_mode := default_setting "mode";
  var_count := default_setting "count";
  var_pages := default_setting "pages";
  var_prefix := default_setting "prefix";
  var_zeros := default_setting "zeros";
  var_kind := default_setting "kind";
  var_border := match DEFAULT_SETTINGS !! "border" with
                | Some (PyBool b) => b
                | _ => false
                end;
  var_off_x := default_setting "off_x";
  var_off_y := default_setting "off_y";
  var_pitch_dx := default_setting "pitch_dx";
  var_pitch_dy := default_setting "pitch_dy";
  _loading_settings := false;
|}.

(** A string of white space only. *)
Fixpoint all_space (s : string) : bool :=
  match s with
  | String c s' => is_space c && all_space s'
  | EmptyString => true
  end.

(** ** Autosave *)

(** Tk's timers as far as [_schedule_save] uses them: [after(ms, f)] queues
    a job due [ms] milliseconds from now and returns its id, a new one each
    time; [after_cancel(id)] removes the job if it is still queued, and
    does nothing otherwise.  The only callback the program queues is
    [_save_settings_now]. *)
Record Timers : Type := {
  queue : list (nat * Z);   (* job id, due time *)
  next_id : nat;
}.

Definition after (ms now : Z) (t : Timers) : nat * Timers :=
  (next_id t,
   {| queue := queue t ++ [(next_id t, now + ms)]; next_id := S (next_id t) |}).

Definition after_cancel (id : nat) (t : Timers) : Timers :=
  {| queue := filter (fun job => negb (Nat.eqb (fst job) id)) (queue t);
     next_id := next_id t |}.

(** The attribute [_save_job], the timers, and how often
    [_save_settings_now] has been called by a timer. *)
Record Saver : Type := {
  _save_job : option nat;
  tk : Timers;
  saves : nat;
}.

Definition _schedule_save (self : App) (now : Z) (s : Saver) : Saver :=
  if _loading_settings self then s
  else
    let t := match _save_job s with
             | Some id => after_cancel id (tk s)
             | None => tk s
             end in
    let '(id, t') := after 500 now t in
    {| _save_job := Some id; tk := t'; saves := saves s |}.

(** The main loop at time [now]: the jobs that are due run and leave the
    queue. *)
Definition run_due (now : Z) (s : Saver) : Saver :=
  {| _save_job := _save_job s;
     tk := {| queue := filter (fun job => negb (snd job <=? now)) (queue (tk s));
              next_id := next_id (tk s) |};
     saves := saves s + length (filter (fun job => snd job <=? now) (queue (tk s))) |}.

(** What happens to the autosave: a watched variable is written (its trace
    calls [_schedule_save]), or the main loop gets to run the timers. *)
Inductive SaveEvent : Type :=
  | VarWritten (now : Z)
  | MainLoop (now : Z).

Definition save_step (self : App) (s : Saver) (ev : SaveEvent) : Saver :=
  match ev with
  | VarWritten now => _schedule_save self now s
  | MainLoop now => run_due now s
  end.

(** The state [App.__init__] leaves: no job, nothing queued. *)
Definition no_save_job : Saver :=
  {| _save_job := None; tk := {| queue := []; next_id := 0 |}; saves := 0 |}.

(** Every queued job is the one [_save_job] names. *)
Definition only_save_job (s : Saver) : Prop :=
  forall job, job ∈ queue (tk s) -> _save_job s = Some (fst job).

(** ** More vocabulary and examples *)



(** Whether the square of the code symbol lies in the label rectangle with
    origin [(x, y)], and whether the text starts in it and is as high as
    its font at most. *)
Definition code_in_label (layout : SheetLayout) (x y : pyfloat) : bool :=
  fleb x (DrawLabel.code_x x) &&
  fleb (DrawLabel.code_x x + DrawLabel.code_size layout)%py (x + label_w layout)%py &&
  fleb y (DrawLabel.code_y y layout) &&
  fleb (DrawLabel.code_y y layout + DrawLabel.code_size layout)%py (y + label_h layout)%py.

Definition text_in_label (layout : SheetLayout) (x y : pyfloat) : bool :=
  fleb (DrawLabel.code_x x + DrawLabel.code_size layout)%py (DrawLabel.text_x x layout) &&
  fleb (DrawLabel.text_x x layout) (x + label_w layout)%py &&
  fleb y (DrawLabel.text_y y layout) &&
  fleb (DrawLabel.text_y y layout + DrawLabel.font_size layout)%py (y + label_h layout)%py.

(** The fields of the form that hold numbers, with the names the messages
    give them, and the messages of the form's own checks. *)
Definition int_fields : list string :=
  ["Start-Nummer"; "Führende Nullen"; "Anzahl A4 Blätter"; "Anzahl Labels"].

Definition float_fields : list string :=
  ["Offset X"; "Offset Y"; "Spalten-Pitch Δ"; "Zeilen-Pitch Δ"].

Definition form_messages : list string :=
  ((fun field => field +:+ " ist keine gültige Zahl.") <$> int_fields) ++
  ((fun field => field +:+ " ist keine gültige Zahl (z.B. 0.2).") <$> float_fields) ++
  ["Prefix darf nicht leer sein."; "Anzahl A4 Blätter muss > 0 sein.";
   "Anzahl Labels muss > 0 sein."].

(** A string of ASCII digits. *)
Definition all_digits (s : string) : bool :=
  forallb (fun c => ((48 <=? N_of_ascii c) && (N_of_ascii c <=? 57))%N)
          (list_ascii_of_string s).

(** Built-in conversions for more examples: [int] of a string of ASCII
    digits, [float("0.0") = 0.0] and [float("0.2") = 0.2]. *)
Definition digit_builtins : PyBuiltins := {|
  float_of_str := fun s =>
    if String.eqb s "0.0" then Some (lit 0.0)
    else if String.eqb s "0.2" then Some (lit 0.2)
    else None;
  float_repr := fun f => if SFeqb f (lit 0.0) then "0.0" else "";
  int_of_str := fun s =>
    if negb (String.eqb s "") && all_digits s then Some (dec_value s) else None;
|}.

(** The form asked for one sheet, and the form with a start number of 0. *)
Definition example_pages_app : App := {|
  var_start := "1"; var_mode := "pages"; var_count := "9"; var_pages := "1";
  var_prefix := "ASN"; var_zeros := "7"; var_kind := "QR"; var_border := false;
  var_off_x := "0.0"; var_off_y := "0.0"; var_pitch_dx := "0.0"; var_pitch_dy := "0.0";
  _loading_settings := false;
|}.

Definition example_zero_start_app : App := {|
  var_start := "0"; var_mode := "labels"; var_count := "9"; var_pages := "1";
  var_prefix := "ASN"; var_zeros := "7"; var_kind := "QR"; var_border := false;
  var_off_x := "0.0"; var_off_y := "0.0"; var_pitch_dx := "0.0"; var_pitch_dy := "0.0";
  _loading_settings := false;
|}.

(** The calls of [generate_pdf] these forms lead to, with the base
    calibration. *)
Definition example_call : GenerateCall := {|
  call_output_path := "labels.pdf"; call_start_number := 1; call_count := 9;
  call_prefix := "ASN"; call_leading_zeros := 7; call_kind := QR;
  call_layout := AVERY_L4731; call_draw_border := false;
  call_offset_x_mm := lit (-4.5); call_offset_y_mm := lit 7.0;
  call_pitch_dx_mm := lit 1.2; call_pitch_dy_mm := lit 0.42;
|}.

Definition example_pages_call : GenerateCall := {|
  call_output_path := "labels.pdf"; call_start_number := 1; call_count := 189;
  call_prefix := "ASN"; call_leading_zeros := 7; call_kind := QR;
  call_layout := AVERY_L4731; call_draw_border := false;
  call_offset_x_mm := lit (-4.5); call_offset_y_mm := lit 7.0;
  call_pitch_dx_mm := lit 1.2; call_pitch_dy_mm := lit 0.42;
|}.

(** A record of the transitional version: no tag, offsets of zero. *)
Definition example_untagged_record : gmap string PyVal :=
  list_to_map [("off_x", PyStr "0.0"); ("off_y", PyStr "0.0")].

(** Two runs on the shipped sheet, the second from where the first stopped. *)
Definition example_first_run : GenRun :=
  generate_pdf "first.pdf" 1 9 "ASN" 7 QR AVERY_L4731 false pzero pzero pzero pzero ∅.

Definition example_second_run : GenRun :=
  generate_pdf "second.pdf" 10 3 "ASN" 7 CODE128 AVERY_L4731 true
    pzero pzero pzero pzero (run_files example_first_run).

(** * Properties *)

(** ** Binary64 rounding *)

Section Rounding.

Lemma Zdigits2_log2 n : 0 < n -> Zdigits2 n = Z.log2 n + 1.
Proof.
  destruct n as [|p|p]; try lia. intros _. simpl.
  induction p as [p IH|p IH|]; simpl; try reflexivity.
  - rewrite Pos2Z.inj_succ, IH. destruct p; simpl; lia.
  - rewrite Pos2Z.inj_succ, IH. destruct p; simpl; lia.
Qed.

Lemma Zdigits2_bounds n : 0 < n -> 2 ^ (Zdigits2 n - 1) <= n < 2 ^ Zdigits2 n.
Proof.
  intros Hn. rewrite Zdigits2_log2 by lia.
  replace (Z.log2 n + 1 - 1) with (Z.log2 n) by lia.
  replace (Z.log2 n + 1) with (Z.succ (Z.log2 n)) by lia.
  apply Z.log2_spec; lia.
Qed.

Lemma Zdigits2_unique n d : 0 < d -> 2 ^ (d - 1) <= n < 2 ^ d -> Zdigits2 n = d.
Proof.
  intros Hd Hn.
  assert (0 < n) by (assert (0 < 2 ^ (d - 1)) by (apply Z.pow_pos_nonneg; lia); lia).
  rewrite Zdigits2_log2 by lia.
  assert (Z.log2 n = d - 1); [|lia].
  apply Z.log2_unique; [lia|]. replace (Z.succ (d - 1)) with d by lia. exact Hn.
Qed.

Lemma Zdigits2_range n : 0 < n < 2 ^ 53 -> 1 <= Zdigits2 n <= 53.
Proof.
  intros Hn. pose proof (Zdigits2_bounds n ltac:(lia)) as Hb.
  set (d := Zdigits2 n) in *. split.
  - destruct (Z_lt_le_dec d 1) as [Hlt|]; [|lia]. exfalso.
    assert (2 ^ d <= 2 ^ 0); [|simpl in *; lia].
    destruct (Z_lt_le_dec d 0); [rewrite Z.pow_neg_r by lia; simpl; lia|].
    apply Z.pow_le_mono_r; lia.
  - destruct (Z_lt_le_dec 53 d) as [Hlt|]; [|lia]. exfalso.
    assert (2 ^ 53 <= 2 ^ (d - 1)) by (apply Z.pow_le_mono_r; lia). lia.
Qed.

(** The location of a quotient from its remainder. *)
Lemma new_location_spec l r : 0 < l -> 0 <= r < l ->
  new_location l r = if r =? 0 then loc_Exact else loc_Inexact (2 * r ?= l).
Proof.
  intros Hl Hr. unfold new_location, new_location_even, new_location_odd.
  destruct (Z.even l) eqn:He; destruct (r =? 0) eqn:Hr0; try reflexivity.
  f_equal.
  assert (Z.odd l = true) as Ho by (rewrite <- Z.negb_even, He; reflexivity).
  apply Z.odd_spec in Ho. destruct Ho as [k Hk].
  destruct (2 * r + 1 ?= l) eqn:C1; destruct (2 * r ?= l) eqn:C2; try reflexivity;
    rewrite ?Z.compare_eq_iff, ?Z.compare_lt_iff, ?Z.compare_gt_iff in *; lia.
Qed.

Lemma shr_fexp_53 m e l : Zdigits2 m = 53 -> -1074 <= e ->
  shr_fexp prec emax m e l = (shr_record_of_loc m l, e).
Proof.
  intros Hd He. unfold shr_fexp. rewrite Hd.
  replace (fexp prec emax (53 + e) - e) with 0
    by (unfold fexp, SpecFloat.emin, prec, emax; lia).
  reflexivity.
Qed.

Lemma shr_fexp_54 m e l : Zdigits2 m = 54 -> -1075 <= e ->
  shr_fexp prec emax m e l = (shr_1 (shr_record_of_loc m l), e + 1).
Proof.
  intros Hd He. unfold shr_fexp. rewrite Hd.
  replace (fexp prec emax (54 + e) - e) with 1
    by (unfold fexp, SpecFloat.emin, prec, emax; lia).
  reflexivity.
Qed.

Lemma loc_of_shr_record_of_loc m l :
  loc_of_shr_record (shr_record_of_loc m l) = l /\ shr_m (shr_record_of_loc m l) = m.
Proof. destruct l as [|[]]; split; reflexivity. Qed.

Lemma shr_1_of_loc q l : 0 < q ->
  shr_m (shr_1 (shr_record_of_loc q l)) = q / 2 /\
  loc_of_shr_record (shr_1 (shr_record_of_loc q l)) = loc_halved q l.
Proof.
  intros Hq. destruct q as [|p|p]; try lia.
  assert (Hdiv : forall p', Z.pos p'~0 / 2 = Z.pos p' /\ Z.pos p'~1 / 2 = Z.pos p').
  { intros p'. split.
    - rewrite Pos2Z.inj_xO. rewrite Z.mul_comm, Z.div_mul; lia.
    - rewrite Pos2Z.inj_xI. symmetry. apply Z.div_unique with (r := 1); lia. }
  destruct p as [p|p|]; destruct l as [|[]]; unfold loc_halved; simpl Z.odd;
    cbn -[Z.div]; split; try reflexivity; symmetry; apply Hdiv.
Qed.

(** The tail of [binary_round_aux]: a rounded mantissa of 53 bits, or
    2^53 after a carry, is renormalised without a change of value. *)
Lemma binary_round_aux_tail sx R e :
  2 ^ 52 <= R <= 2 ^ 53 -> -1074 <= e <= 970 ->
  exists m e2,
    (let '(mrs, e'') := shr_fexp prec emax R e loc_Exact in
     match shr_m mrs with
     | Z0 => S754_zero sx
     | Zpos m =>
         if e'' <=? emax - prec then S754_finite sx m e'' else S754_infinity sx
     | _ => S754_nan
     end) = S754_finite sx m e2 /\
    e <= e2 /\ Z.pos m * 2 ^ (e2 - e) = R.
Proof.
  intros HR He.
  destruct (Z.eq_dec R (2 ^ 53)) as [->|Hne].
  - rewrite shr_fexp_54 by (reflexivity || lia).
    cbn [shr_record_of_loc].
    change (shr_1 {| shr_m := 2 ^ 53; shr_r := false; shr_s := false |})
      with {| shr_m := 2 ^ 52; shr_r := false; shr_s := false |}.
    cbn [shr_m]. change (2 ^ 52) with (Z.pos (2 ^ 52)%positive) at 1.
    cbv iota.
    replace (e + 1 <=? emax - prec) with true
      by (symmetry; apply Z.leb_le; unfold emax, prec; lia).
    eexists _, _. split; [reflexivity|]. split; [lia|].
    replace (e + 1 - e) with 1 by lia. reflexivity.
  - assert (Hd : Zdigits2 R = 53)
      by (apply Zdigits2_unique; [lia|]; change (53 - 1) with 52; lia).
    rewrite shr_fexp_53 by (assumption || lia).
    cbn [shr_record_of_loc shr_m].
    assert (0 < R) by lia. destruct R as [|m|m]; try lia.
    replace (e <=? emax - prec) with true
      by (symmetry; apply Z.leb_le; unfold emax, prec; lia).
    eexists _, _. split; [reflexivity|]. split; [lia|].
    rewrite Z.sub_diag. lia.
Qed.

Lemma rne_range q l : q <= round_nearest_even q l <= q + 1.
Proof. destruct l as [|[]]; simpl; try destruct (Z.even q); lia. Qed.

Lemma binary_round_aux_53 sx q e l :
  2 ^ 52 <= q < 2 ^ 53 -> -1074 <= e <= 970 ->
  exists m e2,
    binary_round_aux prec emax sx q e l = S754_finite sx m e2 /\
    e <= e2 /\ Z.pos m * 2 ^ (e2 - e) = round_nearest_even q l.
Proof.
  intros Hq He. unfold binary_round_aux.
  assert (Hd : Zdigits2 q = 53)
    by (apply Zdigits2_unique; [lia|]; change (53 - 1) with 52; lia).
  rewrite shr_fexp_53 by (assumption || lia).
  destruct (loc_of_shr_record_of_loc q l) as [-> ->].
  apply binary_round_aux_tail; [|lia].
  pose proof (rne_range q l). lia.
Qed.

Lemma binary_round_aux_54 sx q e l :
  2 ^ 53 <= q < 2 ^ 54 -> -1075 <= e <= 969 ->
  exists m e2,
    binary_round_aux prec emax sx q e l = S754_finite sx m e2 /\
    e + 1 <= e2 /\
    Z.pos m * 2 ^ (e2 - (e + 1)) = round_nearest_even (q / 2) (loc_halved q l).
Proof.
  intros Hq He. unfold binary_round_aux.
  assert (Hd : Zdigits2 q = 54)
    by (apply Zdigits2_unique; [lia|]; change (54 - 1) with 53; lia).
  rewrite shr_fexp_54 by (assumption || lia).
  destruct (shr_1_of_loc q l) as [-> ->]; [lia|].
  apply binary_round_aux_tail; [|lia].
  pose proof (rne_range (q / 2) (loc_halved q l)).
  assert (2 ^ 52 <= q / 2 < 2 ^ 53); [|lia].
  split; [apply Z.div_le_lower_bound; lia | apply Z.div_lt_upper_bound; lia].
Qed.

Lemma ceil_pow2_shift a k e : 0 <= k -> ceil_pow2 (a * 2 ^ k) e = ceil_pow2 a (e + k).
Proof.
  intros Hk. unfold ceil_pow2.
  destruct (Z.leb_spec 0 e) as [He|He]; destruct (Z.leb_spec 0 (e + k)) as [Hek|Hek];
    try lia.
  - rewrite Z.pow_add_r by lia. lia.
  - replace k with (e + k + - e) at 1 by lia.
    rewrite Z.pow_add_r by lia.
    replace (- (a * (2 ^ (e + k) * 2 ^ (- e)))) with ((- a * 2 ^ (e + k)) * 2 ^ (- e))
      by lia.
    rewrite Z.div_mul by (apply Z.pow_nonzero; lia). lia.
  - replace (- e) with (- (e + k) + k) by lia.
    rewrite (Z.pow_add_r 2 (- (e + k)) k) by lia.
    replace (- (a * 2 ^ k)) with (- a * 2 ^ k) by lia.
    rewrite Z.div_mul_cancel_r; try (apply Z.pow_nonzero; lia). reflexivity.
Qed.

Lemma ceil_pow2_char R e K : e <= 0 ->
  (K - 1) * 2 ^ (- e) < R <= K * 2 ^ (- e) -> ceil_pow2 R e = K.
Proof.
  intros He HR. unfold ceil_pow2.
  assert (HD : 0 < 2 ^ (- e)) by (apply Z.pow_pos_nonneg; lia).
  destruct (Z.leb_spec 0 e) as [He'|He'].
  - assert (e = 0) by lia. subst e. simpl in *. lia.
  - assert (- R / 2 ^ (- e) = - K); [|lia].
    symmetry. apply Z.div_unique with (r := K * 2 ^ (- e) - R); lia.
Qed.

(** [ceil_div] is the integer ceiling. *)
Lemma ceil_div_char c l : 0 < l -> (ceil_div c l - 1) * l < c <= ceil_div c l * l.
Proof.
  intros Hl. unfold ceil_div.
  pose proof (Z.div_mod (- c) l ltac:(lia)).
  pose proof (Z.mod_pos_bound (- c) l Hl). nia.
Qed.

Lemma ceil_div_unique c l K : 0 < l -> (K - 1) * l < c <= K * l -> ceil_div c l = K.
Proof.
  intros Hl HK. pose proof (ceil_div_char c l Hl). nia.
Qed.

End Rounding.

(** ** The page count: [math.ceil(count / labels_per_page)] *)

Lemma round_53_bounds c l q r P K loc :
  0 < l -> c * P = l * q + r -> 0 <= r < l -> (K - 1) * l < c <= K * l -> l < P ->
  loc = (if r =? 0 then loc_Exact else loc_Inexact (2 * r ?= l)) ->
  (K - 1) * P < round_nearest_even q loc <= K * P.
Proof.
  intros Hl Hq Hr HK HP ->.
  assert (Hlo : (K - 1) * P < q) by nia.
  assert (Hhi : q <= K * P) by nia.
  destruct (Z.eqb_spec r 0) as [Hr0|Hr0]; simpl; [lia|].
  assert (q < K * P) by nia.
  destruct (2 * r ?= l); try destruct (Z.even q); lia.
Qed.

Lemma round_54_bounds c l q r P' K loc :
  0 < l -> c * (2 * P') = l * q + r -> 0 <= r < l -> (K - 1) * l < c <= K * l ->
  l < 2 * P' -> 0 < q ->
  loc = (if r =? 0 then loc_Exact else loc_Inexact (2 * r ?= l)) ->
  (K - 1) * P' < round_nearest_even (q / 2) (loc_halved q loc) <= K * P'.
Proof.
  intros Hl Hq Hr HK HP Hq0 ->.
  pose proof (Z.div_mod q 2 ltac:(lia)) as Hdm.
  rewrite Zmod_odd in Hdm.
  set (h := q / 2) in *.
  unfold loc_halved.
  destruct (Z.odd q) eqn:Hodd.
  - assert (Hlo : (K - 1) * P' <= h) by nia.
    assert (Hhi : h < K * P') by nia.
    destruct (Z.eqb_spec r 0) as [Hr0|Hr0]; simpl.
    + assert ((K - 1) * P' < h) by nia.
      destruct (Z.even h); lia.
    + lia.
  - assert (Hlo : (K - 1) * P' < h) by nia.
    assert (Hhi : h <= K * P') by nia.
    destruct (Z.eqb_spec r 0) as [Hr0|Hr0]; simpl; lia.
Qed.

(** Below 2^53 the rounded quotient of two integers has the exact ceiling. *)
Lemma SFdiv_ceil c l : 0 < c < 2 ^ 53 -> 0 < l < 2 ^ 53 ->
  exists m e, fdiv (int_exact c) (int_exact l) = S754_finite false m e /\
              ceil_pow2 (Z.pos m) e = ceil_div c l.
Proof.
  intros Hc Hl.
  pose proof (Zdigits2_bounds c ltac:(lia)) as Hd1.
  pose proof (Zdigits2_bounds l ltac:(lia)) as Hd2.
  pose proof (Zdigits2_range c Hc) as Hd1r.
  pose proof (Zdigits2_range l Hl) as Hd2r.
  set (d1 := Zdigits2 c) in *. set (d2 := Zdigits2 l) in *.
  set (s := 53 + d2 - d1).
  assert (Hs : 1 <= s <= 105) by (unfold s; lia).
  pose proof (ceil_div_char c l ltac:(lia)) as HK.
  set (K := ceil_div c l) in *.
  set (A := 2 ^ (d1 - 1)) in *. set (B := 2 ^ (d2 - 1)) in *.
  assert (HA2 : 2 ^ d1 = 2 * A).
  { unfold A. replace d1 with (1 + (d1 - 1)) at 1 by lia.
    rewrite Z.pow_add_r by lia. reflexivity. }
  assert (HB2 : 2 ^ d2 = 2 * B).
  { unfold B. replace d2 with (1 + (d2 - 1)) at 1 by lia.
    rewrite Z.pow_add_r by lia. reflexivity. }
  assert (HAP : A * 2 ^ s = 2 ^ 53 * B).
  { unfold A, B, s. rewrite <- !Z.pow_add_r by lia. f_equal. lia. }
  assert (HA52 : A <= 2 ^ 52) by (unfold A; apply Z.pow_le_mono_r; lia).
  assert (HApos : 0 < A) by (unfold A; apply Z.pow_pos_nonneg; lia).
  assert (HBpos : 0 < B) by (unfold B; apply Z.pow_pos_nonneg; lia).
  assert (HPpos : 0 < 2 ^ s) by (apply Z.pow_pos_nonneg; lia).
  assert (HPl : l < 2 ^ s) by nia.
  destruct c as [|pc|pc]; try lia. destruct l as [|pl|pl]; try lia.
  unfold fdiv, int_exact, SFdiv, SFdiv_core_binary. cbn [xorb].
  fold d1 d2.
  replace (Z.min (fexp prec emax (d1 + 0 - (d2 + 0))) (0 - 0)) with (- s)
    by (unfold fexp, SpecFloat.emin, prec, emax, s; lia).
  replace (0 - 0 - - s) with s by lia.
  destruct s as [|ps|ps] eqn:Es; try lia.
  rewrite Z.shiftl_mul_pow2 by lia.
  pose proof (Z_div_mod (Z.pos pc * 2 ^ Z.pos ps) (Z.pos pl) ltac:(lia)) as Hdm.
  destruct (Z.div_eucl (Z.pos pc * 2 ^ Z.pos ps) (Z.pos pl)) as [q r].
  destruct Hdm as [Hq Hr].
  rewrite new_location_spec by lia.
  set (P := 2 ^ Z.pos ps) in *.
  assert (Hq52 : 2 ^ 52 <= q) by nia.
  assert (Hq54 : q < 2 ^ 54) by nia.
  destruct (Z_lt_le_dec q (2 ^ 53)) as [Hq53|Hq53].
  - destruct (binary_round_aux_53 false q (- Z.pos ps)
               (if r =? 0 then loc_Exact else loc_Inexact (2 * r ?= Z.pos pl)))
      as (m & e2 & Heq & He2 & Hval); [lia|lia|].
    exists m, e2. split; [exact Heq|].
    replace e2 with (- Z.pos ps + (e2 - - Z.pos ps)) by lia.
    rewrite <- ceil_pow2_shift by lia. rewrite Hval.
    apply ceil_pow2_char; [lia|]. rewrite Z.opp_involutive. fold P.
    eapply round_53_bounds with (c := Z.pos pc) (l := Z.pos pl) (r := r); eauto; lia.
  - destruct (binary_round_aux_54 false q (- Z.pos ps)
               (if r =? 0 then loc_Exact else loc_Inexact (2 * r ?= Z.pos pl)))
      as (m & e2 & Heq & He2 & Hval); [lia|lia|].
    exists m, e2. split; [exact Heq|].
    replace e2 with (- Z.pos ps + 1 + (e2 - (- Z.pos ps + 1))) by lia.
    rewrite <- ceil_pow2_shift by lia. rewrite Hval.
    apply ceil_pow2_char; [lia|].
    replace (- (- Z.pos ps + 1)) with (Z.pos ps - 1) by lia.
    assert (HP2 : P = 2 * 2 ^ (Z.pos ps - 1)).
    { unfold P. replace (Z.pos ps) with (1 + (Z.pos ps - 1)) at 1 by lia.
      rewrite Z.pow_add_r by lia. reflexivity. }
    eapply round_54_bounds with (c := Z.pos pc) (l := Z.pos pl) (r := r); eauto; lia.
Qed.

(** The page count of [generate_pdf] is the exact ceiling when the count
    and the page capacity are below 2^53. *)
Lemma page_count_exact count lpp : 0 < count < 2 ^ 53 -> 0 < lpp < 2 ^ 53 ->
  (q <- int_true_div count lpp ;; math_ceil q)%res = Ok (ceil_div count lpp).
Proof.
  intros Hc Hl. unfold int_true_div.
  destruct (Z.eqb_spec lpp 0) as [?|_]; [lia|].
  destruct (SFdiv_ceil count lpp Hc Hl) as (m & e & -> & Hceil).
  simpl. rewrite Hceil. reflexivity.
Qed.

(** ** Conversions that cannot fail *)

Lemma pos_iter_xO m k : Z.pos (Pos.iter xO m k) = Z.pos m * 2 ^ Z.pos k.
Proof.
  induction k as [|k IH] using Pos.peano_ind.
  - simpl. lia.
  - rewrite Pos.iter_succ, Pos2Z.inj_xO, IH, Pos2Z.inj_succ, Z.pow_succ_r by lia. lia.
Qed.

(** Integers below 2^53 convert to a finite float. *)
Lemma Z2SF_small z : 0 < z < 2 ^ 53 -> exists m e, Z2SF z = S754_finite false m e.
Proof.
  intros Hz. destruct z as [|m|m]; try lia.
  pose proof (Zdigits2_bounds (Z.pos m) ltac:(lia)) as Hb.
  pose proof (Zdigits2_range (Z.pos m) Hz) as Hr.
  unfold Z2SF, binary_normalize, binary_round, shl_align.
  change (Z.pos (digits2_pos m)) with (Zdigits2 (Z.pos m)).
  set (d := Zdigits2 (Z.pos m)) in *.
  replace (fexp prec emax (d + 0) - 0) with (d - 53)
    by (unfold fexp, SpecFloat.emin, prec, emax; lia).
  replace (fexp prec emax (d + 0)) with (d - 53)
    by (unfold fexp, SpecFloat.emin, prec, emax; lia).
  destruct (d - 53) as [|k|k] eqn:Hk; try lia.
  - assert (d = 53) by lia.
    destruct (binary_round_aux_53 false (Z.pos m) 0 loc_Exact) as (m' & e' & -> & _);
      [|lia|eauto].
    replace d with 53 in Hb by lia. change (53 - 1) with 52 in Hb. lia.
  - destruct (binary_round_aux_53 false (Z.pos (Pos.iter xO m k)) (Z.neg k) loc_Exact)
      as (m' & e' & -> & _); [|lia|eauto].
    rewrite pos_iter_xO.
    assert (Hpow : 2 ^ (d - 1) * 2 ^ Z.pos k = 2 ^ 52).
    { rewrite <- Z.pow_add_r by lia. f_equal. lia. }
    assert (Hpow' : 2 ^ d * 2 ^ Z.pos k = 2 ^ 53).
    { rewrite <- Z.pow_add_r by lia. f_equal. lia. }
    assert (0 < 2 ^ Z.pos k) by (apply Z.pow_pos_nonneg; lia).
    nia.
Qed.

Lemma float_of_int_small z : 0 <= z < 2 ^ 53 -> float_of_int z = Ok (Z2SF z).
Proof.
  intros Hz. unfold float_of_int.
  destruct (Z.eq_dec z 0) as [->|Hne]; [reflexivity|].
  destruct (Z2SF_small z ltac:(lia)) as (m & e & ->). reflexivity.
Qed.

(** A drawn label was converted: [float_of_int] returns [Z2SF] or raises. *)
Lemma float_of_int_Ok z f : float_of_int z = Ok f -> f = Z2SF z.
Proof.
  unfold float_of_int. destruct (Z2SF z); intros [=]; congruence.
Qed.


Lemma shr_1_nonneg mrs : 0 <= shr_m mrs -> 0 <= shr_m (shr_1 mrs).
Proof. destruct mrs as [[|[p|p|]|[p|p|]] r s]; simpl; lia. Qed.

Lemma iter_shr_1_nonneg p : forall mrs, 0 <= shr_m mrs -> 0 <= shr_m (SpecFloat.iter_pos shr_1 p mrs).
Proof.
  induction p as [p IH|p IH|]; intros mrs Hm; simpl.
  - apply IH, IH, shr_1_nonneg, Hm.
  - apply IH, IH, Hm.
  - apply shr_1_nonneg, Hm.
Qed.

Lemma shr_fexp_nonneg m e l : 0 <= m -> 0 <= shr_m (fst (shr_fexp prec emax m e l)).
Proof.
  intros Hm. unfold shr_fexp, shr.
  assert (Hrec : 0 <= shr_m (shr_record_of_loc m l))
    by (destruct (loc_of_shr_record_of_loc m l) as [_ ->]; exact Hm).
  destruct (fexp prec emax (Zdigits2 m + e) - e); simpl; auto.
  apply iter_shr_1_nonneg, Hrec.
Qed.

(** Rounding a non-negative mantissa never yields NaN. *)
Lemma binary_round_aux_not_nan sx mx ex lx :
  0 <= mx -> binary_round_aux prec emax sx mx ex lx <> S754_nan.
Proof.
  intros Hm. unfold binary_round_aux.
  pose proof (shr_fexp_nonneg mx ex lx Hm) as H1.
  destruct (shr_fexp prec emax mx ex lx) as [mrs' e']. simpl in H1.
  pose proof (rne_range (shr_m mrs') (loc_of_shr_record mrs')) as Hr.
  pose proof (shr_fexp_nonneg
                (round_nearest_even (shr_m mrs') (loc_of_shr_record mrs')) e' loc_Exact
                ltac:(lia)) as H2.
  destruct (shr_fexp prec emax _ e' loc_Exact) as [mrs'' e'']. simpl in H2.
  destruct (shr_m mrs'') as [|p|p]; try lia; try discriminate.
  destruct (e'' <=? emax - prec); discriminate.
Qed.

Lemma int_true_div_not_nan a b f : int_true_div a b = Ok f -> f <> S754_nan.
Proof.
  unfold int_true_div. destruct (Z.eqb_spec b 0) as [|Hb]; [discriminate|].
  assert (Hdiv : fdiv (int_exact a) (int_exact b) <> S754_nan).
  { destruct a as [|pa|pa], b as [|pb|pb]; try lia; try discriminate;
      unfold fdiv, int_exact, SFdiv, SFdiv_core_binary;
      match goal with
      | |- context [Z.div_eucl ?x ?y] =>
          pose proof (Z_div_mod x y ltac:(lia)) as Hdm;
          assert (0 <= x) by
            (destruct (0 - 0 - _); [lia| rewrite Z.shiftl_mul_pow2 by lia;
               apply Z.mul_nonneg_nonneg; [lia|apply Z.pow_nonneg; lia] |lia]);
          destruct (Z.div_eucl x y) as [q r]; destruct Hdm as [Hq Hr];
          apply binary_round_aux_not_nan; nia
      end. }
  destruct (fdiv (int_exact a) (int_exact b)); intros [=]; congruence.
Qed.

(** The page count computation raises arithmetic errors only. *)
Lemma page_count_errors a b e :
  (q <- int_true_div a b ;; math_ceil q)%res = Raise e ->
  exists m, e = ZeroDivisionError m \/ e = OverflowError m.
Proof.
  destruct (int_true_div a b) as [e'|f] eqn:Hdiv; simpl.
  - intros [= <-]. unfold int_true_div in Hdiv.
    destruct (b =? 0); [injection Hdiv as <-; eauto|].
    destruct (fdiv _ _); try discriminate. injection Hdiv as <-. eauto.
  - pose proof (int_true_div_not_nan a b f Hdiv) as Hnan.
    unfold int_true_div in Hdiv. destruct (b =? 0); [discriminate|].
    destruct f; simpl; try discriminate; try congruence.
    destruct (fdiv _ _); discriminate.
Qed.

(** The constants of reportlab, as Python prints them, and the page
    counts of the specification's example. *)
Example reportlab_constants :
  mm = lit 2.834645669291339 /\ cm = lit 28.346456692913385 /\
  A4 = (lit 595.2755905511812, lit 841.8897637795277).
Proof. repeat split; vm_compute; reflexivity. Qed.

Example page_count_189_190 :
  (q <- int_true_div 189 (labels_per_page AVERY_L4731) ;; math_ceil q)%res = Ok 1 /\
  (q <- int_true_div 190 (labels_per_page AVERY_L4731) ;; math_ceil q)%res = Ok 2.
Proof. split; vm_compute; reflexivity. Qed.

(** The origin of index 8 on the shipped sheet, with the calibration the
    form passes for deltas of zero, as Python computes it. *)
Example origin_of_index_8 :
  origin_x AVERY_L4731 (lit (-4.5)) (lit 1.2) (8 mod 7) = lit 93.82677165354329 /\
  origin_y AVERY_L4731 (lit 7.0) (lit 0.42) (8 / 7) = lit 765.5811023622048.
Proof. split; vm_compute; reflexivity. Qed.

(** ** The loops of [generate_pdf] *)

Section Loops.

Variables (prefix : string) (leading_zeros : Z) (kind : BarcodeKind)
          (layout : SheetLayout) (draw_border : bool)
          (offset_x_mm offset_y_mm pitch_dx_mm pitch_dy_mm : pyfloat).

Local Abbreviation lloop := (label_loop prefix leading_zeros kind layout draw_border
                     offset_x_mm offset_y_mm pitch_dx_mm pitch_dy_mm).
Local Abbreviation ploop := (page_loop prefix leading_zeros kind layout draw_border
                     offset_x_mm offset_y_mm pitch_dx_mm pitch_dy_mm).
Local Abbreviation lab := (label_at prefix leading_zeros kind layout draw_border
                   offset_x_mm offset_y_mm pitch_dx_mm pitch_dy_mm).
Local Abbreviation labs := (labels_from prefix leading_zeros kind layout draw_border
                    offset_x_mm offset_y_mm pitch_dx_mm pitch_dy_mm).
Local Abbreviation stops := (stop_cause leading_zeros layout).
Local Abbreviation lpp := (labels_per_page layout).

Lemma labels_from_nil i number n : n <= 0 -> labs i number n = [].
Proof. intros Hn. unfold labels_from. rewrite seqZ_nil by lia. reflexivity. Qed.

Lemma labels_from_cons i number n : 0 <= n ->
  labs i number (1 + n) = lab i number :: labs (i + 1) (number + 1) n.
Proof.
  intros Hn. unfold labels_from.
  rewrite seqZ_cons by lia. rewrite fmap_cons, !Z.add_0_r. f_equal.
  replace (Z.pred (1 + n)) with n by lia.
  replace (Z.succ 0) with (1 + 0) by lia.
  rewrite <- fmap_add_seqZ, <- list_fmap_compose.
  apply list_fmap_ext. intros _ j _. simpl. f_equal; lia.
Qed.

Lemma length_labels_from i number n : length (labs i number n) = Z.to_nat n.
Proof. unfold labels_from. rewrite length_fmap, length_seqZ. reflexivity. Qed.

Lemma lookup_labels_from i number n k dl :
  labs i number n !! k = Some dl ->
  Z.of_nat k < n /\ dl = lab (i + Z.of_nat k) (number + Z.of_nat k).
Proof.
  unfold labels_from. rewrite list_lookup_fmap.
  destruct (seqZ 0 n !! k) as [j|] eqn:Hj; [|discriminate].
  apply lookup_seqZ in Hj as [-> Hk]. simpl. intros [= <-]. split; [lia|].
  f_equal; lia.
Qed.

Lemma add_current_nil c : add_current c [] = c.
Proof. destruct c. unfold add_current. simpl. rewrite app_nil_r. reflexivity. Qed.

(** Every run of the label loop: the labels of the indices it got
    through, and why it stopped if it did. *)
Lemma label_loop_run n : forall i current c c' r,
  lloop n i current c = (c', r) ->
  exists k, 0 <= k <= Z.of_nat n /\
    c' = add_current c (labs i current k) /\
    match r with
    | Ok current' => k = Z.of_nat n /\ current' = current + Z.of_nat n
    | Raise e => k < Z.of_nat n /\ stops (i + k) e
    end.
Proof.
  induction n as [|n IH]; intros i current c c' r Hrun.
  - injection Hrun as <- <-. exists 0. rewrite labels_from_nil, add_current_nil by lia.
    repeat split; lia.
  - cbn [label_loop] in Hrun. unfold cbind, clift in Hrun.
    assert (Hstop0 : forall e, stops (i + 0) e -> exists k, 0 <= k <= Z.of_nat (S n) /\
              c = add_current c (labs i current k) /\
              (k < Z.of_nat (S n) /\ stops (i + k) e)).
    { intros e He. exists 0. rewrite labels_from_nil, add_current_nil by lia.
      repeat split; try lia. exact He. }
    unfold int_floordiv, int_mod in Hrun.
    destruct (Z.eqb_spec (cols layout) 0) as [Hc0|Hc0].
    { injection Hrun as <- <-. apply Hstop0. left. eauto. }
    rewrite Z.add_0_r in Hstop0.
    destruct (float_of_int (i mod cols layout)) as [e|fcol] eqn:Hcol.
    { injection Hrun as <- <-. apply Hstop0. right; left. exact Hcol. }
    destruct (float_of_int (i / cols layout)) as [e|fr] eqn:Hrow.
    { injection Hrun as <- <-. apply Hstop0. right; right; left. exact Hrow. }
    unfold make_asn_text in Hrun.
    destruct (Z.ltb_spec leading_zeros 0) as [Hlz|Hlz].
    { injection Hrun as <- <-. apply Hstop0. right; right; right. eauto. }
    unfold draw_label in Hrun.
    apply float_of_int_Ok in Hcol, Hrow. subst fcol fr.
    apply IH in Hrun as (k & Hk & -> & Hr).
    exists (1 + k). split; [lia|]. split.
    + rewrite labels_from_cons by lia.
      unfold add_current. simpl. rewrite <- app_assoc. reflexivity.
    + destruct r as [e|current'].
      * destruct Hr as [Hlt Hst]. split; [lia|].
        replace (i + (1 + k)) with (i + 1 + k) by lia. exact Hst.
      * destruct Hr as [-> ->]. split; lia.
Qed.

(** The label loop completes when the indices fit a float exactly. *)
Lemma label_loop_ok n i current c :
  0 < cols layout -> 0 <= leading_zeros -> 0 <= i -> i + Z.of_nat n <= 2 ^ 53 ->
  lloop n i current c =
    (add_current c (labs i current (Z.of_nat n)), Ok (current + Z.of_nat n)).
Proof.
  intros Hcols Hlz Hi Hn.
  destruct (lloop n i current c) as [c' r] eqn:Hrun.
  apply label_loop_run in Hrun as (k & Hk & -> & Hr).
  destruct r as [e|current'].
  - exfalso. destruct Hr as [Hlt Hst].
    assert (Hj : 0 <= i + k < 2 ^ 53) by lia.
    destruct Hst as [[? _]|[Hst|[Hst|[? _]]]]; try lia.
    + rewrite float_of_int_small in Hst; [discriminate|].
      pose proof (Z.mod_pos_bound (i + k) (cols layout) Hcols).
      pose proof (Z.mod_le (i + k) (cols layout) ltac:(lia) Hcols). lia.
    + rewrite float_of_int_small in Hst; [discriminate|].
      split; [apply Z.div_pos; lia|].
      pose proof (Z.div_le_upper_bound (i + k) (cols layout) (i + k) Hcols ltac:(nia)).
      lia.
  - destruct Hr as [-> ->]. reflexivity.
Qed.

Local Abbreviation drawn := (drawn_page prefix leading_zeros kind layout draw_border
                              offset_x_mm offset_y_mm pitch_dx_mm pitch_dy_mm).
Local Abbreviation page := (page_at prefix leading_zeros kind layout draw_border
                             offset_x_mm offset_y_mm pitch_dx_mm pitch_dy_mm).
Local Abbreviation pages := (pages_from prefix leading_zeros kind layout draw_border
                              offset_x_mm offset_y_mm pitch_dx_mm pitch_dy_mm).

Lemma drawn_page_nil : drawn [].
Proof. exists 0, 0. rewrite labels_from_nil by lia. reflexivity. Qed.

(** Every run of the page loop: each page it closed, and the page it was
    drawing when it stopped, hold labels of consecutive indices from 0. *)
Lemma page_loop_run P : forall current remaining c c' r,
  cv_current c = [] ->
  ploop P current remaining c = (c', r) ->
  exists pgs,
    cv_filename c' = cv_filename c /\
    cv_pages c' = cv_pages c ++ pgs /\
    Forall drawn pgs /\ drawn (cv_current c') /\
    match r with
    | Ok _ => cv_current c' = [] /\ length pgs = P
    | Raise e => exists j, stops j e
    end.
Proof.
  induction P as [|P IH]; intros current remaining c c' r Hcur Hrun.
  - injection Hrun as <- <-. exists []. rewrite app_nil_r, Hcur.
    repeat split; auto using drawn_page_nil.
  - cbn [page_loop] in Hrun. unfold cbind at 1 in Hrun.
    destruct (lloop _ 0 current c) as [c1 r1] eqn:Hl.
    apply label_loop_run in Hl as (k & Hk & -> & Hr1).
    destruct r1 as [e|current'].
    + injection Hrun as <- <-. exists []. simpl. rewrite app_nil_r, Hcur. simpl.
      repeat split; auto; [exists current, k; reflexivity|].
      destruct Hr1 as [_ Hst]. eauto.
    + unfold cbind, showPage in Hrun. simpl in Hrun. rewrite Hcur in Hrun. simpl in Hrun.
      apply IH in Hrun as (pgs & Hf & Hp & Hall & Hpart & Hr); [|reflexivity].
      simpl in Hf, Hp.
      exists (labs 0 current k :: pgs). rewrite Hf, Hp, <- app_assoc. simpl.
      repeat split; auto.
      * constructor; [exists current, k; reflexivity|exact Hall].
      * destruct r as [e|[? ?]]; [exact Hr|]. destruct Hr as [-> <-]. auto.
Qed.

Lemma page_at_0 current remaining : 0 <= remaining -> 0 < lpp ->
  page current remaining 0 = labs 0 current (Z.min remaining lpp).
Proof.
  intros Hr Hl. unfold page_at, page_first, page_size. f_equal; lia.
Qed.

Lemma page_at_succ current remaining p : 0 <= remaining -> 0 < lpp -> 0 <= p ->
  page current remaining (1 + p) =
  page (current + Z.min remaining lpp) (remaining - Z.min remaining lpp) p.
Proof.
  intros Hr Hl Hp. unfold page_at, page_first, page_size.
  replace ((1 + p) * lpp) with (p * lpp + lpp) by ring.
  assert (0 <= p * lpp) by (apply Z.mul_nonneg_nonneg; lia).
  f_equal; lia.
Qed.

Lemma pages_from_cons current remaining n : 0 <= remaining -> 0 < lpp -> 0 <= n ->
  pages current remaining (1 + n) =
  labs 0 current (Z.min remaining lpp) ::
  pages (current + Z.min remaining lpp) (remaining - Z.min remaining lpp) n.
Proof.
  intros Hr Hl Hn. unfold pages_from.
  rewrite seqZ_cons by lia. rewrite fmap_cons, page_at_0 by lia. f_equal.
  replace (Z.pred (1 + n)) with n by lia.
  replace (Z.succ 0) with (1 + 0) by lia.
  rewrite <- fmap_add_seqZ, <- list_fmap_compose.
  apply list_fmap_ext. intros i p Hp. simpl.
  apply lookup_seqZ in Hp as [-> _].
  apply page_at_succ; lia.
Qed.

(** The page loop in closed form, when the indices of a page fit a float
    exactly. *)
Lemma page_loop_ok P : forall current remaining c,
  0 < cols layout -> 0 < lpp -> 0 <= leading_zeros -> 0 <= remaining ->
  Z.min remaining lpp <= 2 ^ 53 -> cv_current c = [] ->
  ploop P current remaining c =
    (add_pages c (pages current remaining (Z.of_nat P)),
     Ok (current + Z.min (Z.of_nat P * lpp) remaining,
         remaining - Z.min (Z.of_nat P * lpp) remaining)).
Proof.
  induction P as [|P IH]; intros current remaining c Hcols Hlpp Hlz Hrem Hfit Hcur.
  - simpl. unfold cret, add_pages, pages_from. rewrite seqZ_nil by lia. simpl.
    rewrite app_nil_r. destruct c; simpl in *; subst.
    repeat f_equal; lia.
  - cbn [page_loop]. unfold cbind at 1.
    rewrite label_loop_ok by lia.
    unfold cbind, showPage. cbn [add_current cv_filename cv_pages cv_current].
    rewrite Hcur. cbn [app].
    rewrite IH by (cbn [cv_current]; auto; lia).
    rewrite Z2Nat.id by lia.
    replace (Z.of_nat (S P)) with (1 + Z.of_nat P) by lia.
    rewrite pages_from_cons by lia.
    unfold add_pages. cbn [cv_filename cv_pages cv_current].
    rewrite <- app_assoc. cbn [app].
    replace ((1 + Z.of_nat P) * lpp) with (Z.of_nat P * lpp + lpp) by ring.
    assert (0 <= Z.of_nat P * lpp) by (apply Z.mul_nonneg_nonneg; lia).
    f_equal. f_equal. f_equal; lia.
Qed.

End Loops.

(** ** Runs of [generate_pdf] *)

Section Runs.

Variables (output_path : string) (start_number count : Z) (prefix : string)
          (leading_zeros : Z) (kind : BarcodeKind) (layout : SheetLayout)
          (draw_border : bool)
          (offset_x_mm offset_y_mm pitch_dx_mm pitch_dy_mm : pyfloat)
          (fs : gmap string Document).

Local Abbreviation run := (generate_pdf output_path start_number count prefix
                            leading_zeros kind layout draw_border
                            offset_x_mm offset_y_mm pitch_dx_mm pitch_dy_mm fs).
Local Abbreviation drawn := (drawn_page prefix leading_zeros kind layout draw_border
                              offset_x_mm offset_y_mm pitch_dx_mm pitch_dy_mm).
Local Abbreviation pages := (pages_from prefix leading_zeros kind layout draw_border
                              offset_x_mm offset_y_mm pitch_dx_mm pitch_dy_mm).
Local Abbreviation lpp := (labels_per_page layout).

(** The four validation checks, in the order of the source. *)
Lemma generate_pdf_valid :
  0 < count -> 0 < start_number -> 0 <= leading_zeros -> prefix <> "" ->
  run =
    match (q <- int_true_div count lpp ;; math_ceil q)%res with
    | Raise e => raised fs e
    | Ok n =>
        match page_loop prefix leading_zeros kind layout draw_border
                offset_x_mm offset_y_mm pitch_dx_mm pitch_dy_mm
                (Z.to_nat n) start_number count (new_canvas output_path) with
        | (c, Raise e) =>
            {| run_files := fs; run_canvas := Some c; run_result := Raise e |}
        | (c, Ok (current, _)) =>
            {| run_files := save c fs; run_canvas := Some c;
               run_result := Ok (n, current) |}
        end
    end.
Proof.
  intros Hc Hs Hz Hp. unfold generate_pdf.
  destruct (Z.leb_spec count 0); [lia|].
  destruct (Z.leb_spec start_number 0); [lia|].
  destruct (Z.ltb_spec leading_zeros 0); [lia|].
  destruct (String.eqb_spec prefix ""); [contradiction|].
  reflexivity.
Qed.

(** A run whose page count came out as [n], in closed form. *)
Lemma generate_pdf_run n :
  0 < count -> 0 < start_number -> 0 <= leading_zeros -> prefix <> "" ->
  0 < cols layout -> 0 < lpp -> Z.min count lpp <= 2 ^ 53 ->
  (q <- int_true_div count lpp ;; math_ceil q)%res = Ok n ->
  run = {| run_files := <[output_path := pages start_number count (Z.max n 0)]> fs;
           run_canvas := Some (add_pages (new_canvas output_path)
                                         (pages start_number count (Z.max n 0)));
           run_result := Ok (n, start_number + Z.min (Z.max n 0 * lpp) count) |}.
Proof.
  intros Hc Hs Hz Hp Hcols Hlpp Hfit Hn.
  rewrite generate_pdf_valid by assumption. rewrite Hn.
  rewrite page_loop_ok by (try reflexivity; lia).
  replace (Z.of_nat (Z.to_nat n)) with (Z.max n 0) by lia. reflexivity.
Qed.

(** Every page of the canvas of any run holds labels of consecutive
    indices from 0, each drawn by the placement formula. *)
Lemma generate_pdf_canvas c :
  run_canvas run = Some c ->
  cv_filename c = output_path /\ Forall drawn (cv_pages c) /\ drawn (cv_current c).
Proof.
  unfold generate_pdf, raised.
  repeat match goal with
         | |- context [if ?b then _ else _] => destruct b; [discriminate|]
         end.
  destruct (q <- int_true_div count lpp ;; math_ceil q)%res as [e|n]; [discriminate|].
  destruct (page_loop _ _ _ _ _ _ _ _ _ _ _ _ _) as [c' r] eqn:Hloop.
  apply page_loop_run in Hloop as (pgs & Hf & Hpg & Hall & Hcur & _); [|reflexivity].
  simpl in Hf, Hpg. subst pgs.
  destruct r as [e|[current remaining]]; intros [= <-]; auto.
Qed.


End Runs.

(** ** Decimal formatting *)

Lemma string_app_cons c s t : String c s +:+ t = String c (s +:+ t).
Proof. reflexivity. Qed.

Lemma string_app_nil_l t : "" +:+ t = t.
Proof. reflexivity. Qed.

Lemma string_length_app s1 s2 :
  String.length (s1 +:+ s2) = (String.length s1 + String.length s2)%nat.
Proof.
  induction s1 as [|c s1 IH]; [reflexivity|].
  rewrite string_app_cons. simpl. f_equal. exact IH.
Qed.

Lemma string_app_nil_r s : s +:+ "" = s.
Proof.
  induction s as [|c s IH]; [reflexivity|].
  rewrite string_app_cons. f_equal. exact IH.
Qed.

Lemma string_app_assoc s1 s2 s3 : (s1 +:+ s2) +:+ s3 = s1 +:+ (s2 +:+ s3).
Proof.
  induction s1 as [|c s1 IH]; [reflexivity|].
  rewrite !string_app_cons. f_equal. exact IH.
Qed.

Lemma length_zeros n : String.length (zeros n) = n.
Proof. induction n as [|n IH]; simpl; [reflexivity|]. f_equal. exact IH. Qed.

Lemma list_ascii_of_string_app s1 s2 :
  list_ascii_of_string (s1 +:+ s2) = list_ascii_of_string s1 ++ list_ascii_of_string s2.
Proof.
  induction s1 as [|c s1 IH]; [reflexivity|].
  rewrite string_app_cons. simpl. f_equal. exact IH.
Qed.

Lemma dec_value_snoc s c :
  dec_value (s +:+ String c "") = 10 * dec_value s + (Z.of_N (N_of_ascii c) - 48).
Proof.
  unfold dec_value. rewrite list_ascii_of_string_app, fold_left_app. reflexivity.
Qed.

Lemma digit_char_value d : 0 <= d < 10 -> Z.of_N (N_of_ascii (digit_char d)) - 48 = d.
Proof.
  intros Hd. unfold digit_char. rewrite N_ascii_embedding by lia. lia.
Qed.

(** The digits [dec_digits_aux] puts before [acc]: their value is [n] and
    their number is the number of decimal digits of [n]. *)
Lemma dec_digits_aux_spec fuel : forall n acc,
  (1 <= fuel)%nat -> 0 <= n < 10 ^ Z.of_nat fuel ->
  exists ds, dec_digits_aux fuel n acc = ds +:+ acc /\
             dec_value ds = n /\
             (1 <= String.length ds)%nat /\
             (forall d, 0 < n -> 10 ^ (d - 1) <= n < 10 ^ d ->
                        Z.of_nat (String.length ds) = d).
Proof.
  induction fuel as [|fuel IH]; intros n acc Hfuel1 Hn; [lia|].
  cbn [dec_digits_aux].
  pose proof (Z.div_mod n 10 ltac:(lia)) as Hdm.
  pose proof (Z.mod_pos_bound n 10 ltac:(lia)) as Hmod.
  destruct (Z.eqb_spec (n / 10) 0) as [Hq|Hq].
  - exists (String (digit_char (n mod 10)) ""). split; [reflexivity|].
    assert (n mod 10 = n) by lia.
    split; [|split; [simpl; lia|]].
    + unfold dec_value. simpl. rewrite digit_char_value by lia. lia.
    + intros d Hpos [Hlo Hhi]. simpl.
      destruct (Z_lt_le_dec d 1) as [Hd|Hd].
      { exfalso. assert (10 ^ d <= 10 ^ 0); [|simpl in *; lia].
        destruct (Z_lt_le_dec d 0); [rewrite Z.pow_neg_r by lia; simpl; lia|].
        apply Z.pow_le_mono_r; lia. }
      destruct (Z_lt_le_dec 1 d) as [Hd'|Hd']; [|lia].
      exfalso. assert (10 ^ 1 <= 10 ^ (d - 1)) by (apply Z.pow_le_mono_r; lia).
      simpl in *. lia.
  - assert (Hq' : 0 < n / 10) by (pose proof (Z.div_pos n 10 ltac:(lia) ltac:(lia)); lia).
    assert (Hfuel : n / 10 < 10 ^ Z.of_nat fuel).
    { apply Z.div_lt_upper_bound; [lia|].
      rewrite Nat2Z.inj_succ, Z.pow_succ_r in Hn by lia. lia. }
    assert (Hfuel' : (1 <= fuel)%nat).
    { destruct fuel; [simpl in Hfuel; lia|lia]. }
    destruct (IH (n / 10) (String (digit_char (n mod 10)) acc) Hfuel' ltac:(lia))
      as (ds & -> & Hval & Hlen & Hdig).
    exists (ds +:+ String (digit_char (n mod 10)) "").
    rewrite string_app_assoc. split; [reflexivity|].
    split; [|split].
    + rewrite dec_value_snoc, Hval, digit_char_value by lia. lia.
    + rewrite string_length_app. simpl. lia.
    + intros d Hpos [Hlo Hhi]. rewrite string_length_app. simpl.
      assert (Hd : 2 <= d).
      { destruct (Z_lt_le_dec d 2) as [Hd|Hd]; [|lia]. exfalso.
        assert (10 ^ d <= 10 ^ 1); [|simpl in *; lia].
        destruct (Z_lt_le_dec d 0); [rewrite Z.pow_neg_r by lia; simpl; lia|].
        apply Z.pow_le_mono_r; lia. }
      rewrite Nat2Z.inj_add, (Hdig (d - 1)); [simpl; lia|lia|].
      replace d with (Z.succ (d - 1)) in Hhi by lia.
      replace (d - 1) with (Z.succ (d - 1 - 1)) in Hlo by lia.
      rewrite Z.pow_succ_r in Hhi, Hlo by lia.
      split; [apply Z.div_le_lower_bound; lia|apply Z.div_lt_upper_bound; lia].
Qed.

Lemma dec_digits_fuel n : 0 <= n -> n < 10 ^ Z.of_nat (S (Z.to_nat (Z.log2 n))).
Proof.
  intros Hn. destruct (Z.eq_dec n 0) as [->|Hne]; [simpl; lia|].
  pose proof (Z.log2_spec n ltac:(lia)) as [_ Hhi].
  pose proof (Z.log2_nonneg n) as Hlog.
  rewrite Nat2Z.inj_succ, Z2Nat.id by lia.
  assert (2 ^ Z.succ (Z.log2 n) <= 10 ^ Z.succ (Z.log2 n))
    by (apply Z.pow_le_mono_l; lia).
  lia.
Qed.

(** [dec_digits] writes the decimal representation: its value is the
    number, and it has as many characters as the number has digits. *)
Lemma dec_digits_spec n : 0 <= n ->
  dec_value (dec_digits n) = n /\
  (1 <= String.length (dec_digits n))%nat /\
  (forall d, 0 < n -> 10 ^ (d - 1) <= n < 10 ^ d ->
             Z.of_nat (String.length (dec_digits n)) = d).
Proof.
  intros Hn. unfold dec_digits.
  destruct (dec_digits_aux_spec (S (Z.to_nat (Z.log2 n))) n "")
    as (ds & -> & Hval & Hlen & Hdig).
  { lia. }
  { split; [lia|apply dec_digits_fuel; lia]. }
  rewrite string_app_nil_r. auto.
Qed.

Lemma format_0d_nonneg n width : 0 <= n ->
  format_0d n width =
    zeros (Z.to_nat width - String.length (dec_digits n)) +:+ dec_digits n.
Proof.
  intros Hn. unfold format_0d.
  destruct (Z.ltb_spec n 0); [lia|]. rewrite Z.abs_eq by lia.
  rewrite string_app_nil_l. simpl String.length. rewrite Nat.sub_0_r. reflexivity.
Qed.

Lemma int_str_nonneg n : 0 <= n -> int_str n = dec_digits n.
Proof. intros Hn. unfold int_str. destruct (Z.ltb_spec n 0); [lia|reflexivity]. Qed.

(** The formatted number has [max width (len (str n))] characters. *)
Lemma format_0d_length n width : 0 <= width ->
  Z.of_nat (String.length (format_0d n width)) =
    Z.max width (Z.of_nat (String.length (int_str n))).
Proof.
  intros Hw. unfold format_0d, int_str.
  destruct (Z.ltb_spec n 0) as [Hn|Hn].
  - rewrite Z.abs_neq by lia.
    rewrite !string_length_app, length_zeros. simpl String.length. lia.
  - rewrite Z.abs_eq by lia.
    rewrite !string_length_app, length_zeros. simpl String.length. lia.
Qed.

(** No truncation: a number at least as long as the width is written in full. *)
Lemma format_0d_full n width :
  width <= Z.of_nat (String.length (int_str n)) -> format_0d n width = int_str n.
Proof.
  intros Hw. unfold format_0d, int_str in *.
  destruct (Z.ltb_spec n 0) as [Hn|Hn].
  - rewrite Z.abs_neq by lia. simpl in *.
    replace (Z.to_nat width - 1 - String.length (dec_digits (- n)))%nat with 0%nat by lia.
    reflexivity.
  - rewrite Z.abs_eq by lia. simpl.
    replace (Z.to_nat width - 0 - String.length (dec_digits n))%nat with 0%nat by lia.
    reflexivity.
Qed.

(** ** Floats that are the same number *)

Lemma same_float_refl x : same_float x x.
Proof. left. reflexivity. Qed.

Lemma same_float_trans x y z : same_float x y -> same_float y z -> same_float x z.
Proof.
  intros [->|[Hx Hy]] [->|[Hy' Hz]]; unfold same_float; auto.
Qed.

Lemma fadd_same x x' y y' :
  same_float x x' -> same_float y y' -> same_float (x + y)%py (x' + y')%py.
Proof. intros [->|[Hx Hx']] [->|[Hy Hy']]; [left; reflexivity|..]; same_float_cases. Qed.

Lemma fsub_same x x' y y' :
  same_float x x' -> same_float y y' -> same_float (x - y)%py (x' - y')%py.
Proof. intros [->|[Hx Hx']] [->|[Hy Hy']]; [left; reflexivity|..]; same_float_cases. Qed.

Lemma fmul_same x x' y y' :
  same_float x x' -> same_float y y' -> same_float (x * y)%py (x' * y')%py.
Proof. intros [->|[Hx Hx']] [->|[Hy Hy']]; [left; reflexivity|..]; same_float_cases. Qed.

Lemma fadd_zero_r x z : is_zero z = true -> same_float (x + z)%py x.
Proof. intros Hz. same_float_cases. Qed.

(** Floats that are the same number compare equal with [==], NaN apart. *)
Lemma same_float_feqb x y : same_float x y -> x <> S754_nan -> feqb x y = true.
Proof.
  intros [<-|[Hx Hy]] Hnan.
  - destruct x as [s|[]| |[] m e]; try reflexivity; try congruence;
      unfold feqb, SFeqb, SFcompare; rewrite Z.compare_refl, Pos.compare_cont_refl;
      reflexivity.
  - destruct x, y; try discriminate. reflexivity.
Qed.

(** A millimetre is a positive finite number of points. *)
Lemma mm_finite : exists m e, mm = S754_finite false m e.
Proof. vm_compute. eauto. Qed.

Lemma zero_times_mm z : is_zero z = true -> is_zero (z * mm)%py = true.
Proof.
  intros Hz. destruct mm_finite as (m & e & ->).
  destruct z; try discriminate. reflexivity.
Qed.

(** With all deltas zero the origins are those of the base layout. *)
Lemma origin_x_zero_delta layout offset_x_mm pitch_dx_mm column :
  is_zero offset_x_mm = true -> is_zero pitch_dx_mm = true ->
  same_float (origin_x layout offset_x_mm pitch_dx_mm column)
             (base_origin_x layout column).
Proof.
  intros Ho Hp. unfold origin_x, base_origin_x, eff_pitch_x, off_x.
  eapply same_float_trans; [apply fadd_zero_r, zero_times_mm, Ho|].
  apply fadd_same; [apply same_float_refl|].
  apply fmul_same; [apply same_float_refl|].
  apply fadd_zero_r, zero_times_mm, Hp.
Qed.

Lemma origin_y_zero_delta layout offset_y_mm pitch_dy_mm row :
  is_zero offset_y_mm = true -> is_zero pitch_dy_mm = true ->
  same_float (origin_y layout offset_y_mm pitch_dy_mm row)
             (base_origin_y layout row).
Proof.
  intros Ho Hp. unfold origin_y, base_origin_y, eff_pitch_y, off_y.
  eapply same_float_trans; [apply fadd_zero_r, zero_times_mm, Ho|].
  apply fsub_same; [apply same_float_refl|].
  apply fmul_same; [apply same_float_refl|].
  apply fadd_zero_r, zero_times_mm, Hp.
Qed.

(** On the shipped sheet the origins with zero deltas are bit for bit those
    of the base layout, in every column and row. *)
Example shipped_sheet_zero_delta_exact column row :
  0 <= column < cols AVERY_L4731 -> 0 <= row < rows AVERY_L4731 ->
  origin_x AVERY_L4731 pzero pzero column = base_origin_x AVERY_L4731 column /\
  origin_y AVERY_L4731 pzero pzero row = base_origin_y AVERY_L4731 row.
Proof.
  change (cols AVERY_L4731) with 7. change (rows AVERY_L4731) with 27.
  intros Hc Hr. split.
  - assert (Hcase : Exists (eq column) (seqZ 0 7))
      by (apply Exists_exists; exists column; split; [apply elem_of_seqZ; lia|reflexivity]).
    vm_compute in Hcase.
    repeat (apply Exists_cons in Hcase as [->|Hcase]; [vm_compute; reflexivity|]).
    inversion Hcase.
  - assert (Hcase : Exists (eq row) (seqZ 0 27))
      by (apply Exists_exists; exists row; split; [apply elem_of_seqZ; lia|reflexivity]).
    vm_compute in Hcase.
    repeat (apply Exists_cons in Hcase as [->|Hcase]; [vm_compute; reflexivity|]).
    inversion Hcase.
Qed.

(** ** The texts and sizes of the pages in closed form *)

Section Pages.

Variables (prefix : string) (leading_zeros : Z) (kind : BarcodeKind)
          (layout : SheetLayout) (draw_border : bool)
          (offset_x_mm offset_y_mm pitch_dx_mm pitch_dy_mm : pyfloat).

Local Abbreviation lab := (label_at prefix leading_zeros kind layout draw_border
                            offset_x_mm offset_y_mm pitch_dx_mm pitch_dy_mm).
Local Abbreviation labs := (labels_from prefix leading_zeros kind layout draw_border
                             offset_x_mm offset_y_mm pitch_dx_mm pitch_dy_mm).
Local Abbreviation page := (page_at prefix leading_zeros kind layout draw_border
                             offset_x_mm offset_y_mm pitch_dx_mm pitch_dy_mm).
Local Abbreviation pages := (pages_from prefix leading_zeros kind layout draw_border
                              offset_x_mm offset_y_mm pitch_dx_mm pitch_dy_mm).
Local Abbreviation drawn := (drawn_page prefix leading_zeros kind layout draw_border
                              offset_x_mm offset_y_mm pitch_dx_mm pitch_dy_mm).
Local Abbreviation lpp := (labels_per_page layout).
Local Abbreviation text := (fun number => prefix +:+ format_0d number leading_zeros).

Lemma texts_labels_from i number n :
  dl_text <$> labs i number n = text <$> seqZ number n.
Proof.
  unfold labels_from. rewrite <- list_fmap_compose.
  replace (seqZ number n) with (seqZ (number + 0) n) by (f_equal; lia).
  rewrite <- fmap_add_seqZ, <- list_fmap_compose. reflexivity.
Qed.

Lemma texts_pages_from n : 0 <= n -> forall current remaining,
  0 <= remaining -> 0 < lpp ->
  texts_of (pages current remaining n) =
    text <$> seqZ current (Z.min (n * lpp) remaining).
Proof.
  intros Hn. rewrite <- (Z2Nat.id n) by lia. generalize (Z.to_nat n) as k. clear n Hn.
  induction k as [|k IH]; intros current remaining Hrem Hlpp.
  - unfold pages_from, texts_of. rewrite !seqZ_nil by lia. reflexivity.
  - replace (Z.of_nat (S k)) with (1 + Z.of_nat k) by lia.
    rewrite pages_from_cons by lia.
    unfold texts_of in *. cbn [concat]. rewrite fmap_app, IH by lia.
    rewrite texts_labels_from, <- fmap_app, <- seqZ_app by lia.
    replace ((1 + Z.of_nat k) * lpp) with (Z.of_nat k * lpp + lpp) by ring.
    assert (0 <= Z.of_nat k * lpp) by (apply Z.mul_nonneg_nonneg; lia).
    f_equal. f_equal. lia.
Qed.

Lemma lookup_pages_from current remaining n p : 0 <= p < n ->
  pages current remaining n !! Z.to_nat p = Some (page current remaining p).
Proof.
  intros Hp. unfold pages_from. rewrite list_lookup_fmap, lookup_seqZ_lt by lia.
  simpl. f_equal. f_equal. lia.
Qed.

Lemma length_pages_from current remaining n :
  length (pages current remaining n) = Z.to_nat n.
Proof. unfold pages_from. rewrite length_fmap, length_seqZ. reflexivity. Qed.

Lemma length_page_at current remaining p :
  length (page current remaining p) = Z.to_nat (page_size layout remaining p).
Proof. unfold page_at. apply length_labels_from. Qed.

(** A label on a drawn page has the origin of its row and column. *)
Lemma drawn_page_lookup pg i dl :
  drawn pg -> pg !! i = Some dl ->
  dl_x dl = origin_x layout offset_x_mm pitch_dx_mm (Z.of_nat i mod cols layout) /\
  dl_y dl = origin_y layout offset_y_mm pitch_dy_mm (Z.of_nat i / cols layout).
Proof.
  intros (number & n & ->) Hi.
  apply lookup_labels_from in Hi as [_ ->]. rewrite Z.add_0_l. split; reflexivity.
Qed.

End Pages.

(** * The properties the specification states *)

Section Claims.

Variables (output_path : string) (start_number count : Z) (prefix : string)
          (leading_zeros : Z) (kind : BarcodeKind) (layout : SheetLayout)
          (draw_border : bool)
          (offset_x_mm offset_y_mm pitch_dx_mm pitch_dy_mm : pyfloat)
          (fs : gmap string Document).

Local Abbreviation run := (generate_pdf output_path start_number count prefix
                            leading_zeros kind layout draw_border
                            offset_x_mm offset_y_mm pitch_dx_mm pitch_dy_mm fs).
Local Abbreviation pages := (pages_from prefix leading_zeros kind layout draw_border
                              offset_x_mm offset_y_mm pitch_dx_mm pitch_dy_mm).
Local Abbreviation lpp := (labels_per_page layout).

(** A run inside the range where the page count is exact. *)
Lemma generate_pdf_exact :
  valid_input start_number count leading_zeros prefix -> valid_layout layout ->
  count < 2 ^ 53 -> lpp < 2 ^ 53 ->
  0 < lpp /\ 1 <= ceil_div count lpp /\
  (ceil_div count lpp - 1) * lpp < count <= ceil_div count lpp * lpp /\
  run = {| run_files := <[output_path := pages start_number count (ceil_div count lpp)]> fs;
           run_canvas := Some (add_pages (new_canvas output_path)
                                 (pages start_number count (ceil_div count lpp)));
           run_result := Ok (ceil_div count lpp, start_number + count) |}.
Proof.
  intros (Hs & Hc & Hz & Hp) [Hcols Hrows] Hcount Hlpp.
  assert (Hpos : 0 < lpp) by (unfold labels_per_page in *; nia).
  pose proof (ceil_div_char count lpp Hpos) as Hceil.
  assert (Hone : 1 <= ceil_div count lpp) by nia.
  repeat split; try lia.
  rewrite (generate_pdf_run _ _ _ _ _ _ _ _ _ _ _ _ _ (ceil_div count lpp));
    try assumption; try lia.
  - rewrite Z.max_l by lia. repeat f_equal. lia.
  - apply page_count_exact; lia.
Qed.




(** C4: in every run, the label of within-page index [i] on any page of
    the canvas has its bottom-left origin at
    [x = margin_left + column * pitch_x + off_x] and
    [y = page_h - margin_top - label_h - row * pitch_y + off_y], for
    [column = i mod cols], [row = i / cols], the effective pitches and
    offsets in points, and [page_h] the height of A4. *)
Theorem placement_origin c pg i dl :
  run_canvas run = Some c ->
  pg ∈ cv_pages c ++ [cv_current c] ->
  pg !! i = Some dl ->
  dl_x dl = (margin_left layout
             + Z2SF (Z.of_nat i mod cols layout) * eff_pitch_x layout pitch_dx_mm
             + off_x offset_x_mm)%py /\
  dl_y dl = (snd A4 - margin_top layout - label_h layout
             - Z2SF (Z.of_nat i / cols layout) * eff_pitch_y layout pitch_dy_mm
             + off_y offset_y_mm)%py.
Proof.
  intros Hc Hpg Hi.
  apply generate_pdf_canvas in Hc as (_ & Hpages & Hcur).
  assert (Hdrawn : drawn_page prefix leading_zeros kind layout draw_border
                     offset_x_mm offset_y_mm pitch_dx_mm pitch_dy_mm pg).
  { apply elem_of_app in Hpg as [Hpg|Hpg].
    - eapply Forall_forall in Hpages; eassumption.
    - apply list_elem_of_singleton in Hpg as ->. exact Hcur. }
  exact (drawn_page_lookup _ _ _ _ _ _ _ _ _ pg i dl Hdrawn Hi).
Qed.

(** C5: calibration is additive.  In every run the origins are computed
    with [pitch = (label size + gap) + delta * mm] and [offset = delta * mm];
    when all four deltas are zero, every origin is the one of the base
    layout alone. *)
Theorem calibration_is_additive c pg i dl :
  run_canvas run = Some c ->
  pg ∈ cv_pages c ++ [cv_current c] ->
  pg !! i = Some dl ->
  (dl_x dl = (margin_left layout
              + Z2SF (Z.of_nat i mod cols layout)
                * (label_w layout + gap_x layout + pitch_dx_mm * mm)
              + offset_x_mm * mm)%py /\
   dl_y dl = (page_h - margin_top layout - label_h layout
              - Z2SF (Z.of_nat i / cols layout)
                * (label_h layout + gap_y layout + pitch_dy_mm * mm)
              + offset_y_mm * mm)%py) /\
  (is_zero offset_x_mm = true -> is_zero offset_y_mm = true ->
   is_zero pitch_dx_mm = true -> is_zero pitch_dy_mm = true ->
   same_float (dl_x dl)
     (margin_left layout
      + Z2SF (Z.of_nat i mod cols layout) * (label_w layout + gap_x layout))%py /\
   same_float (dl_y dl)
     (page_h - margin_top layout - label_h layout
      - Z2SF (Z.of_nat i / cols layout) * (label_h layout + gap_y layout))%py /\
   (dl_x dl <> S754_nan ->
    feqb (dl_x dl)
      (margin_left layout
       + Z2SF (Z.of_nat i mod cols layout) * (label_w layout + gap_x layout))%py = true) /\
   (dl_y dl <> S754_nan ->
    feqb (dl_y dl)
      (page_h - margin_top layout - label_h layout
       - Z2SF (Z.of_nat i / cols layout) * (label_h layout + gap_y layout))%py = true)).
Proof.
  intros Hc Hpg Hi.
  apply generate_pdf_canvas in Hc as (_ & Hpages & Hcur).
  assert (Hdrawn : drawn_page prefix leading_zeros kind layout draw_border
                     offset_x_mm offset_y_mm pitch_dx_mm pitch_dy_mm pg).
  { apply elem_of_app in Hpg as [Hpg|Hpg].
    - eapply Forall_forall in Hpages; eassumption.
    - apply list_elem_of_singleton in Hpg as ->. exact Hcur. }
  destruct (drawn_page_lookup _ _ _ _ _ _ _ _ _ pg i dl Hdrawn Hi) as [Hx Hy].
  split; [split; assumption|].
  intros Hox Hoy Hpx Hpy.
  pose proof (origin_x_zero_delta layout offset_x_mm pitch_dx_mm
                (Z.of_nat i mod cols layout) Hox Hpx) as Hsx.
  pose proof (origin_y_zero_delta layout offset_y_mm pitch_dy_mm
                (Z.of_nat i / cols layout) Hoy Hpy) as Hsy.
  rewrite <- Hx in Hsx. rewrite <- Hy in Hsy.
  repeat split; try assumption; intros Hnan; apply same_float_feqb; assumption.
Qed.


End Claims.



(** A quotient too small for a float: one label on a sheet of 2^540 by
    2^540 labels gives no page at all. *)
Example generate_pdf_huge_sheet :
  run_result
    (generate_pdf "labels.pdf" 1 1 "ASN" 7 QR
       {| name := "huge"; cols := 2 ^ 540; rows := 2 ^ 540;
          label_w := pzero; label_h := pzero; gap_x := pzero; gap_y := pzero;
          margin_left := pzero; margin_top := pzero |}
       false pzero pzero pzero pzero ∅) = Ok (0, 1).
Proof. vm_compute. reflexivity. Qed.






(** C4, for 9 labels on the shipped sheet: the label of index 8 on the
    first page lies at row 1, column 1. *)
Lemma placement_origin_witness :
  exists c pg dl,
    run_canvas (generate_pdf "labels.pdf" 1 9 "ASN" 7 QR AVERY_L4731 false
                  pzero pzero pzero pzero ∅) = Some c /\
    pg ∈ cv_pages c ++ [cv_current c] /\
    pg !! 8%nat = Some dl /\
    dl_x dl = (margin_left AVERY_L4731
               + Z2SF (Z.of_nat 8 mod cols AVERY_L4731) * eff_pitch_x AVERY_L4731 pzero
               + off_x pzero)%py /\
    dl_y dl = (snd A4 - margin_top AVERY_L4731 - label_h AVERY_L4731
               - Z2SF (Z.of_nat 8 / cols AVERY_L4731) * eff_pitch_y AVERY_L4731 pzero
               + off_y pzero)%py /\
    Z.of_nat 8 mod cols AVERY_L4731 = 1 /\ Z.of_nat 8 / cols AVERY_L4731 = 1.
Proof.
  eassert (H1 : run_canvas (generate_pdf "labels.pdf" 1 9 "ASN" 7 QR AVERY_L4731 false
                              pzero pzero pzero pzero ∅) = Some _)
    by (vm_compute; reflexivity).
  match type of H1 with
  | _ = Some ?c =>
      eassert (H2 : _ ∈ cv_pages c ++ [cv_current c])
        by (cbn [cv_pages cv_current app]; apply list_elem_of_here)
  end.
  match type of H2 with
  | ?pg ∈ _ => eassert (H3 : pg !! 8%nat = Some _) by (vm_compute; reflexivity)
  end.
  eexists _, _, _. split; [exact H1|]. split; [exact H2|]. split; [exact H3|].
  destruct (placement_origin "labels.pdf" 1 9 "ASN" 7 QR AVERY_L4731 false
              pzero pzero pzero pzero ∅ _ _ _ _ H1 H2 H3) as [Hx Hy].
  split; [exact Hx|]. split; [exact Hy|]. split; reflexivity.
Defined.

(** C5, for 9 labels on the shipped sheet with all deltas zero: the origin
    of the label of index 8 is the one of the base layout. *)
Lemma calibration_is_additive_witness :
  exists c pg dl,
    run_canvas (generate_pdf "labels.pdf" 1 9 "ASN" 7 QR AVERY_L4731 false
                  pzero pzero pzero pzero ∅) = Some c /\
    pg ∈ cv_pages c ++ [cv_current c] /\
    pg !! 8%nat = Some dl /\
    same_float (dl_x dl)
      (margin_left AVERY_L4731
       + Z2SF (Z.of_nat 8 mod cols AVERY_L4731)
         * (label_w AVERY_L4731 + gap_x AVERY_L4731))%py /\
    same_float (dl_y dl)
      (page_h - margin_top AVERY_L4731 - label_h AVERY_L4731
       - Z2SF (Z.of_nat 8 / cols AVERY_L4731)
         * (label_h AVERY_L4731 + gap_y AVERY_L4731))%py.
Proof.
  eassert (H1 : run_canvas (generate_pdf "labels.pdf" 1 9 "ASN" 7 QR AVERY_L4731 false
                              pzero pzero pzero pzero ∅) = Some _)
    by (vm_compute; reflexivity).
  match type of H1 with
  | _ = Some ?c =>
      eassert (H2 : _ ∈ cv_pages c ++ [cv_current c])
        by (cbn [cv_pages cv_current app]; apply list_elem_of_here)
  end.
  match type of H2 with
  | ?pg ∈ _ => eassert (H3 : pg !! 8%nat = Some _) by (vm_compute; reflexivity)
  end.
  eexists _, _, _. split; [exact H1|]. split; [exact H2|]. split; [exact H3|].
  destruct (calibration_is_additive "labels.pdf" 1 9 "ASN" 7 QR AVERY_L4731 false
              pzero pzero pzero pzero ∅ _ _ _ _ H1 H2 H3) as [_ Hzero].
  destruct (Hzero eq_refl eq_refl eq_refl eq_refl) as (Hx & Hy & _).
  split; assumption.
Defined.


(** The four validation errors, each on its own. *)
Example validation_errors_each :
  run_result (generate_pdf "labels.pdf" 1 0 "ASN" 7 QR AVERY_L4731 false
                pzero pzero pzero pzero ∅) = Raise (ValueError "count must be > 0") /\
  run_result (generate_pdf "labels.pdf" 0 9 "ASN" 7 QR AVERY_L4731 false
                pzero pzero pzero pzero ∅) = Raise (ValueError "start_number must be > 0") /\
  run_result (generate_pdf "labels.pdf" 1 9 "ASN" (-1) QR AVERY_L4731 false
                pzero pzero pzero pzero ∅)
    = Raise (ValueError "leading_zeros must be >= 0") /\
  run_result (generate_pdf "labels.pdf" 1 9 "" 7 QR AVERY_L4731 false
                pzero pzero pzero pzero ∅) = Raise (ValueError "prefix must not be empty").
Proof. repeat split; reflexivity. Qed.

(** C8: formatting never truncates.  For a width [>= 0] the numeric part of
    the label text has [max (width, len (str number))] characters; a number
    whose decimal representation is at least as long as the width is written
    in full; a non-negative number is its decimal digits, zero-padded on the
    left; the digits have the value of the number, and as many characters as
    the number has decimal digits. *)
Theorem formatting_never_truncates prefix number width :
  0 <= width ->
  exists numeric,
    make_asn_text prefix number width = Ok (prefix +:+ numeric) /\
    Z.of_nat (String.length numeric)
      = Z.max width (Z.of_nat (String.length (int_str number))) /\
    (width <= Z.of_nat (String.length (int_str number)) -> numeric = int_str number) /\
    (0 <= number ->
     numeric = zeros (Z.to_nat width - String.length (int_str number)) +:+ int_str number /\
     dec_value (int_str number) = number /\
     forall d, 0 < number -> 10 ^ (d - 1) <= number < 10 ^ d ->
               Z.of_nat (String.length (int_str number)) = d).
Proof.
  intros Hw. exists (format_0d number width). unfold make_asn_text.
  destruct (Z.ltb_spec width 0); [lia|].
  split; [reflexivity|].
  split; [apply format_0d_length; lia|].
  split; [apply format_0d_full|].
  intros Hn. rewrite int_str_nonneg by lia.
  destruct (dec_digits_spec number Hn) as (Hval & _ & Hdig).
  split; [apply format_0d_nonneg; lia|]. split; assumption.
Qed.

(** C8, for number 123456 and width 5: all six digits. *)
Lemma formatting_never_truncates_witness :
  make_asn_text "ASN" 123456 5 = Ok "ASN123456" /\
  make_asn_text "ASN" 42 5 = Ok "ASN00042" /\
  exists numeric,
    make_asn_text "ASN" 123456 5 = Ok ("ASN" +:+ numeric) /\
    Z.of_nat (String.length numeric) = 6 /\ numeric = "123456".
Proof.
  split; [reflexivity|]. split; [reflexivity|].
  destruct (formatting_never_truncates "ASN" 123456 5 ltac:(lia))
    as (numeric & Htext & Hlen & Hfull & _).
  exists numeric. split; [exact Htext|]. split.
  - rewrite Hlen. reflexivity.
  - rewrite Hfull; [reflexivity|]. vm_compute. discriminate.
Defined.

(** ** Settings *)

Section Settings.

Context `{B : PyBuiltins}.

Lemma base_calibration_values :
  base_calibration "off_x" = lit (-4.5) /\ base_calibration "off_y" = lit 7.0 /\
  base_calibration "pitch_dx" = lit 1.2 /\ base_calibration "pitch_dy" = lit 0.42.
Proof. repeat split; reflexivity. Qed.

(** A record tagged delta is not legacy. *)
Lemma delta_mode_not_legacy d : calibration_mode d = "delta" -> legacy_absolute d = false.
Proof. intros Hmode. unfold legacy_absolute. rewrite Hmode. reflexivity. Qed.

(** What the flag [legacy_absolute] decides: the tag is not delta, and the
    record is not the transitional one (no tag, all calibration values zero). *)
Lemma legacy_absolute_spec d :
  legacy_absolute d = true <->
  calibration_mode d <> "delta" /\
  ~ (calibration_mode d = "" /\ parsed_calibration d <> [] /\
     forallb near_zero (parsed_calibration d) = true).
Proof.
  unfold legacy_absolute.
  destruct (String.eqb_spec (calibration_mode d) "delta") as [Hd|Hd];
    destruct (String.eqb_spec (calibration_mode d) "") as [He|He]; simpl.
  - rewrite Hd in He. discriminate.
  - split; [discriminate|]. intros [? _]. contradiction.
  - destruct (bool_decide_reflect (parsed_calibration d = [])) as [Hp|Hp]; simpl.
    + split; [|reflexivity]. intros _. split; [assumption|]. intros (_ & ? & _). contradiction.
    + destruct (forallb near_zero (parsed_calibration d)).
      * split; [discriminate|]. intros [_ Hn]. exfalso. apply Hn. auto.
      * split; [|reflexivity]. intros _. split; [assumption|]. intros (_ & _ & ?). discriminate.
  - split; [|reflexivity]. intros _. split; [assumption|]. intros [? _]. contradiction.
Qed.

Lemma calibration_var_apply self d key : key ∈ calibration_keys ->
  calibration_var key (_apply_settings_from_dict self d)
  = set_calibration_var d key (calibration_var key self).
Proof.
  unfold calibration_keys. intros Hkey.
  repeat (apply elem_of_cons in Hkey as [->|Hkey]; [reflexivity|]).
  inversion Hkey.
Qed.


(** C10: loading the dictionary that [_settings_to_dict] makes of a settings
    state restores every settings variable, whatever the form held before:
    the dictionary is tagged delta, so nothing is converted. *)
Theorem settings_round_trip (saved current : App) :
  _apply_settings_from_dict current (_settings_to_dict saved) =
    {| var_start := var_start saved; var_mode := var_mode saved;
       var_count := var_count saved; var_pages := var_pages saved;
       var_prefix := var_prefix saved; var_zeros := var_zeros saved;
       var_kind := var_kind saved; var_border := var_border saved;
       var_off_x := var_off_x saved; var_off_y := var_off_y saved;
       var_pitch_dx := var_pitch_dx saved; var_pitch_dy := var_pitch_dy saved;
       _loading_settings := false |} /\
  calibration_mode (_settings_to_dict saved) = "delta" /\
  legacy_absolute (_settings_to_dict saved) = false.
Proof.
  assert (Hmode : calibration_mode (_settings_to_dict saved) = "delta") by reflexivity.
  pose proof (delta_mode_not_legacy _ Hmode) as Hlegacy.
  split; [|split; assumption].
  unfold _apply_settings_from_dict, set_str_var, set_calibration_var.
  rewrite Hlegacy.
  f_equal; reflexivity.
Qed.




End Settings.



(** * Further properties of the code *)

(** ** The sign of a rounded quotient *)

Lemma shr_1_half mrs : 0 <= shr_m mrs -> shr_m (shr_1 mrs) = shr_m mrs / 2.
Proof.
  destruct mrs as [[|[p|p|]|p] r s]; intros Hm; cbn [shr_1 shr_m] in *; try lia.
  - reflexivity.
  - apply Z.div_unique with (r := 1); lia.
  - apply Z.div_unique with (r := 0); lia.
  - reflexivity.
Qed.

Lemma iter_shr_1_div p : forall mrs, 0 <= shr_m mrs ->
  shr_m (SpecFloat.iter_pos shr_1 p mrs) = shr_m mrs / 2 ^ Z.pos p.
Proof.
  induction p as [p IH|p IH|]; intros mrs Hm; cbn [SpecFloat.iter_pos].
  - assert (H1 : 0 <= shr_m (shr_1 mrs)) by (apply shr_1_nonneg, Hm).
    assert (H2 : 0 <= shr_m (SpecFloat.iter_pos shr_1 p (shr_1 mrs)))
      by (apply iter_shr_1_nonneg, H1).
    assert (Hp : 0 < 2 ^ Z.pos p) by (apply Z.pow_pos_nonneg; lia).
    rewrite IH, IH, shr_1_half by assumption.
    rewrite !Z.div_div by lia. f_equal.
    rewrite Pos2Z.inj_xI, Z.pow_add_r, Z.pow_mul_r by lia.
    change (2 ^ 2) with 4. change (2 ^ 1) with 2.
    replace (4 ^ Z.pos p) with (2 ^ Z.pos p * 2 ^ Z.pos p); [lia|].
    rewrite <- Z.pow_add_r by lia. replace (Z.pos p + Z.pos p) with (2 * Z.pos p) by lia.
    rewrite Z.pow_mul_r by lia. reflexivity.
  - assert (H2 : 0 <= shr_m (SpecFloat.iter_pos shr_1 p mrs))
      by (apply iter_shr_1_nonneg, Hm).
    assert (Hp : 0 < 2 ^ Z.pos p) by (apply Z.pow_pos_nonneg; lia).
    rewrite IH, IH by assumption.
    rewrite Z.div_div by lia. f_equal.
    rewrite Pos2Z.inj_xO. rewrite <- Z.pow_add_r by lia. f_equal. lia.
  - rewrite shr_1_half by assumption. reflexivity.
Qed.

(** A mantissa of at least 53 bits is cut to exactly 53 bits. *)
Lemma shr_fexp_wide m e l : 2 ^ 52 <= m -> -1074 <= e ->
  exists mrs e1, shr_fexp prec emax m e l = (mrs, e1) /\
                 2 ^ 52 <= shr_m mrs < 2 ^ 53 /\ e <= e1.
Proof.
  intros Hm He.
  pose proof (Zdigits2_bounds m ltac:(lia)) as Hb.
  set (d := Zdigits2 m) in *.
  assert (Hd : 53 <= d).
  { destruct (Z_lt_le_dec d 53) as [Hlt|]; [|assumption]. exfalso.
    assert (2 ^ d <= 2 ^ 52) by (apply Z.pow_le_mono_r; lia). lia. }
  unfold shr_fexp, shr. fold d.
  replace (fexp prec emax (d + e) - e) with (d - 53)
    by (unfold fexp, SpecFloat.emin, prec, emax; lia).
  destruct (loc_of_shr_record_of_loc m l) as [_ Hrec].
  destruct (d - 53) as [|k|k] eqn:Hk; try lia.
  - eexists _, _. split; [reflexivity|]. rewrite Hrec.
    replace d with 53 in Hb by lia. change (53 - 1) with 52 in Hb. lia.
  - eexists _, _. split; [reflexivity|].
    rewrite iter_shr_1_div by lia. rewrite Hrec.
    assert (Hp : 0 < 2 ^ Z.pos k) by (apply Z.pow_pos_nonneg; lia).
    assert (H52 : 2 ^ (d - 1) = 2 ^ 52 * 2 ^ Z.pos k)
      by (rewrite <- Z.pow_add_r by lia; f_equal; lia).
    assert (H53 : 2 ^ d = 2 ^ 53 * 2 ^ Z.pos k)
      by (rewrite <- Z.pow_add_r by lia; f_equal; lia).
    split; [split|lia].
    + apply Z.div_le_lower_bound; lia.
    + apply Z.div_lt_upper_bound; lia.
Qed.

(** Rounding a mantissa of at least 53 bits gives a finite number of the
    same sign, or overflows to the infinity of that sign. *)
Lemma binary_round_aux_wide sx q e l : 2 ^ 52 <= q -> -1074 <= e ->
  (exists m e2, binary_round_aux prec emax sx q e l = S754_finite sx m e2) \/
  binary_round_aux prec emax sx q e l = S754_infinity sx.
Proof.
  intros Hq He. unfold binary_round_aux.
  destruct (shr_fexp_wide q e l Hq He) as (mrs & e1 & -> & Hm & He1).
  pose proof (rne_range (shr_m mrs) (loc_of_shr_record mrs)) as Hr.
  destruct (shr_fexp_wide (round_nearest_even (shr_m mrs) (loc_of_shr_record mrs))
              e1 loc_Exact ltac:(lia) ltac:(lia)) as (mrs2 & e2 & -> & Hm2 & _).
  destruct (shr_m mrs2) as [|m|m]; try lia.
  destruct (e2 <=? emax - prec); eauto.
Qed.

(** The quotient of two positive integers, the divisor below 2^53, is a
    positive float or overflows. *)
Lemma SFdiv_positive c l : 0 < c -> 0 < l < 2 ^ 53 ->
  (exists m e, fdiv (int_exact c) (int_exact l) = S754_finite false m e) \/
  fdiv (int_exact c) (int_exact l) = S754_infinity false.
Proof.
  intros Hc Hl.
  pose proof (Zdigits2_bounds c ltac:(lia)) as Hd1.
  pose proof (Zdigits2_bounds l ltac:(lia)) as Hd2.
  pose proof (Zdigits2_range l Hl) as Hd2r.
  assert (Hd1r : 1 <= Zdigits2 c) by (rewrite Zdigits2_log2 by lia; pose proof (Z.log2_nonneg c); lia).
  set (d1 := Zdigits2 c) in *. set (d2 := Zdigits2 l) in *.
  destruct c as [|pc|pc]; try lia. destruct l as [|pl|pl]; try lia.
  unfold fdiv, int_exact, SFdiv, SFdiv_core_binary. cbn [xorb]. fold d1 d2.
  set (e' := Z.min (fexp prec emax (d1 + 0 - (d2 + 0))) (0 - 0)).
  assert (He' : e' = Z.min (d1 - d2 - 53) 0)
    by (unfold e', fexp, SpecFloat.emin, prec, emax; lia).
  set (m' := match 0 - 0 - e' with
             | 0 => Z.pos pc
             | Z.pos _ => Z.shiftl (Z.pos pc) (0 - 0 - e')
             | Z.neg _ => 0
             end).
  assert (Hm' : m' = Z.pos pc * 2 ^ (- e')).
  { unfold m'. replace (0 - 0 - e') with (- e') by lia.
    destruct (- e') as [|k|k] eqn:Hk; try lia.
    rewrite Z.shiftl_mul_pow2 by lia. reflexivity. }
  assert (Hbig : 2 ^ 52 * 2 ^ d2 <= m').
  { rewrite Hm'. 
    assert (2 ^ 52 * 2 ^ d2 <= 2 ^ (d1 - 1) * 2 ^ (- e')); [|
      assert (0 < 2 ^ (- e')) by (apply Z.pow_pos_nonneg; lia); nia].
    rewrite <- !Z.pow_add_r by lia. apply Z.pow_le_mono_r; lia. }
  pose proof (Z_div_mod m' (Z.pos pl) ltac:(lia)) as Hdm.
  destruct (Z.div_eucl m' (Z.pos pl)) as [q r]. destruct Hdm as [Hq Hr].
  apply binary_round_aux_wide; [|lia].
  assert (Hpow : 0 < 2 ^ 52) by lia.
  nia.
Qed.

(** The page count of at least one label is at least one page, on a sheet
    of fewer than 2^53 labels. *)
Lemma page_count_positive count lpp n : 0 < count -> 0 < lpp < 2 ^ 53 ->
  (q <- int_true_div count lpp ;; math_ceil q)%res = Ok n -> 1 <= n.
Proof.
  intros Hc Hl. unfold int_true_div.
  destruct (Z.eqb_spec lpp 0) as [?|_]; [lia|].
  destruct (SFdiv_positive count lpp Hc Hl) as [(m & e & ->)| ->]; [|discriminate].
  simpl. intros [= <-]. unfold ceil_pow2. simpl.
  destruct (Z.leb_spec 0 e).
  - assert (0 < 2 ^ e) by (apply Z.pow_pos_nonneg; lia). nia.
  - assert (Hp : 0 < 2 ^ (- e)) by (apply Z.pow_pos_nonneg; lia).
    assert (Z.neg m / 2 ^ (- e) < 0); [|lia].
    apply Z.div_lt_upper_bound; lia.
Qed.

(** ** Runs that return *)

(** Rounding keeps the sign. *)
Lemma binary_round_aux_sign sx mx ex lx : 0 <= mx ->
  match binary_round_aux prec emax sx mx ex lx with
  | S754_zero s | S754_infinity s | S754_finite s _ _ => s = sx
  | S754_nan => False
  end.
Proof.
  intros Hm. unfold binary_round_aux.
  pose proof (shr_fexp_nonneg mx ex lx Hm) as H1.
  destruct (shr_fexp prec emax mx ex lx) as [mrs' e']. simpl in H1.
  pose proof (rne_range (shr_m mrs') (loc_of_shr_record mrs')) as Hr.
  pose proof (shr_fexp_nonneg
                (round_nearest_even (shr_m mrs') (loc_of_shr_record mrs')) e' loc_Exact
                ltac:(lia)) as H2.
  destruct (shr_fexp prec emax _ e' loc_Exact) as [mrs'' e'']. simpl in H2.
  destruct (shr_m mrs'') as [|p|p]; try lia; try reflexivity.
  destruct (e'' <=? emax - prec); reflexivity.
Qed.

Lemma ceil_pow2_nonneg m e : 0 <= m -> 0 <= ceil_pow2 m e.
Proof.
  intros Hm. unfold ceil_pow2. destruct (Z.leb_spec 0 e).
  - apply Z.mul_nonneg_nonneg; [lia|apply Z.pow_nonneg; lia].
  - assert (Hp : 0 < 2 ^ (- e)) by (apply Z.pow_pos_nonneg; lia).
    assert (- m / 2 ^ (- e) <= 0); [|lia].
    apply Z.div_le_upper_bound; lia.
Qed.

(** The page count of a positive count on a sheet of positive capacity is
    never negative. *)
Lemma page_count_nonneg count lpp n : 0 < count -> 0 < lpp ->
  (q <- int_true_div count lpp ;; math_ceil q)%res = Ok n -> 0 <= n.
Proof.
  intros Hc Hl. unfold int_true_div.
  destruct (Z.eqb_spec lpp 0) as [?|_]; [lia|].
  destruct count as [|pc|pc]; try lia. destruct lpp as [|pl|pl]; try lia.
  assert (Hsign : match fdiv (int_exact (Z.pos pc)) (int_exact (Z.pos pl)) with
                  | S754_zero s | S754_infinity s | S754_finite s _ _ => s = false
                  | S754_nan => False
                  end).
  { unfold fdiv, int_exact, SFdiv, SFdiv_core_binary. cbn [xorb].
    match goal with
    | |- context [Z.div_eucl ?x ?y] =>
        pose proof (Z_div_mod x y ltac:(lia)) as Hdm;
        assert (0 <= x) by
          (destruct (0 - 0 - _); [lia| rewrite Z.shiftl_mul_pow2 by lia;
             apply Z.mul_nonneg_nonneg; [lia|apply Z.pow_nonneg; lia] |lia]);
        destruct (Z.div_eucl x y) as [q r]; destruct Hdm as [Hq Hr]
    end.
    apply binary_round_aux_sign. nia. }
  destruct (fdiv (int_exact (Z.pos pc)) (int_exact (Z.pos pl))) as [s|s| |s m e];
    simpl; try discriminate; intros [= <-]; [lia|].
  subst s. apply ceil_pow2_nonneg. simpl. lia.
Qed.

Section Returns.

Variables (prefix : string) (leading_zeros : Z) (kind : BarcodeKind)
          (layout : SheetLayout) (draw_border : bool)
          (offset_x_mm offset_y_mm pitch_dx_mm pitch_dy_mm : pyfloat).

Local Abbreviation lloop := (label_loop prefix leading_zeros kind layout draw_border
                     offset_x_mm offset_y_mm pitch_dx_mm pitch_dy_mm).
Local Abbreviation ploop := (page_loop prefix leading_zeros kind layout draw_border
                     offset_x_mm offset_y_mm pitch_dx_mm pitch_dy_mm).
Local Abbreviation labs := (labels_from prefix leading_zeros kind layout draw_border
                    offset_x_mm offset_y_mm pitch_dx_mm pitch_dy_mm).
Local Abbreviation pages := (pages_from prefix leading_zeros kind layout draw_border
                              offset_x_mm offset_y_mm pitch_dx_mm pitch_dy_mm).
Local Abbreviation lpp := (labels_per_page layout).

(** The page loop in closed form, whenever it returns. *)
Lemma page_loop_returns P : forall current remaining c c' current' remaining',
  0 < lpp -> 0 <= remaining -> cv_current c = [] ->
  ploop P current remaining c = (c', Ok (current', remaining')) ->
  c' = add_pages c (pages current remaining (Z.of_nat P)) /\
  current' = current + Z.min (Z.of_nat P * lpp) remaining /\
  remaining' = remaining - Z.min (Z.of_nat P * lpp) remaining.
Proof.
  induction P as [|P IH]; intros current remaining c c' current' remaining' Hlpp Hrem Hcur Hrun.
  - injection Hrun as <- <- <-. unfold add_pages, pages_from.
    rewrite seqZ_nil by lia. simpl. rewrite app_nil_r.
    destruct c; simpl in *; subst. repeat split; lia.
  - cbn [page_loop] in Hrun. unfold cbind at 1 in Hrun.
    destruct (lloop _ 0 current c) as [c1 r1] eqn:Hl.
    apply label_loop_run in Hl as (k & Hk & -> & Hr1).
    destruct r1 as [e|cur1]; [discriminate|]. destruct Hr1 as [-> ->].
    unfold cbind, showPage in Hrun.
    cbn [add_current cv_filename cv_pages cv_current] in Hrun.
    rewrite Hcur in Hrun. cbn [app] in Hrun.
    apply IH in Hrun as (-> & -> & ->); [|assumption|lia|reflexivity].
    rewrite Z2Nat.id by lia.
    replace (Z.of_nat (S P)) with (1 + Z.of_nat P) by lia.
    rewrite pages_from_cons by lia.
    unfold add_pages. cbn [cv_filename cv_pages cv_current].
    rewrite <- app_assoc. cbn [app].
    replace ((1 + Z.of_nat P) * lpp) with (Z.of_nat P * lpp + lpp) by ring.
    assert (0 <= Z.of_nat P * lpp) by (apply Z.mul_nonneg_nonneg; lia).
    repeat split; lia.
Qed.

End Returns.

Section ReturningRuns.

Variables (output_path : string) (start_number count : Z) (prefix : string)
          (leading_zeros : Z) (kind : BarcodeKind) (layout : SheetLayout)
          (draw_border : bool)
          (offset_x_mm offset_y_mm pitch_dx_mm pitch_dy_mm : pyfloat)
          (fs : gmap string Document).

Local Abbreviation run := (generate_pdf output_path start_number count prefix
                            leading_zeros kind layout draw_border
                            offset_x_mm offset_y_mm pitch_dx_mm pitch_dy_mm fs).
Local Abbreviation pages := (pages_from prefix leading_zeros kind layout draw_border
                              offset_x_mm offset_y_mm pitch_dx_mm pitch_dy_mm).
Local Abbreviation lpp := (labels_per_page layout).

(** A run that returns passed the four checks. *)
Lemma generate_pdf_Ok_valid r :
  run_result run = Ok r -> valid_input start_number count leading_zeros prefix.
Proof.
  unfold generate_pdf, raised, valid_input.
  destruct (Z.leb_spec count 0); [discriminate|].
  destruct (Z.leb_spec start_number 0); [discriminate|].
  destruct (Z.ltb_spec leading_zeros 0); [discriminate|].
  destruct (String.eqb_spec prefix ""); [discriminate|].
  intros _. repeat split; assumption.
Qed.

(** Every run that returns, in closed form. *)
Lemma generate_pdf_returns n next :
  0 < lpp -> run_result run = Ok (n, next) ->
  0 <= n /\
  (q <- int_true_div count lpp ;; math_ceil q)%res = Ok n /\
  run = {| run_files := <[output_path := pages start_number count n]> fs;
           run_canvas := Some (add_pages (new_canvas output_path)
                                         (pages start_number count n));
           run_result := Ok (n, start_number + Z.min (n * lpp) count) |}.
Proof.
  intros Hlpp Hres.
  pose proof (generate_pdf_Ok_valid _ Hres) as (Hs & Hc & Hz & Hp).
  rewrite generate_pdf_valid in Hres |- * by assumption.
  destruct (q <- int_true_div count lpp ;; math_ceil q)%res as [e|n'] eqn:Hn;
    [discriminate|].
  pose proof (page_count_nonneg count lpp n' Hc Hlpp Hn) as Hn0.
  destruct (page_loop _ _ _ _ _ _ _ _ _ _ _ _ _) as [c' [e|[current remaining]]] eqn:Hloop;
    [discriminate|].
  cbn [run_result] in Hres. injection Hres as -> ->.
  apply page_loop_returns in Hloop as (-> & -> & _); [|assumption|lia|reflexivity].
  rewrite Z2Nat.id by lia.
  split; [assumption|]. split; [reflexivity|].
  reflexivity.
Qed.

End ReturningRuns.

(** ** Label texts identify their number *)

Lemma string_app_inv_head p a b : p +:+ a = p +:+ b -> a = b.
Proof.
  induction p as [|c p IH]; [rewrite !string_app_nil_l; auto|].
  rewrite !string_app_cons. intros [= H]. auto.
Qed.

Lemma dec_value_zeros k s : dec_value (zeros k +:+ s) = dec_value s.
Proof.
  induction k as [|k IH]; [rewrite string_app_nil_l; reflexivity|].
  cbn [zeros]. rewrite string_app_cons. rewrite <- IH. reflexivity.
Qed.

Lemma padded_decimal_value n width : 0 <= n -> dec_value (padded_decimal n width) = n.
Proof.
  intros Hn. unfold padded_decimal. rewrite dec_value_zeros.
  apply dec_digits_spec, Hn.
Qed.

Lemma padded_texts_NoDup prefix width start k : 0 <= start ->
  NoDup ((fun j => prefix +:+ padded_decimal j width) <$> seqZ start k).
Proof.
  intros Hs. apply NoDup_fmap_2_strong; [|apply NoDup_seqZ].
  intros x y Hx Hy Heq. apply elem_of_seqZ in Hx, Hy.
  apply string_app_inv_head in Heq.
  rewrite <- (padded_decimal_value x width), <- (padded_decimal_value y width) by lia.
  rewrite Heq. reflexivity.
Qed.

Lemma padded_texts_format prefix width start k : 0 <= start ->
  (fun j => prefix +:+ format_0d j width) <$> seqZ start k
  = (fun j => prefix +:+ padded_decimal j width) <$> seqZ start k.
Proof.
  intros Hs. apply list_fmap_ext. intros i j Hj.
  apply lookup_seqZ in Hj as [-> _]. simpl. f_equal. apply format_0d_nonneg. lia.
Qed.

Section RunInvariants.

Variables (output_path : string) (start_number count : Z) (prefix : string)
          (leading_zeros : Z) (kind : BarcodeKind) (layout : SheetLayout)
          (draw_border : bool)
          (offset_x_mm offset_y_mm pitch_dx_mm pitch_dy_mm : pyfloat)
          (fs : gmap string Document).

Local Abbreviation run := (generate_pdf output_path start_number count prefix
                            leading_zeros kind layout draw_border
                            offset_x_mm offset_y_mm pitch_dx_mm pitch_dy_mm fs).
Local Abbreviation pages := (pages_from prefix leading_zeros kind layout draw_border
                              offset_x_mm offset_y_mm pitch_dx_mm pitch_dy_mm).
Local Abbreviation lpp := (labels_per_page layout).

(** What the document of a returning run holds. *)
Lemma returning_run_texts n next :
  0 < lpp -> run_result run = Ok (n, next) ->
  0 < start_number /\ 0 <= n /\
  next = start_number + Z.min (n * lpp) count /\
  0 <= next - start_number <= count /\
  run_files run = <[output_path := pages start_number count n]> fs /\
  texts_of (pages start_number count n) =
    (fun k => prefix +:+ padded_decimal k leading_zeros)
      <$> seqZ start_number (next - start_number).
Proof.
  intros Hlpp Hres.
  pose proof (generate_pdf_Ok_valid _ _ _ _ _ _ _ _ _ _ _ _ _ _ Hres) as (Hs & Hc & Hz & Hp).
  destruct (generate_pdf_returns _ _ _ _ _ _ _ _ _ _ _ _ _ n next Hlpp Hres)
    as (Hn & _ & Hrun).
  rewrite Hrun in Hres |- *. cbn [run_result run_files] in *.
  injection Hres as Hnext.
  assert (0 <= n * lpp) by (apply Z.mul_nonneg_nonneg; lia).
  split; [assumption|]. split; [assumption|]. split; [lia|]. split; [lia|].
  split; [reflexivity|].
  rewrite texts_pages_from by lia. rewrite padded_texts_format by lia.
  f_equal. f_equal. lia.
Qed.

(** X1: [generate_pdf] touches no file but [output_path].  A run that
    raises leaves every file as it was; a run that returns has written the
    closed pages of its canvas to [output_path], in place of what was there,
    and has left no page open. *)
Theorem generate_pdf_writes_only_output_path :
  let run := generate_pdf output_path start_number count prefix leading_zeros kind
               layout draw_border offset_x_mm offset_y_mm pitch_dx_mm pitch_dy_mm fs in
  (forall path, path <> output_path -> run_files run !! path = fs !! path) /\
  (forall e, run_result run = Raise e -> run_files run = fs) /\
  (forall r, run_result run = Ok r ->
     exists c, run_canvas run = Some c /\ cv_current c = [] /\
               run_files run = save c fs /\
               save c fs = <[output_path := cv_pages c]> fs).
Proof.
  cbv zeta. unfold generate_pdf, raised.
  repeat match goal with
         | |- context [if ?b then _ else _] =>
             destruct b; [cbn [run_files run_result]; repeat split; auto; discriminate|]
         end.
  destruct (q <- int_true_div count lpp ;; math_ceil q)%res as [e|n];
    [cbn [run_files run_result]; repeat split; auto; discriminate|].
  destruct (page_loop _ _ _ _ _ _ _ _ _ _ _ _ _) as [c' r] eqn:Hloop.
  apply page_loop_run in Hloop as (pgs & Hf & Hpg & _ & _ & Hr); [|reflexivity].
  simpl in Hf, Hpg.
  destruct r as [e|[current remaining]]; cbn [run_files run_result run_canvas].
  - repeat split; auto; discriminate.
  - destruct Hr as [Hcur _].
    assert (Hsave : save c' fs = <[output_path := cv_pages c']> fs)
      by (unfold save, saved_document; rewrite Hf, Hcur; reflexivity).
    split; [|split; [discriminate|]].
    + intros path Hne. rewrite Hsave. apply lookup_insert_ne. congruence.
    + intros _ _. exists c'. repeat split; assumption.
Qed.

(** X2: in every run that returns, on a sheet of positive capacity, also
    beyond double precision: the document has as many pages as the returned
    page count, no page holds more labels than the sheet has, the texts are
    those of the numbers [start_number .. next - 1] in order, none twice,
    and [next - start_number] is the number of labels drawn,
    [min (pages * labels_per_page, count)], never more than [count].  On a
    sheet of fewer than 2^53 labels at least one page and one label are
    drawn. *)
Theorem next_number_counts_drawn_labels n next :
  0 < labels_per_page layout -> run_result run = Ok (n, next) ->
  exists doc,
    run_files run !! output_path = Some doc /\
    Z.of_nat (length doc) = n /\
    Forall (fun pg => Z.of_nat (length pg) <= labels_per_page layout) doc /\
    texts_of doc = (fun k => prefix +:+ padded_decimal k leading_zeros)
                     <$> seqZ start_number (next - start_number) /\
    NoDup (texts_of doc) /\
    next - start_number = Z.min (n * labels_per_page layout) count /\
    0 <= next - start_number <= count /\
    (labels_per_page layout < 2 ^ 53 -> 1 <= n /\ start_number < next).
Proof.
  intros Hlpp Hres.
  destruct (returning_run_texts n next Hlpp Hres) as (Hs & Hn & Hnext & Hle & Hfiles & Htexts).
  destruct (generate_pdf_returns _ _ _ _ _ _ _ _ _ _ _ _ _ n next Hlpp Hres)
    as (_ & Hcount & _).
  pose proof (generate_pdf_Ok_valid _ _ _ _ _ _ _ _ _ _ _ _ _ _ Hres) as (_ & Hc & _ & _).
  exists (pages start_number count n). rewrite Hfiles.
  split; [apply lookup_insert_eq|].
  split; [rewrite length_pages_from; lia|].
  split.
  { unfold pages_from. apply Forall_fmap, Forall_forall. intros p _. simpl.
    rewrite length_page_at. unfold page_size. lia. }
  split; [exact Htexts|].
  split; [rewrite Htexts; apply padded_texts_NoDup; lia|].
  split; [lia|]. split; [lia|].
  intros Hsmall.
  pose proof (page_count_positive count lpp n Hc ltac:(lia) Hcount) as H1.
  split; [assumption|]. nia.
Qed.

End RunInvariants.

(** X3: two runs in a row, the second started at the number the first
    returned: their label texts together are those of one unbroken range of
    numbers, none twice; the first file is still there when the second run
    wrote elsewhere. *)
Theorem chained_runs_continue_numbering
    output_path start_number count prefix leading_zeros kind layout draw_border
    offset_x_mm offset_y_mm pitch_dx_mm pitch_dy_mm fs
    output_path2 count2 kind2 layout2 draw_border2
    offset_x_mm2 offset_y_mm2 pitch_dx_mm2 pitch_dy_mm2 n next n2 next2 :
  let run1 := generate_pdf output_path start_number count prefix leading_zeros kind
                layout draw_border offset_x_mm offset_y_mm pitch_dx_mm pitch_dy_mm fs in
  let run2 := generate_pdf output_path2 next count2 prefix leading_zeros kind2
                layout2 draw_border2 offset_x_mm2 offset_y_mm2 pitch_dx_mm2 pitch_dy_mm2
                (run_files run1) in
  0 < labels_per_page layout -> 0 < labels_per_page layout2 ->
  run_result run1 = Ok (n, next) -> run_result run2 = Ok (n2, next2) ->
  exists doc1 doc2,
    run_files run1 !! output_path = Some doc1 /\
    run_files run2 !! output_path2 = Some doc2 /\
    texts_of doc1 ++ texts_of doc2
      = (fun k => prefix +:+ padded_decimal k leading_zeros)
          <$> seqZ start_number (next2 - start_number) /\
    NoDup (texts_of doc1 ++ texts_of doc2) /\
    (output_path <> output_path2 -> run_files run2 !! output_path = Some doc1).
Proof.
  intros run1 run2 Hl1 Hl2 Hr1 Hr2.
  destruct (returning_run_texts _ _ _ _ _ _ _ _ _ _ _ _ _ n next Hl1 Hr1)
    as (Hs & _ & _ & Hle & Hfiles & Htexts).
  destruct (returning_run_texts _ _ _ _ _ _ _ _ _ _ _ _ _ n2 next2 Hl2 Hr2)
    as (_ & _ & _ & Hle2 & Hfiles2 & Htexts2).
  eexists _, _. fold run1 in Hfiles. fold run2 in Hfiles2.
  rewrite Hfiles2, !lookup_insert_eq, Hfiles, lookup_insert_eq.
  split; [reflexivity|]. split; [reflexivity|].
  assert (Hcat : texts_of (pages_from prefix leading_zeros kind layout draw_border
                   offset_x_mm offset_y_mm pitch_dx_mm pitch_dy_mm start_number count n)
                 ++ texts_of (pages_from prefix leading_zeros kind2 layout2 draw_border2
                   offset_x_mm2 offset_y_mm2 pitch_dx_mm2 pitch_dy_mm2 next count2 n2)
                 = (fun k => prefix +:+ padded_decimal k leading_zeros)
                     <$> seqZ start_number (next2 - start_number)).
  { rewrite Htexts, Htexts2, <- fmap_app.
    replace (next2 - start_number) with ((next - start_number) + (next2 - next)) by lia.
    rewrite seqZ_app by lia.
    replace (start_number + (next - start_number)) with next by lia. reflexivity. }
  split; [exact Hcat|]. split.
  - rewrite Hcat. apply padded_texts_NoDup. lia.
  - intros Hne. rewrite lookup_insert_ne by congruence. apply lookup_insert_eq.
Qed.

(** X4: for numbers [>= 0] the label text determines the number: two
    numbers with the same text are equal, and the text is the prefix
    followed by digits whose decimal value is the number. *)
Theorem label_text_determines_number prefix n m width t :
  0 <= n -> 0 <= m ->
  make_asn_text prefix n width = Ok t -> make_asn_text prefix m width = Ok t ->
  n = m /\ exists numeric, t = prefix +:+ numeric /\ dec_value numeric = n.
Proof.
  intros Hn Hm. unfold make_asn_text.
  destruct (width <? 0); [discriminate|].
  rewrite !format_0d_nonneg by lia.
  intros [= <-] [= Heq]. apply string_app_inv_head in Heq.
  fold (padded_decimal n width) in *. fold (padded_decimal m width) in *.
  split.
  - rewrite <- (padded_decimal_value n width), <- (padded_decimal_value m width) by lia.
    rewrite Heq. reflexivity.
  - eexists. split; [reflexivity|]. apply padded_decimal_value. lia.
Qed.

(** ** Layouts without capacity *)

Lemma ceil_pow2_nonpos m e : m <= 0 -> ceil_pow2 m e <= 0.
Proof.
  intros Hm. unfold ceil_pow2. destruct (Z.leb_spec 0 e).
  - assert (0 <= 2 ^ e) by (apply Z.pow_nonneg; lia). nia.
  - assert (Hp : 0 < 2 ^ (- e)) by (apply Z.pow_pos_nonneg; lia).
    assert (0 <= - m / 2 ^ (- e)); [|lia].
    apply Z.div_pos; lia.
Qed.

(** The page count of a positive count on a sheet of negative capacity is
    never positive. *)
Lemma page_count_nonpos count lpp n : 0 < count -> lpp < 0 ->
  (q <- int_true_div count lpp ;; math_ceil q)%res = Ok n -> n <= 0.
Proof.
  intros Hc Hl. unfold int_true_div.
  destruct (Z.eqb_spec lpp 0) as [?|_]; [lia|].
  destruct count as [|pc|pc]; try lia. destruct lpp as [|pl|pl]; try lia.
  assert (Hsign : match fdiv (int_exact (Z.pos pc)) (int_exact (Z.neg pl)) with
                  | S754_zero s | S754_infinity s | S754_finite s _ _ => s = true
                  | S754_nan => False
                  end).
  { unfold fdiv, int_exact, SFdiv, SFdiv_core_binary. cbn [xorb].
    match goal with
    | |- context [Z.div_eucl ?x ?y] =>
        pose proof (Z_div_mod x y ltac:(lia)) as Hdm;
        assert (0 <= x) by
          (destruct (0 - 0 - _); [lia| rewrite Z.shiftl_mul_pow2 by lia;
             apply Z.mul_nonneg_nonneg; [lia|apply Z.pow_nonneg; lia] |lia]);
        destruct (Z.div_eucl x y) as [q r]; destruct Hdm as [Hq Hr]
    end.
    apply binary_round_aux_sign. nia. }
  destruct (fdiv (int_exact (Z.pos pc)) (int_exact (Z.neg pl))) as [s|s| |s m e];
    simpl; try discriminate; intros [= <-]; [lia|].
  subst s. apply ceil_pow2_nonpos. simpl. lia.
Qed.

Section Degenerate.

Variables (output_path : string) (start_number count : Z) (prefix : string)
          (leading_zeros : Z) (kind : BarcodeKind) (layout : SheetLayout)
          (draw_border : bool)
          (offset_x_mm offset_y_mm pitch_dx_mm pitch_dy_mm : pyfloat)
          (fs : gmap string Document).

Local Abbreviation run := (generate_pdf output_path start_number count prefix
                            leading_zeros kind layout draw_border
                            offset_x_mm offset_y_mm pitch_dx_mm pitch_dy_mm fs).

(** X19: the sheet layout is not validated.  With valid arguments, a layout
    of capacity 0 makes [generate_pdf] raise a [ZeroDivisionError] before a
    canvas exists; a layout of negative capacity makes it raise an
    [OverflowError] (a count too large for a float) or else save a canvas on
    which nothing was drawn and return a page count [<= 0] with
    [start_number] as the next number. *)
Theorem layout_is_not_validated :
  valid_input start_number count leading_zeros prefix ->
  (labels_per_page layout = 0 ->
   exists msg, run = {| run_files := fs; run_canvas := None;
                        run_result := Raise (ZeroDivisionError msg) |}) /\
  (labels_per_page layout < 0 ->
   (exists msg, run = {| run_files := fs; run_canvas := None;
                         run_result := Raise (OverflowError msg) |}) \/
   (exists n, n <= 0 /\
      run = {| run_files := save (new_canvas output_path) fs;
               run_canvas := Some (new_canvas output_path);
               run_result := Ok (n, start_number) |})).
Proof.
  intros (Hs & Hc & Hz & Hp). rewrite generate_pdf_valid by assumption. split.
  - intros ->. unfold int_true_div, raised. cbn. eauto.
  - intros Hneg.
    destruct (q <- int_true_div count (labels_per_page layout) ;; math_ceil q)%res
      as [e|n] eqn:Hn.
    + left. pose proof (page_count_errors _ _ _ Hn) as [m [->| ->]]; [|eauto].
      exfalso. revert Hn. unfold int_true_div, res_bind.
      destruct (Z.eqb_spec (labels_per_page layout) 0); [lia|].
      destruct (fdiv _ _); cbn; discriminate.
    + right. exists n. pose proof (page_count_nonpos _ _ _ Hc Hneg Hn) as Hle.
      split; [assumption|].
      replace (Z.to_nat n) with 0%nat by lia. reflexivity.
Qed.

End Degenerate.

(** ** Rendering options and numbering *)

Section Rendering.

Variables (prefix : string) (leading_zeros : Z) (layout : SheetLayout).
Variables (kind kind' : BarcodeKind) (draw_border draw_border' : bool)
          (offset_x_mm offset_y_mm pitch_dx_mm pitch_dy_mm : pyfloat)
          (offset_x_mm' offset_y_mm' pitch_dx_mm' pitch_dy_mm' : pyfloat).

Local Abbreviation lloop := (label_loop prefix leading_zeros kind layout draw_border
                     offset_x_mm offset_y_mm pitch_dx_mm pitch_dy_mm).
Local Abbreviation lloop' := (label_loop prefix leading_zeros kind' layout draw_border'
                     offset_x_mm' offset_y_mm' pitch_dx_mm' pitch_dy_mm').
Local Abbreviation ploop := (page_loop prefix leading_zeros kind layout draw_border
                     offset_x_mm offset_y_mm pitch_dx_mm pitch_dy_mm).
Local Abbreviation ploop' := (page_loop prefix leading_zeros kind' layout draw_border'
                     offset_x_mm' offset_y_mm' pitch_dx_mm' pitch_dy_mm').



Variables (output_path : string) (start_number count : Z)
          (fs : gmap string Document).


End Rendering.

(** ** The form *)

Section FileEffects.

Variables (output_path : string) (start_number count : Z) (prefix : string)
          (leading_zeros : Z) (kind : BarcodeKind) (layout : SheetLayout)
          (draw_border : bool)
          (offset_x_mm offset_y_mm pitch_dx_mm pitch_dy_mm : pyfloat)
          (fs : gmap string Document).

Local Abbreviation run := (generate_pdf output_path start_number count prefix
                            leading_zeros kind layout draw_border
                            offset_x_mm offset_y_mm pitch_dx_mm pitch_dy_mm fs).

Lemma generate_pdf_files_raise e : run_result run = Raise e -> run_files run = fs.
Proof.
  unfold generate_pdf, raised.
  repeat match goal with
         | |- context [if ?b then _ else _] => destruct b; [reflexivity|]
         end.
  destruct (q <- int_true_div count _ ;; math_ceil q)%res as [?|n]; [reflexivity|].
  destruct (page_loop _ _ _ _ _ _ _ _ _ _ _ _ _) as [c' [?|[? ?]]];
    [reflexivity|discriminate].
Qed.

Lemma generate_pdf_files_ok r : run_result run = Ok r ->
  exists c, run_canvas run = Some c /\ cv_current c = [] /\
            run_files run = <[output_path := cv_pages c]> fs.
Proof.
  unfold generate_pdf, raised.
  repeat match goal with
         | |- context [if ?b then _ else _] => destruct b; [discriminate|]
         end.
  destruct (q <- int_true_div count _ ;; math_ceil q)%res as [?|n]; [discriminate|].
  destruct (page_loop _ _ _ _ _ _ _ _ _ _ _ _ _) as [c' r'] eqn:Hloop.
  apply page_loop_run in Hloop as (pgs & Hf & Hpg & _ & _ & Hr); [|reflexivity].
  simpl in Hf.
  destruct r' as [?|[current remaining]]; [discriminate|]. intros _.
  destruct Hr as [Hcur _]. exists c'. cbn [run_canvas run_files].
  unfold save, saved_document. rewrite Hf, Hcur. auto.
Qed.

End FileEffects.

Section FormRuns.

Context `{B : PyBuiltins}.

Lemma effective_count_positive self count pages :
  _effective_count_and_pages self = Ok (count, pages) -> 0 < count.
Proof.
  unfold _effective_count_and_pages, res_bind.
  destruct (String.eqb (var_mode self) "pages").
  - destruct (_parse_int (var_pages self) _) as [|p]; [discriminate|].
    destruct (Z.leb_spec p 0); [discriminate|]. intros [= <- <-].
    change (labels_per_page AVERY_L4731) with 189. lia.
  - destruct (_parse_int (var_count self) _) as [|c]; [discriminate|].
    destruct (Z.leb_spec c 0); [discriminate|].
    destruct (int_true_div c _); [discriminate|].
    destruct (math_ceil _); [discriminate|]. intros [= <- <-]. assumption.
Qed.

(** What a form that passes [read_form] holds. *)
Lemma read_form_Ok self start zeros prefix count kind cal default_name :
  read_form self = Ok (start, zeros, prefix, count, kind, cal, default_name) ->
  _parse_int (var_start self) "Start-Nummer" = Ok start /\
  _parse_int (var_zeros self) "Führende Nullen" = Ok zeros /\
  prefix = strip (var_prefix self) /\ prefix <> "" /\
  (exists pages, _effective_count_and_pages self = Ok (count, pages)) /\
  kind = (if String.eqb (var_kind self) "QR" then QR else CODE128) /\
  _calibration self = Ok cal /\
  default_name = "asn_labels_" +:+ int_str start +:+ "_" +:+ int_str count +:+ ".pdf".
Proof.
  unfold read_form, res_bind.
  destruct (_parse_int (var_start self) _); [discriminate|].
  destruct (_parse_int (var_zeros self) _); [discriminate|].
  destruct (String.eqb_spec (strip (var_prefix self)) ""); [discriminate|].
  destruct (_effective_count_and_pages self) as [|[? ?]]; [discriminate|].
  destruct (_calibration self); [discriminate|].
  intros [= <- <- <- <- <- <- <-]. repeat split; eauto.
Qed.

(** What happened when [on_generate_pdf] reports a generated PDF. *)
Lemma on_generate_pdf_Generated self ask fs self' fs' a pages_generated next_number :
  on_generate_pdf self ask fs = (self', fs', Generated a pages_generated next_number) ->
  exists start zeros prefix count kind ox oy pdx pdy default_name,
    read_form self = Ok (start, zeros, prefix, count, kind, (ox, oy, pdx, pdy), default_name) /\
    ask default_name <> "" /\
    a = {| call_output_path := ask default_name; call_start_number := start;
           call_count := count; call_prefix := prefix;
           call_leading_zeros := zeros; call_kind := kind;
           call_layout := AVERY_L4731;
           call_draw_border := var_border self;
           call_offset_x_mm := ox; call_offset_y_mm := oy;
           call_pitch_dx_mm := pdx; call_pitch_dy_mm := pdy |} /\
    run_result (run_call a fs) = Ok (pages_generated, next_number) /\
    fs' = run_files (run_call a fs) /\
    self' = with_var_start self (int_str next_number).
Proof.
  unfold on_generate_pdf.
  destruct (read_form self)
    as [e|[[[[[[start zeros] prefix] count] kind] [[[ox oy] pdx] pdy]] default_name]]
    eqn:Hform; [discriminate|].
  destruct (String.eqb_spec (ask default_name) "") as [|Hask]; [discriminate|].
  match goal with
  | |- context [run_call ?call fs] => set (the_call := call)
  end.
  destruct (run_result (run_call the_call fs)) as [e|[pg nx]] eqn:Hres; [discriminate|].
  intros [= <- <- <- <- <-].
  exists start, zeros, prefix, count, kind, ox, oy, pdx, pdy, default_name.
  repeat split; auto.
Qed.

End FormRuns.

Section FormTheorems.

Context `{B : PyBuiltins}.

(** X6: [on_generate_pdf] is all or nothing.  After an error dialog or a
    dismissed save dialog the form and the files are as before.  After a
    generated PDF the files differ at the chosen path only, which holds a
    document of the reported number of pages, and the form differs in the
    start number only, which is the returned next number. *)
Theorem on_generate_pdf_all_or_nothing self ask fs self' fs' outcome :
  on_generate_pdf self ask fs = (self', fs', outcome) ->
  match outcome with
  | Generated a pages_generated next_number =>
      call_output_path a <> "" /\
      self' = with_var_start self (int_str next_number) /\
      exists doc, fs' = <[call_output_path a := doc]> fs /\
                  Z.of_nat (length doc) = pages_generated
  | _ => self' = self /\ fs' = fs
  end.
Proof.
  destruct outcome as [msg| |a pg nx].
  - unfold on_generate_pdf.
    destruct (read_form self)
      as [e|[[[[[[start zeros] prefix] count] kind] [[[ox oy] pdx] pdy]] default_name]];
      [intros [= <- <- _]; auto|].
    destruct (String.eqb _ ""); [discriminate|].
    match goal with
    | |- context [run_call ?call fs] => set (the_call := call)
    end.
    destruct (run_result (run_call the_call fs)) as [e|[? ?]] eqn:Hres; [|discriminate].
    intros [= <- <- _]. split; [reflexivity|].
    eapply generate_pdf_files_raise, Hres.
  - unfold on_generate_pdf.
    destruct (read_form self)
      as [e|[[[[[[start zeros] prefix] count] kind] [[[ox oy] pdx] pdy]] default_name]];
      [discriminate|].
    destruct (String.eqb _ ""); [intros [= <- <-]; auto|].
    destruct (run_result _) as [e|[? ?]]; discriminate.
  - intros Hgen.
    apply on_generate_pdf_Generated in Hgen
      as (start & zeros & prefix & count & kind & ox & oy & pdx & pdy & default_name
          & _ & Hask & -> & Hres & -> & ->).
    cbn [call_output_path]. split; [assumption|]. split; [reflexivity|].
    unfold run_call in *.
    cbn [call_output_path call_start_number call_count call_prefix call_leading_zeros
         call_kind call_layout call_draw_border call_offset_x_mm call_offset_y_mm
         call_pitch_dx_mm call_pitch_dy_mm] in *.
    destruct (generate_pdf_returns _ _ _ _ _ _ _ _ _ _ _ _ _ _ _
              (eq_refl : 0 < labels_per_page AVERY_L4731) Hres)
      as (Hn & _ & ->).
    cbn [run_files]. eexists. split; [reflexivity|].
    rewrite length_pages_from. lia.
Qed.

(** X7: whenever a PDF is generated, [_current_text] of the same form
    returns, and the text it returns (the preview) is the text of the first
    label of the first page. *)
Theorem generated_first_label_is_preview_text self ask fs self' fs' a
    pages_generated next_number :
  on_generate_pdf self ask fs = (self', fs', Generated a pages_generated next_number) ->
  exists text doc pg dl,
    _current_text self = Ok text /\
    fs' !! call_output_path a = Some doc /\
    doc !! 0%nat = Some pg /\ pg !! 0%nat = Some dl /\
    dl_text dl = text.
Proof.
  intros Hgen.
  apply on_generate_pdf_Generated in Hgen
    as (start & zeros & prefix & count & kind & ox & oy & pdx & pdy & default_name
        & Hform & Hask & -> & Hres & -> & ->).
  apply read_form_Ok in Hform as (Hstart & Hzeros & Hprefix & Hne & _).
  unfold run_call in *.
  cbn [call_output_path call_start_number call_count call_prefix call_leading_zeros
       call_kind call_layout call_draw_border call_offset_x_mm call_offset_y_mm
       call_pitch_dx_mm call_pitch_dy_mm] in *.
  pose proof (generate_pdf_Ok_valid _ _ _ _ _ _ _ _ _ _ _ _ _ _ Hres) as (Hs & Hc & Hz & _).
  destruct (generate_pdf_returns _ _ _ _ _ _ _ _ _ _ _ _ _ _ _
              (eq_refl : 0 < labels_per_page AVERY_L4731) Hres)
    as (_ & Hcount & ->).
  pose proof (page_count_positive _ _ _ Hc
                (conj eq_refl eq_refl : 0 < labels_per_page AVERY_L4731 < 2 ^ 53) Hcount) as Hn.
  exists (prefix +:+ format_0d start zeros). eexists _, _, _.
  split.
  { unfold _current_text, res_bind. rewrite Hstart, Hzeros, <- Hprefix.
    destruct (String.eqb_spec prefix ""); [contradiction|].
    destruct (Z.leb_spec start 0); [lia|].
    unfold make_asn_text. destruct (Z.ltb_spec zeros 0); [lia|]. reflexivity. }
  cbn [run_files]. split; [apply lookup_insert_eq|].
  split.
  { change 0%nat with (Z.to_nat 0). apply lookup_pages_from. lia. }
  rewrite page_at_0 by (reflexivity || lia).
  change (labels_per_page AVERY_L4731) with 189.
  unfold labels_from. rewrite list_lookup_fmap, (lookup_seqZ_lt 0 _ 0) by lia.
  split; [reflexivity|]. cbn [dl_text label_at]. rewrite Z.add_0_r. reflexivity.
Qed.

(** X8: a start number [<= 0] or a padding width [< 0] passes the checks
    of the form: [on_generate_pdf] asks for a file name first, and it is
    [generate_pdf] that rejects them, with its own message and nothing
    written; [_current_text] rejects the same form with the message of the
    form. *)
Theorem range_checks_come_after_the_save_dialog self ask fs
    start zeros prefix count kind cal default_name :
  read_form self = Ok (start, zeros, prefix, count, kind, cal, default_name) ->
  ask default_name <> "" ->
  start <= 0 \/ zeros < 0 ->
  on_generate_pdf self ask fs
    = (self, fs, ShowError (if start <=? 0 then "start_number must be > 0"
                            else "leading_zeros must be >= 0")) /\
  _current_text self
    = Raise (ValueError (if start <=? 0 then "Start-Nummer muss > 0 sein."
                         else "Führende Nullen muss >= 0 sein.")).
Proof.
  intros Hform Hask Hbad.
  pose proof (read_form_Ok _ _ _ _ _ _ _ _ Hform)
    as (Hstart & Hzeros & Hprefix & Hne & [pages Hcount] & _).
  apply effective_count_positive in Hcount.
  split.
  - unfold on_generate_pdf. rewrite Hform.
    destruct cal as [[[ox oy] pdx] pdy].
    destruct (String.eqb_spec (ask default_name) ""); [contradiction|].
    unfold run_call, generate_pdf, raised.
    cbn [call_output_path call_start_number call_count call_prefix call_leading_zeros
         call_kind call_layout call_draw_border call_offset_x_mm call_offset_y_mm
         call_pitch_dx_mm call_pitch_dy_mm].
    destruct (Z.leb_spec count 0); [lia|].
    destruct (Z.leb_spec start 0); [reflexivity|].
    destruct (Z.ltb_spec zeros 0); [reflexivity|lia].
  - unfold _current_text, res_bind. rewrite Hstart, Hzeros, <- Hprefix.
    destruct (String.eqb_spec prefix ""); [contradiction|].
    destruct (Z.leb_spec start 0); [reflexivity|].
    destruct (Z.ltb_spec zeros 0); [reflexivity|lia].
Qed.

(** X9: the page count [_effective_count_and_pages] reports is the one
    [generate_pdf] returns for that count on the shipped sheet: in labels
    mode for every count, in pages mode when the count is below 2^53, where
    the count is [pages * 189] and every label is drawn. *)
Theorem preview_page_count_is_generated self count pages
    output_path start_number prefix leading_zeros kind draw_border
    offset_x_mm offset_y_mm pitch_dx_mm pitch_dy_mm fs n next :
  _effective_count_and_pages self = Ok (count, pages) ->
  (var_mode self = "pages" -> count < 2 ^ 53) ->
  run_result (generate_pdf output_path start_number count prefix leading_zeros kind
                AVERY_L4731 draw_border offset_x_mm offset_y_mm pitch_dx_mm pitch_dy_mm fs)
    = Ok (n, next) ->
  n = pages /\ 1 <= pages /\
  (var_mode self = "pages" -> count = pages * 189 /\ next = start_number + count).
Proof.
  intros Heff Hsmall Hres.
  pose proof (effective_count_positive _ _ _ Heff) as Hc.
  destruct (generate_pdf_returns _ _ _ _ _ _ _ _ _ _ _ _ _ _ _
              (eq_refl : 0 < labels_per_page AVERY_L4731) Hres)
    as (_ & Hcount & Hrun).
  pose proof (page_count_positive _ _ _ Hc
                (conj eq_refl eq_refl : 0 < labels_per_page AVERY_L4731 < 2 ^ 53) Hcount) as Hn.
  rewrite Hrun in Hres. cbn [run_result] in Hres. injection Hres as Hnext.
  change (labels_per_page AVERY_L4731) with 189 in *.
  unfold _effective_count_and_pages, res_bind in Heff.
  destruct (String.eqb_spec (var_mode self) "pages") as [Hmode|Hmode].
  - destruct (_parse_int (var_pages self) _) as [|p]; [discriminate|].
    destruct (Z.leb_spec p 0); [discriminate|]. injection Heff as <- <-.
    clear Hrun. change (labels_per_page AVERY_L4731) with 189 in *.
    rewrite page_count_exact in Hcount by (specialize (Hsmall Hmode); lia).
    injection Hcount as <-.
    assert (Hceil : ceil_div (p * 189) 189 = p) by (apply ceil_div_unique; lia).
    rewrite Hceil in *. repeat split; try lia.
  - destruct (_parse_int (var_count self) _) as [|c]; [discriminate|].
    destruct (Z.leb_spec c 0); [discriminate|].
    clear Hrun. change (labels_per_page AVERY_L4731) with 189 in *.
    unfold res_bind in Hcount.
    destruct (int_true_div c 189) as [|q] eqn:Hd; [discriminate|].
    destruct (math_ceil q) as [|n'] eqn:Hm; [discriminate|].
    injection Heff as <- <-. rewrite Hd, Hm in Hcount. injection Hcount as <-.
    repeat split; try lia; contradiction.
Qed.

(** X10: in pages mode, for a number of sheets with [sheets * 189 < 2^53],
    a generated PDF has exactly that many pages, each with all 189 labels,
    and the next number is the start number plus [sheets * 189]. *)
Theorem pages_mode_prints_full_sheets self ask fs self' fs' a
    pages_generated next_number sheets :
  var_mode self = "pages" ->
  _parse_int (var_pages self) "Anzahl A4 Blätter" = Ok sheets ->
  sheets * 189 < 2 ^ 53 ->
  on_generate_pdf self ask fs = (self', fs', Generated a pages_generated next_number) ->
  pages_generated = sheets /\
  call_count a = sheets * 189 /\
  next_number = call_start_number a + sheets * 189 /\
  exists doc,
    fs' !! call_output_path a = Some doc /\
    Z.of_nat (length doc) = sheets /\
    Forall (fun pg => length pg = 189%nat) doc.
Proof.
  intros Hmode Hsheets Hsmall Hgen.
  apply on_generate_pdf_Generated in Hgen
    as (start & zeros & prefix & count & kind & ox & oy & pdx & pdy & default_name
        & Hform & Hask & -> & Hres & -> & ->).
  apply read_form_Ok in Hform as (_ & _ & _ & _ & [pages Heff] & _).
  unfold _effective_count_and_pages, res_bind in Heff.
  rewrite Hmode, Hsheets in Heff. cbn [String.eqb Ascii.eqb Bool.eqb] in Heff.
  destruct (Z.leb_spec sheets 0); [discriminate|]. injection Heff as <- <-.
  change (labels_per_page AVERY_L4731) with 189 in *.
  unfold run_call in *.
  cbn [call_output_path call_start_number call_count call_prefix call_leading_zeros
       call_kind call_layout call_draw_border call_offset_x_mm call_offset_y_mm
       call_pitch_dx_mm call_pitch_dy_mm] in *.
  pose proof (generate_pdf_Ok_valid _ _ _ _ _ _ _ _ _ _ _ _ _ _ Hres) as Hvalid.
  assert (Hlay : valid_layout AVERY_L4731) by (unfold valid_layout; simpl; lia).
  destruct (generate_pdf_exact (ask default_name) _ _ _ _ kind _ (var_border self)
              ox oy pdx pdy fs Hvalid Hlay Hsmall
              (eq_refl : labels_per_page AVERY_L4731 < 2 ^ 53))
    as (_ & _ & _ & Hrun).
  change (labels_per_page AVERY_L4731) with 189 in *.
  assert (Hceil : ceil_div (sheets * 189) 189 = sheets) by (apply ceil_div_unique; lia).
  rewrite Hceil in Hrun. rewrite Hrun in Hres |- *. cbn [run_result run_files] in *.
  injection Hres as <- <-.
  split; [reflexivity|]. split; [reflexivity|]. split; [reflexivity|].
  eexists. split; [apply lookup_insert_eq|].
  split; [rewrite length_pages_from; lia|].
  unfold pages_from. apply Forall_fmap, Forall_forall. intros p Hp.
  apply elem_of_seqZ in Hp. simpl.
  rewrite length_page_at. unfold page_size.
  change (labels_per_page AVERY_L4731) with 189. lia.
Qed.

End FormTheorems.

Section FormOutcomes.

Context `{B : PyBuiltins}.

Lemma parse_int_message s field e :
  _parse_int s field = Raise e -> e = ValueError (field +:+ " ist keine gültige Zahl.").
Proof. unfold _parse_int. destruct (int_of_str _); intros [=]; congruence. Qed.

Lemma parse_float_message s field e :
  _parse_float s field = Raise e ->
  e = ValueError (field +:+ " ist keine gültige Zahl (z.B. 0.2).").
Proof. unfold _parse_float. destruct (float_of_str _); intros [=]; congruence. Qed.

(** X21: every exception that stops [on_generate_pdf] before the save
    dialog is a [ValueError] with one of the eleven messages of the form,
    each naming its field, or, in labels mode, the [OverflowError] of a count
    too large for a float. *)
Theorem form_errors_name_the_field self e :
  read_form self = Raise e ->
  (exists msg, e = ValueError msg /\ msg ∈ form_messages) \/
  (var_mode self <> "pages" /\ exists msg, e = OverflowError msg).
Proof.
  unfold read_form, res_bind.
  destruct (_parse_int (var_start self) _) as [e1|start] eqn:H1.
  { intros [= <-]. apply parse_int_message in H1 as ->. left. eexists. split; [reflexivity|].
    unfold form_messages, int_fields. cbn. set_solver. }
  destruct (_parse_int (var_zeros self) _) as [e2|zeros] eqn:H2.
  { intros [= <-]. apply parse_int_message in H2 as ->. left. eexists. split; [reflexivity|].
    unfold form_messages, int_fields. cbn. set_solver. }
  destruct (String.eqb (strip (var_prefix self)) "").
  { intros [= <-]. left. eexists. split; [reflexivity|].
    unfold form_messages, int_fields, float_fields. cbn. set_solver. }
  destruct (_effective_count_and_pages self) as [e3|[count pages]] eqn:H3.
  { intros [= <-]. unfold _effective_count_and_pages, res_bind in H3.
    destruct (String.eqb_spec (var_mode self) "pages") as [Hmode|Hmode].
    - destruct (_parse_int (var_pages self) _) as [e4|p] eqn:H4.
      + injection H3 as <-. apply parse_int_message in H4 as ->.
        left. eexists. split; [reflexivity|].
        unfold form_messages, int_fields. cbn. set_solver.
      + destruct (p <=? 0); [|discriminate]. injection H3 as <-.
        left. eexists. split; [reflexivity|].
        unfold form_messages, int_fields, float_fields. cbn. set_solver.
    - destruct (_parse_int (var_count self) _) as [e4|c] eqn:H4.
      + injection H3 as <-. apply parse_int_message in H4 as ->.
        left. eexists. split; [reflexivity|].
        unfold form_messages, int_fields. cbn. set_solver.
      + destruct (Z.leb_spec c 0).
        * injection H3 as <-. left. eexists. split; [reflexivity|].
          unfold form_messages, int_fields, float_fields. cbn. set_solver.
        * assert (Hq : (q <- int_true_div c (labels_per_page AVERY_L4731) ;; math_ceil q)%res
                       = Raise e3).
          { unfold res_bind. destruct (int_true_div c _); [congruence|].
            destruct (math_ceil _); [congruence|discriminate]. }
          right. split; [assumption|].
          pose proof (page_count_errors _ _ _ Hq) as [m [->| ->]]; [|eauto].
          exfalso. clear H3. revert Hq. unfold int_true_div, res_bind.
          change (labels_per_page AVERY_L4731 =? 0) with false. cbv iota.
          destruct (fdiv _ _); cbn; discriminate. }
  destruct (_calibration self) as [e5|cal] eqn:H5; [|discriminate].
  intros [= <-]. unfold _calibration, _calibration_delta, res_bind in H5.
  left.
  destruct (_parse_float (var_off_x self) _) as [e6|?] eqn:H6.
  { injection H5 as <-. apply parse_float_message in H6 as ->.
    eexists. split; [reflexivity|]. unfold form_messages, int_fields, float_fields.
    cbn. set_solver. }
  destruct (_parse_float (var_off_y self) _) as [e7|?] eqn:H7.
  { injection H5 as <-. apply parse_float_message in H7 as ->.
    eexists. split; [reflexivity|]. unfold form_messages, int_fields, float_fields.
    cbn. set_solver. }
  destruct (_parse_float (var_pitch_dx self) _) as [e8|?] eqn:H8.
  { injection H5 as <-. apply parse_float_message in H8 as ->.
    eexists. split; [reflexivity|]. unfold form_messages, int_fields, float_fields.
    cbn. set_solver. }
  destruct (_parse_float (var_pitch_dy self) _) as [e9|?] eqn:H9; [|discriminate].
  injection H5 as <-. apply parse_float_message in H9 as ->.
  eexists. split; [reflexivity|]. unfold form_messages, int_fields, float_fields.
  cbn. set_solver.
Qed.


End FormOutcomes.

(** ** White space and decimal commas *)

Lemma all_space_cons c s :
  all_space (String c s) = true <-> is_space c = true /\ all_space s = true.
Proof. cbn [all_space]. apply andb_true_iff. Qed.

Lemma lstrip_space_app ws s : all_space ws = true -> lstrip (ws +:+ s) = lstrip s.
Proof.
  induction ws as [|c ws IH]; intros Hws; [apply f_equal, string_app_nil_l|].
  apply all_space_cons in Hws as [Hc Hws].
  rewrite string_app_cons. cbn [lstrip]. rewrite Hc. auto.
Qed.

Lemma rstrip_all_space ws : all_space ws = true -> rstrip ws = "".
Proof.
  induction ws as [|c ws IH]; intros Hws; [reflexivity|].
  apply all_space_cons in Hws as [Hc Hws].
  cbn [rstrip]. rewrite IH, Hc by assumption. reflexivity.
Qed.

Lemma rstrip_app_space s ws : all_space ws = true -> rstrip (s +:+ ws) = rstrip s.
Proof.
  intros Hws. induction s as [|c s IH].
  - rewrite string_app_nil_l. apply rstrip_all_space, Hws.
  - rewrite string_app_cons. cbn [rstrip]. rewrite IH. reflexivity.
Qed.

Lemma lstrip_app_space s ws : all_space ws = true ->
  lstrip (s +:+ ws) = if String.eqb (lstrip s) "" then "" else lstrip s +:+ ws.
Proof.
  intros Hws. induction s as [|c s IH].
  - rewrite string_app_nil_l. cbn [lstrip String.eqb].
    clear -Hws. induction ws as [|c ws IH]; [reflexivity|].
    apply all_space_cons in Hws as [Hc Hws]. cbn [lstrip]. rewrite Hc. auto.
  - rewrite string_app_cons. cbn [lstrip]. destruct (is_space c); [exact IH|].
    cbn [String.eqb]. rewrite string_app_cons. reflexivity.
Qed.

Lemma strip_surrounding_space ws s ws' : all_space ws = true -> all_space ws' = true ->
  strip (ws +:+ s +:+ ws') = strip s.
Proof.
  intros Hws Hws'. unfold strip.
  rewrite lstrip_space_app, lstrip_app_space by assumption.
  destruct (String.eqb_spec (lstrip s) "") as [->|_]; [reflexivity|].
  apply rstrip_app_space, Hws'.
Qed.

Section MapChars.

Variable f : ascii -> ascii.
Hypothesis f_space : forall c, is_space (f c) = is_space c.

Lemma lstrip_map_chars s : lstrip (map_chars f s) = map_chars f (lstrip s).
Proof.
  induction s as [|c s IH]; [reflexivity|].
  cbn [map_chars lstrip]. rewrite f_space. destruct (is_space c); [exact IH|reflexivity].
Qed.

Lemma rstrip_map_chars s : rstrip (map_chars f s) = map_chars f (rstrip s).
Proof.
  induction s as [|c s IH]; [reflexivity|].
  cbn [map_chars rstrip]. rewrite IH, f_space.
  destruct (rstrip s); cbn [map_chars]; [destruct (is_space c)|]; reflexivity.
Qed.

End MapChars.

Lemma comma_to_dot_space c :
  is_space (if Ascii.eqb c "," then "."%char else c) = is_space c.
Proof. destruct (Ascii.eqb_spec c ","%char) as [->|_]; reflexivity. Qed.

Lemma strip_comma_to_dot s : strip (comma_to_dot s) = comma_to_dot (strip s).
Proof.
  unfold strip, comma_to_dot.
  rewrite lstrip_map_chars, rstrip_map_chars by apply comma_to_dot_space. reflexivity.
Qed.

Lemma comma_to_dot_idem s : comma_to_dot (comma_to_dot s) = comma_to_dot s.
Proof.
  unfold comma_to_dot. induction s as [|c s IH]; [reflexivity|].
  cbn [map_chars]. rewrite IH. f_equal.
  destruct (Ascii.eqb_spec c ","%char) as [->|Hne]; [reflexivity|].
  destruct (Ascii.eqb_spec c ","%char); [contradiction|reflexivity].
Qed.

Section SettingsMore.

Context `{B : PyBuiltins}.

(** X11: number fields tolerate white space around the number and a
    decimal comma: [_parse_float] and [_parse_int] return the same with and
    without the blanks, [_parse_float] the same for a comma as for a point,
    and [_coerce_float] agrees. *)
Theorem number_fields_tolerate_blanks_and_commas s field ws ws' :
  all_space ws = true -> all_space ws' = true ->
  _parse_float (ws +:+ s +:+ ws') field = _parse_float s field /\
  _parse_float (comma_to_dot s) field = _parse_float s field /\
  _parse_int (ws +:+ s +:+ ws') field = _parse_int s field /\
  _coerce_float (PyStr (ws +:+ s +:+ ws')) = _coerce_float (PyStr (comma_to_dot s)).
Proof.
  intros Hws Hws'. unfold _parse_float, _parse_int, _coerce_float, py_str.
  rewrite strip_surrounding_space by assumption.
  rewrite strip_comma_to_dot, comma_to_dot_idem. repeat split; reflexivity.
Qed.

(** ** Settings records *)

(** The flags of the transitional case, key by key. *)
Lemma forallb_parsed_calibration d :
  forallb near_zero (parsed_calibration d) = true <->
  forall key v, key ∈ calibration_keys -> d !! key = Some v ->
                near_zero (_coerce_float v) = true.
Proof.
  unfold parsed_calibration. fold calibration_keys.
  induction calibration_keys as [|k ks IH]; cbn [omap list_omap].
  - split; [|reflexivity]. intros _ key v Hkey. inversion Hkey.
  - destruct (d !! k) as [v|] eqn:Hk; cbn [fmap option_fmap option_map forallb].
    + rewrite andb_true_iff, IH. split.
      * intros [Hv Hks] key v' Hkey Hv'.
        apply elem_of_cons in Hkey as [->|Hkey]; [|eauto].
        rewrite Hk in Hv'. injection Hv' as <-. exact Hv.
      * intros Hall. split; [apply (Hall k); [left|assumption]|].
        intros key v' Hkey. apply Hall. right. exact Hkey.
    + rewrite IH. split.
      * intros Hks key v' Hkey Hv'.
        apply elem_of_cons in Hkey as [->|Hkey]; [congruence|eauto].
      * intros Hall key v' Hkey. apply Hall. right. exact Hkey.
Qed.

Lemma parsed_calibration_nil d :
  parsed_calibration d = [] <-> forall key, key ∈ calibration_keys -> d !! key = None.
Proof.
  unfold parsed_calibration. fold calibration_keys.
  induction calibration_keys as [|k ks IH]; cbn [omap list_omap].
  - split; [|reflexivity]. intros _ key Hkey. inversion Hkey.
  - destruct (d !! k) as [v|] eqn:Hk; cbn [fmap option_fmap option_map].
    + split; [discriminate|]. intros Hall.
      rewrite (Hall k) in Hk by left. discriminate.
    + rewrite IH. split.
      * intros Hks key Hkey. apply elem_of_cons in Hkey as [->|Hkey]; auto.
      * intros Hall key Hkey. apply Hall. right. exact Hkey.
Qed.

(** X12: a record without a [calibration_mode] tag.  If every calibration
    value it holds parses to a number of magnitude below 1e-9, the values are
    loaded as they are.  If one of them does not, the record is legacy, and
    every calibration value [V] that parses, a zero too, is loaded as
    [str(V - B)]. *)
Theorem untagged_record_is_delta_only_if_all_zero self d :
  calibration_mode d = "" ->
  ((forall key v, key ∈ calibration_keys -> d !! key = Some v ->
      near_zero (_coerce_float v) = true) ->
   forall key v, key ∈ calibration_keys -> d !! key = Some v ->
     calibration_var key (_apply_settings_from_dict self d) = py_str v) /\
  (forall key0 v0, key0 ∈ calibration_keys -> d !! key0 = Some v0 ->
     near_zero (_coerce_float v0) = false ->
     legacy_absolute d = true /\
     forall key v V, key ∈ calibration_keys -> d !! key = Some v ->
       _coerce_float v = Some V ->
       calibration_var key (_apply_settings_from_dict self d)
       = float_repr (V - base_calibration key)%py).
Proof.
  intros Hmode. split.
  - intros Hzero key v Hkey Hv.
    rewrite calibration_var_apply by assumption.
    unfold set_calibration_var. rewrite Hv.
    assert (Hlegacy : legacy_absolute d = false).
    { unfold legacy_absolute. rewrite Hmode. cbn [String.eqb].
      apply forallb_parsed_calibration in Hzero. rewrite Hzero.
      destruct (bool_decide_reflect (parsed_calibration d = [])) as [Hnil|_]; [|reflexivity].
      exfalso. rewrite parsed_calibration_nil in Hnil.
      rewrite (Hnil key Hkey) in Hv. discriminate. }
    rewrite Hlegacy. reflexivity.
  - intros key0 v0 Hkey0 Hv0 Hnz.
    assert (Hlegacy : legacy_absolute d = true).
    { apply legacy_absolute_spec. rewrite Hmode. split; [discriminate|].
      intros (_ & _ & Hall). rewrite forallb_parsed_calibration in Hall.
      rewrite (Hall key0 v0 Hkey0 Hv0) in Hnz. discriminate. }
    split; [exact Hlegacy|]. intros key v V Hkey Hv HV.
    rewrite calibration_var_apply by assumption.
    unfold set_calibration_var. rewrite Hv, Hlegacy, HV. reflexivity.
Qed.

(** X13: loading [DEFAULT_SETTINGS], as [on_reset_config] does, gives the
    form [App.__init__] starts with, whatever the form held: the untagged
    defaults are not taken for legacy values, so the calibration fields keep
    their zeros; saved, that form is [DEFAULT_SETTINGS] tagged delta.  The
    built-in [float] is assumed to read the default calibration string as
    zero. *)
Theorem defaults_load_as_initial_form self :
  float_of_str "0.0" = Some (lit 0.0) ->
  legacy_absolute DEFAULT_SETTINGS = false /\
  _apply_settings_from_dict self DEFAULT_SETTINGS = initial_vars /\
  _settings_to_dict initial_vars = <["calibration_mode" := PyStr "delta"]> DEFAULT_SETTINGS.
Proof.
  intros Hzero.
  assert (Hlegacy : legacy_absolute DEFAULT_SETTINGS = false).
  { unfold legacy_absolute.
    change (calibration_mode DEFAULT_SETTINGS) with "". cbn [String.eqb].
    assert (Hparsed : parsed_calibration DEFAULT_SETTINGS
                      = [Some (lit 0.0); Some (lit 0.0); Some (lit 0.0); Some (lit 0.0)]).
    { unfold parsed_calibration.
      change (omap _ _)
        with [_coerce_float (PyStr "0.0"); _coerce_float (PyStr "0.0");
              _coerce_float (PyStr "0.0"); _coerce_float (PyStr "0.0")].
      unfold _coerce_float, py_str.
      change (comma_to_dot (strip "0.0")) with "0.0". rewrite Hzero. reflexivity. }
    rewrite Hparsed. reflexivity. }
  split; [exact Hlegacy|]. split.
  - unfold _apply_settings_from_dict, set_str_var, set_calibration_var.
    rewrite Hlegacy. reflexivity.
  - apply map_eq. intros k. unfold _settings_to_dict.
    vm_compute. reflexivity.
Qed.

(** X14: a key missing from the record leaves its variable as it was, for
    each of the twelve settings. *)
Theorem missing_keys_keep_their_variables self d :
  (d !! "start" = None -> var_start (_apply_settings_from_dict self d) = var_start self) /\
  (d !! "mode" = None -> var_mode (_apply_settings_from_dict self d) = var_mode self) /\
  (d !! "count" = None -> var_count (_apply_settings_from_dict self d) = var_count self) /\
  (d !! "pages" = None -> var_pages (_apply_settings_from_dict self d) = var_pages self) /\
  (d !! "prefix" = None -> var_prefix (_apply_settings_from_dict self d) = var_prefix self) /\
  (d !! "zeros" = None -> var_zeros (_apply_settings_from_dict self d) = var_zeros self) /\
  (d !! "kind" = None -> var_kind (_apply_settings_from_dict self d) = var_kind self) /\
  (d !! "border" = None -> var_border (_apply_settings_from_dict self d) = var_border self) /\
  (forall key, key ∈ calibration_keys -> d !! key = None ->
     calibration_var key (_apply_settings_from_dict self d) = calibration_var key self).
Proof.
  repeat split;
    try (unfold _apply_settings_from_dict, set_str_var; cbn; intros ->; reflexivity).
  intros key Hkey Hnone.
  rewrite calibration_var_apply by assumption.
  unfold set_calibration_var. rewrite Hnone. reflexivity.
Qed.

End SettingsMore.

(** ** Sizes inside a label *)

Lemma fltb_fleb a b : fltb a b = true -> fleb a b = true.
Proof.
  unfold fltb, fleb, SFltb, SFleb. destruct (SFcompare a b) as [[]|]; auto.
Qed.

Lemma fltb_asym a b : fltb a b = true -> fltb b a = false.
Proof.
  unfold fltb, SFltb.
  destruct a as [[]|[]| |[] m1 e1], b as [[]|[]| |[] m2 e2]; cbn;
    try discriminate; try reflexivity.
  all: rewrite (Z.compare_antisym e1 e2);
    change (PosDef.Pos.compare_cont Eq m2 m1) with (m2 ?= m1)%positive;
    change (PosDef.Pos.compare_cont Eq m1 m2) with (m1 ?= m2)%positive;
    rewrite (Pos.compare_antisym m1 m2);
    destruct (e1 ?= e2); cbn; try discriminate; try reflexivity;
    destruct (m1 ?= m2)%positive; cbn; try discriminate; reflexivity.
Qed.

Lemma lit_5_5 : lit 5.5 = S754_finite false 6192449487634432 (-50).
Proof. vm_compute. reflexivity. Qed.

Lemma lit_8_0 : lit 8.0 = S754_finite false 4503599627370496 (-49).
Proof. vm_compute. reflexivity. Qed.

Lemma below_min_size_below_max v : fltb v (lit 5.5) = true -> fltb v (lit 8.0) = true.
Proof.
  rewrite lit_5_5, lit_8_0.
  destruct v as [[]|[]| |[] m e]; cbv beta iota delta [fltb SFltb SFcompare];
    try discriminate; try reflexivity.
  destruct (Z.compare_spec e (-50)), (Z.compare_spec e (-49));
    try lia; try discriminate; reflexivity.
Qed.

(** X15: the font size of the label text is clamped.  For every label
    height, an infinite one or NaN too, it lies between 5.5 and 8.0; it is
    8.0 when 0.55 times the height in mm is above 8.0, it is 5.5 when that is
    below 5.5, and it is that value in between. *)
Theorem font_size_is_clamped layout :
  fleb (lit 5.5) (DrawLabel.font_size layout) = true /\
  fleb (DrawLabel.font_size layout) (lit 8.0) = true /\
  (fltb (lit 8.0) (label_h layout / mm * lit 0.55)%py = true ->
   DrawLabel.font_size layout = lit 8.0) /\
  (fltb (label_h layout / mm * lit 0.55)%py (lit 5.5) = true ->
   DrawLabel.font_size layout = lit 5.5) /\
  (fltb (lit 5.5) (label_h layout / mm * lit 0.55)%py = true ->
   fltb (label_h layout / mm * lit 0.55)%py (lit 8.0) = true ->
   DrawLabel.font_size layout = (label_h layout / mm * lit 0.55)%py).
Proof.
  unfold DrawLabel.font_size, float_max, float_min.
  set (v := (label_h layout / mm * lit 0.55)%py).
  assert (H58 : fltb (lit 5.5) (lit 8.0) = true) by (vm_compute; reflexivity).
  split; [|split; [|split; [|split]]].
  - destruct (fltb v (lit 8.0)).
    + destruct (fltb (lit 5.5) v) eqn:H5; [apply fltb_fleb, H5|vm_compute; reflexivity].
    + rewrite H58. vm_compute. reflexivity.
  - destruct (fltb v (lit 8.0)) eqn:H8.
    + destruct (fltb (lit 5.5) v); [apply fltb_fleb, H8|vm_compute; reflexivity].
    + rewrite H58. vm_compute. reflexivity.
  - intros Hv. rewrite (fltb_asym _ _ Hv), H58. reflexivity.
  - intros Hv. rewrite (below_min_size_below_max _ Hv), (fltb_asym _ _ Hv). reflexivity.
  - intros H5 H8. rewrite H8, H5. reflexivity.
Qed.

(** On the shipped sheet the font size is the minimum, and a QR code is
    rendered at 212 pixels. *)
Example shipped_sheet_sizes :
  DrawLabel.font_size AVERY_L4731 = lit 5.5 /\
  DrawLabel.target_px AVERY_L4731 = Ok 212 /\
  DrawLabel.code_size AVERY_L4731 = lit 25.51181102362205.
Proof. repeat split; vm_compute; reflexivity. Qed.

(** X16: a QR code is rendered at 80 pixels or more, and its size raises
    an [OverflowError] or a [ValueError] only; a Code128 barcode is scaled by
    a factor of at most 1.0, never stretched, and computing the factor raises,
    a [ZeroDivisionError], exactly when the width of the barcode is zero. *)
Theorem code_symbol_sizes layout width :
  (forall n, DrawLabel.target_px layout = Ok n -> 80 <= n) /\
  (forall e, DrawLabel.target_px layout = Raise e ->
     exists m, e = OverflowError m \/ e = ValueError m) /\
  (forall s, DrawLabel.scale layout width = Ok s -> fleb s (lit 1.0) = true) /\
  (forall e, DrawLabel.scale layout width = Raise e -> exists m, e = ZeroDivisionError m) /\
  ((exists e, DrawLabel.scale layout width = Raise e) <-> is_zero width = true).
Proof.
  unfold DrawLabel.target_px, DrawLabel.scale, float_true_div, res_bind.
  split; [|split; [|split; [|split]]].
  - intros n. destruct (int_of_float _); [discriminate|]. intros [= <-]. lia.
  - intros e. destruct (_ * _ / _)%py; cbn; intros [=]; eauto.
  - intros s. destruct (is_zero width); [discriminate|]. intros [= <-].
    unfold float_min.
    destruct (fltb _ (lit 1.0)) eqn:Hq; [apply fltb_fleb, Hq|vm_compute; reflexivity].
  - intros e. destruct (is_zero width); intros [=]; eauto.
  - destruct (is_zero width); split; eauto; try discriminate. intros [e [=]].
Qed.

(** ** The shipped sheet *)

(** X17: on the shipped sheet with the base calibration (all deltas of
    the form at zero), the label rectangle of every column and row lies on
    the A4 page, it ends before the rectangle of the next column begins, and
    the rectangle of the next row ends below it. *)
Theorem shipped_sheet_labels_fit_the_page column row :
  0 <= column < cols AVERY_L4731 -> 0 <= row < rows AVERY_L4731 ->
  on_page AVERY_L4731
    (origin_x AVERY_L4731 (base_calibration "off_x") (base_calibration "pitch_dx") column)
    (origin_y AVERY_L4731 (base_calibration "off_y") (base_calibration "pitch_dy") row)
    = true /\
  (column + 1 < cols AVERY_L4731 ->
   fleb (origin_x AVERY_L4731 (base_calibration "off_x") (base_calibration "pitch_dx")
           column + label_w AVERY_L4731)%py
        (origin_x AVERY_L4731 (base_calibration "off_x") (base_calibration "pitch_dx")
           (column + 1)) = true) /\
  (row + 1 < rows AVERY_L4731 ->
   fleb (origin_y AVERY_L4731 (base_calibration "off_y") (base_calibration "pitch_dy")
           (row + 1) + label_h AVERY_L4731)%py
        (origin_y AVERY_L4731 (base_calibration "off_y") (base_calibration "pitch_dy")
           row) = true).
Proof.
  change (cols AVERY_L4731) with 7. change (rows AVERY_L4731) with 27.
  intros Hc Hr.
  assert (Hcol : Exists (eq column) (seqZ 0 7))
    by (apply Exists_exists; exists column; split; [apply elem_of_seqZ; lia|reflexivity]).
  assert (Hrow : Exists (eq row) (seqZ 0 27))
    by (apply Exists_exists; exists row; split; [apply elem_of_seqZ; lia|reflexivity]).
  vm_compute in Hcol, Hrow.
  split; [|split].
  - repeat (apply Exists_cons in Hcol as [->|Hcol];
            [repeat (apply Exists_cons in Hrow as [->|Hrow]; [vm_compute; reflexivity|]);
             inversion Hrow|]).
    inversion Hcol.
  - intros Hnext.
    repeat (apply Exists_cons in Hcol as [->|Hcol];
            [first [vm_compute; reflexivity | vm_compute in Hnext; discriminate]|]).
    inversion Hcol.
  - intros Hnext.
    repeat (apply Exists_cons in Hrow as [->|Hrow];
            [first [vm_compute; reflexivity | vm_compute in Hnext; discriminate]|]).
    inversion Hrow.
Qed.

(** X22: on the shipped sheet with the base calibration, in every column
    and row, the square of the code symbol lies in the rectangle of its
    label, and the text starts to the right of the code, inside the
    rectangle, with its baseline and its font height inside it as well. *)
Theorem shipped_sheet_code_lies_in_its_label column row :
  0 <= column < cols AVERY_L4731 -> 0 <= row < rows AVERY_L4731 ->
  code_in_label AVERY_L4731
    (origin_x AVERY_L4731 (base_calibration "off_x") (base_calibration "pitch_dx") column)
    (origin_y AVERY_L4731 (base_calibration "off_y") (base_calibration "pitch_dy") row)
    = true /\
  text_in_label AVERY_L4731
    (origin_x AVERY_L4731 (base_calibration "off_x") (base_calibration "pitch_dx") column)
    (origin_y AVERY_L4731 (base_calibration "off_y") (base_calibration "pitch_dy") row)
    = true.
Proof.
  change (cols AVERY_L4731) with 7. change (rows AVERY_L4731) with 27.
  intros Hc Hr.
  assert (Hcol : Exists (eq column) (seqZ 0 7))
    by (apply Exists_exists; exists column; split; [apply elem_of_seqZ; lia|reflexivity]).
  assert (Hrow : Exists (eq row) (seqZ 0 27))
    by (apply Exists_exists; exists row; split; [apply elem_of_seqZ; lia|reflexivity]).
  vm_compute in Hcol, Hrow.
  repeat (apply Exists_cons in Hcol as [->|Hcol];
          [repeat (apply Exists_cons in Hrow as [->|Hrow];
                   [split; vm_compute; reflexivity|]);
           inversion Hrow|]).
  inversion Hcol.
Qed.

(** ** Autosave *)

Lemma schedule_save_queue self now s :
  _loading_settings self = false -> only_save_job s ->
  _schedule_save self now s =
    {| _save_job := Some (next_id (tk s));
       tk := {| queue := [(next_id (tk s), now + 500)];
                next_id := S (next_id (tk s)) |};
       saves := saves s |}.
Proof.
  intros Hload Hinv. unfold _schedule_save, after. rewrite Hload.
  assert (Hq : queue match _save_job s with
                     | Some id => after_cancel id (tk s)
                     | None => tk s
                     end = []).
  { destruct (_save_job s) as [id|] eqn:Hjob.
    - unfold after_cancel. cbn [queue].
      assert (Hall : forall job, job ∈ queue (tk s) -> fst job = id)
        by (intros job Hin; apply Hinv in Hin; congruence).
      induction (queue (tk s)) as [|job q IH]; [reflexivity|].
      cbn [filter list_filter].
      rewrite (Hall job) by left. rewrite Nat.eqb_refl. cbn.
      apply IH. intros j Hj. apply Hall. right. exact Hj.
    - destruct (queue (tk s)) as [|job q] eqn:Hqueue; [reflexivity|].
      specialize (Hinv job). rewrite Hqueue, Hjob in Hinv.
      discriminate (Hinv ltac:(left)). }
  rewrite Hq. destruct (_save_job s); reflexivity.
Qed.

Lemma save_step_only_save_job self s ev :
  only_save_job s -> only_save_job (save_step self s ev).
Proof.
  intros Hinv. destruct ev as [now|now]; cbn [save_step].
  - destruct (_loading_settings self) eqn:Hload.
    + unfold _schedule_save. rewrite Hload. exact Hinv.
    + rewrite schedule_save_queue by assumption. intros job Hjob.
      cbn in Hjob. apply list_elem_of_singleton in Hjob as ->. reflexivity.
  - intros job Hjob. cbn in Hjob. apply list_elem_of_filter in Hjob as [_ Hjob].
    apply Hinv, Hjob.
Qed.

Lemma save_steps_only_save_job self evs : forall s,
  only_save_job s -> only_save_job (fold_left (save_step self) evs s).
Proof.
  induction evs as [|ev evs IH]; intros s Hinv; [exact Hinv|].
  cbn [fold_left]. apply IH, save_step_only_save_job, Hinv.
Qed.

(** X18: autosave is debounced.  After any history of writes and timer
    runs, a write of a watched variable at time [now] leaves exactly one save
    job queued, due at [now + 500]; the main loop at time [later] then saves
    once if [now + 500 <= later], not at all before, and leaves no job
    behind. *)
Theorem autosave_is_debounced self evs now later :
  _loading_settings self = false ->
  let s := fold_left (save_step self) (evs ++ [VarWritten now]) no_save_job in
  (exists id, _save_job s = Some id /\ queue (tk s) = [(id, now + 500)]) /\
  saves (run_due later s) = (saves s + (if (now + 500 <=? later)%Z then 1 else 0))%nat /\
  (now + 500 <= later -> queue (tk (run_due later s)) = []).
Proof.
  intros Hload s. subst s. rewrite fold_left_app. cbn [fold_left save_step].
  set (s := fold_left (save_step self) evs no_save_job).
  assert (Hinv : only_save_job s).
  { apply save_steps_only_save_job. intros job Hjob. inversion Hjob. }
  rewrite schedule_save_queue by assumption.
  split; [eexists; split; reflexivity|].
  unfold run_due. cbn [queue tk saves filter list_filter snd].
  destruct (Z.leb_spec (now + 500) later); cbn; split; try reflexivity; try lia.
Qed.

(** While settings are being loaded nothing is scheduled. *)
Example no_autosave_while_loading self now s :
  _loading_settings self = true -> _schedule_save self now s = s.
Proof. intros Hload. unfold _schedule_save. rewrite Hload. reflexivity. Qed.

(** ** Examples of the further properties *)

(** X2, for nine labels from number 1 on the shipped sheet. *)
Lemma next_number_counts_drawn_labels_witness :
  exists doc,
    run_files example_first_run !! "first.pdf" = Some doc /\
    Z.of_nat (length doc) = 1 /\
    Forall (fun pg => Z.of_nat (length pg) <= labels_per_page AVERY_L4731) doc /\
    texts_of doc = (fun k => "ASN" +:+ padded_decimal k 7) <$> seqZ 1 (10 - 1) /\
    NoDup (texts_of doc) /\
    10 - 1 = Z.min (1 * labels_per_page AVERY_L4731) 9 /\
    0 <= 10 - 1 <= 9 /\
    (labels_per_page AVERY_L4731 < 2 ^ 53 -> 1 <= 1 /\ 1 < 10).
Proof.
  unfold example_first_run.
  apply (next_number_counts_drawn_labels "first.pdf" 1 9 "ASN" 7 QR AVERY_L4731 false
           pzero pzero pzero pzero ∅ 1 10).
  - reflexivity.
  - vm_compute. reflexivity.
Defined.

(** X4, for the text of number 42 at width 5. *)
Lemma label_text_determines_number_witness :
  42 = 42 /\ exists numeric, "ASN00042" = "ASN" +:+ numeric /\ dec_value numeric = 42.
Proof.
  apply (label_text_determines_number "ASN" 42 42 5 "ASN00042");
    [lia|lia|reflexivity|reflexivity].
Defined.

(** X3, for nine labels followed by three: the numbers 1 to 12. *)
Lemma chained_runs_continue_numbering_witness :
  exists doc1 doc2,
    run_files example_first_run !! "first.pdf" = Some doc1 /\
    run_files example_second_run !! "second.pdf" = Some doc2 /\
    texts_of doc1 ++ texts_of doc2
      = (fun k => "ASN" +:+ padded_decimal k 7) <$> seqZ 1 (13 - 1) /\
    NoDup (texts_of doc1 ++ texts_of doc2) /\
    ("first.pdf" <> "second.pdf" -> run_files example_second_run !! "first.pdf" = Some doc1).
Proof.
  unfold example_second_run, example_first_run.
  apply (chained_runs_continue_numbering "first.pdf" 1 9 "ASN" 7 QR AVERY_L4731 false
           pzero pzero pzero pzero ∅ "second.pdf" 3 CODE128 AVERY_L4731 true
           pzero pzero pzero pzero 1 10 1 13).
  - reflexivity.
  - reflexivity.
  - vm_compute. reflexivity.
  - vm_compute. reflexivity.
Defined.

(** The example form generates nine labels, the form in pages mode one
    sheet. *)
Lemma example_app_generates :
  on_generate_pdf (B := example_builtins) example_app (fun _ => "labels.pdf") ∅
  = (with_var_start example_app "10", run_files (run_call example_call ∅),
     Generated example_call 1 10).
Proof. vm_compute. reflexivity. Qed.

Lemma example_pages_app_generates :
  on_generate_pdf (B := example_builtins) example_pages_app (fun _ => "labels.pdf") ∅
  = (with_var_start example_pages_app "190", run_files (run_call example_pages_call ∅),
     Generated example_pages_call 1 190).
Proof. vm_compute. reflexivity. Qed.

(** X6, for the example form: one page at the chosen path, the start number set to 10. *)
Lemma on_generate_pdf_all_or_nothing_witness :
  call_output_path example_call <> "" /\
  with_var_start example_app "10" = with_var_start example_app (int_str 10) /\
  exists doc, run_files (run_call example_call ∅) = <[call_output_path example_call := doc]> ∅ /\
              Z.of_nat (length doc) = 1.
Proof.
  exact (on_generate_pdf_all_or_nothing (B := example_builtins) _ _ _ _ _ _
           example_app_generates).
Defined.

(** X7, for the example form. *)
Lemma generated_first_label_is_preview_text_witness :
  exists text doc pg dl,
    _current_text (B := example_builtins) example_app = Ok text /\
    run_files (run_call example_call ∅) !! call_output_path example_call = Some doc /\
    doc !! 0%nat = Some pg /\ pg !! 0%nat = Some dl /\
    dl_text dl = text.
Proof.
  exact (generated_first_label_is_preview_text (B := example_builtins) _ _ _ _ _ _ _ _
           example_app_generates).
Defined.

(** X8, for a start number of 0. *)
Lemma range_checks_come_after_the_save_dialog_witness :
  on_generate_pdf (B := digit_builtins) example_zero_start_app (fun _ => "labels.pdf") ∅
    = (example_zero_start_app, ∅, ShowError "start_number must be > 0") /\
  _current_text (B := digit_builtins) example_zero_start_app
    = Raise (ValueError "Start-Nummer muss > 0 sein.").
Proof.
  eassert (Hform : read_form (B := digit_builtins) example_zero_start_app
                   = Ok (0, _, _, _, _, _, _)) by (vm_compute; reflexivity).
  apply (range_checks_come_after_the_save_dialog (B := digit_builtins)
           example_zero_start_app (fun _ => "labels.pdf") ∅ _ _ _ _ _ _ _ Hform).
  - discriminate.
  - left. lia.
Defined.

(** X9, for one sheet in pages mode. *)
Lemma preview_page_count_is_generated_witness :
  1 = 1 /\ 1 <= 1 /\
  (var_mode example_pages_app = "pages" -> 189 = 1 * 189 /\ 190 = 1 + 189).
Proof.
  apply (preview_page_count_is_generated (B := example_builtins) example_pages_app 189 1
           "labels.pdf" 1 "ASN" 7 QR false pzero pzero pzero pzero ∅ 1 190).
  - reflexivity.
  - intros _. reflexivity.
  - vm_compute. reflexivity.
Defined.

(** X10, for one sheet. *)
Lemma pages_mode_prints_full_sheets_witness :
  1 = 1 /\
  call_count example_pages_call = 1 * 189 /\
  190 = call_start_number example_pages_call + 1 * 189 /\
  exists doc,
    run_files (run_call example_pages_call ∅) !! call_output_path example_pages_call
      = Some doc /\
    Z.of_nat (length doc) = 1 /\
    Forall (fun pg => length pg = 189%nat) doc.
Proof.
  exact (pages_mode_prints_full_sheets (B := example_builtins) example_pages_app
           (fun _ => "labels.pdf") ∅ _ _ _ _ _ 1 eq_refl eq_refl eq_refl
           example_pages_app_generates).
Defined.

(** X11, for 0,2 between blanks. *)
Lemma number_fields_tolerate_blanks_and_commas_witness :
  _parse_float (B := digit_builtins) (" " +:+ "0,2" +:+ "  ") "Offset X"
    = _parse_float (B := digit_builtins) "0,2" "Offset X" /\
  _parse_float (B := digit_builtins) "0,2" "Offset X" = Ok (lit 0.2).
Proof.
  split; [|reflexivity].
  apply (number_fields_tolerate_blanks_and_commas (B := digit_builtins)
           "0,2" "Offset X" " " "  "); reflexivity.
Defined.

(** X12, for an untagged record with offsets of zero. *)
Lemma untagged_record_is_delta_only_if_all_zero_witness :
  calibration_var "off_x"
    (_apply_settings_from_dict (B := example_builtins) example_app example_untagged_record)
  = "0.0".
Proof.
  destruct (untagged_record_is_delta_only_if_all_zero (B := example_builtins)
              example_app example_untagged_record eq_refl) as [Hzero _].
  apply (Hzero) with (v := PyStr "0.0"); [|left|reflexivity].
  intros key v Hkey Hv. unfold calibration_keys in Hkey.
  repeat (apply elem_of_cons in Hkey as [->|Hkey];
          [vm_compute in Hv;
           first [discriminate Hv | injection Hv as <-; vm_compute; reflexivity]|]).
  inversion Hkey.
Defined.

(** X13, with the table of built-ins of the examples. *)
Lemma defaults_load_as_initial_form_witness :
  legacy_absolute (B := example_builtins) DEFAULT_SETTINGS = false /\
  _apply_settings_from_dict (B := example_builtins) example_app DEFAULT_SETTINGS
    = initial_vars /\
  _settings_to_dict initial_vars = <["calibration_mode" := PyStr "delta"]> DEFAULT_SETTINGS.
Proof.
  apply (defaults_load_as_initial_form (B := example_builtins) example_app). reflexivity.
Defined.

(** X17, for the last column and the last row. *)
Lemma shipped_sheet_labels_fit_the_page_witness :
  on_page AVERY_L4731
    (origin_x AVERY_L4731 (base_calibration "off_x") (base_calibration "pitch_dx") 6)
    (origin_y AVERY_L4731 (base_calibration "off_y") (base_calibration "pitch_dy") 26)
    = true.
Proof.
  assert (Hc : 0 <= 6 < cols AVERY_L4731) by (split; [discriminate|reflexivity]).
  assert (Hr : 0 <= 26 < rows AVERY_L4731) by (split; [discriminate|reflexivity]).
  exact (proj1 (shipped_sheet_labels_fit_the_page 6 26 Hc Hr)).
Defined.

(** X18, for three writes within half a second: one save. *)
Lemma autosave_is_debounced_witness :
  saves (run_due 1000
           (fold_left (save_step example_app)
              ([VarWritten 0; VarWritten 100; MainLoop 300] ++ [VarWritten 400])
              no_save_job)) = 1%nat.
Proof.
  destruct (autosave_is_debounced example_app [VarWritten 0; VarWritten 100; MainLoop 300]
              400 1000 eq_refl) as (_ & Hsaves & _).
  rewrite Hsaves. reflexivity.
Defined.

(** X19, for nine labels on a sheet of -7 columns. *)
Lemma layout_is_not_validated_witness :
  exists n, n <= 0 /\
    generate_pdf "labels.pdf" 1 9 "ASN" 7 QR
      {| name := "mirrored"; cols := -7; rows := 27;
         label_w := pzero; label_h := pzero; gap_x := pzero; gap_y := pzero;
         margin_left := pzero; margin_top := pzero |}
      false pzero pzero pzero pzero ∅
    = {| run_files := save (new_canvas "labels.pdf") ∅;
         run_canvas := Some (new_canvas "labels.pdf");
         run_result := Ok (n, 1) |}.
Proof.
  destruct (layout_is_not_validated "labels.pdf" 1 9 "ASN" 7 QR
              {| name := "mirrored"; cols := -7; rows := 27;
                 label_w := pzero; label_h := pzero; gap_x := pzero; gap_y := pzero;
                 margin_left := pzero; margin_top := pzero |}
              false pzero pzero pzero pzero ∅) as [_ Hneg].
  - unfold valid_input. repeat split; try lia. discriminate.
  - destruct (Hneg eq_refl) as [[msg Hraise]|Hok]; [|exact Hok].
    vm_compute in Hraise. discriminate Hraise.
Defined.

(** X22, for the first label of a sheet. *)
Lemma shipped_sheet_code_lies_in_its_label_witness :
  code_in_label AVERY_L4731
    (origin_x AVERY_L4731 (base_calibration "off_x") (base_calibration "pitch_dx") 0)
    (origin_y AVERY_L4731 (base_calibration "off_y") (base_calibration "pitch_dy") 0)
    = true.
Proof.
  assert (Hc : 0 <= 0 < cols AVERY_L4731) by (split; [discriminate|reflexivity]).
  assert (Hr : 0 <= 0 < rows AVERY_L4731) by (split; [discriminate|reflexivity]).
  exact (proj1 (shipped_sheet_code_lies_in_its_label 0 0 Hc Hr)).
Defined.

(** X21, for built-ins that read no float: the first calibration field is named. *)
Lemma form_errors_name_the_field_witness :
  (exists msg, ValueError "Offset X ist keine gültige Zahl (z.B. 0.2)." = ValueError msg /\
               msg ∈ form_messages) \/
  (var_mode example_app <> "pages" /\
   exists msg, ValueError "Offset X ist keine gültige Zahl (z.B. 0.2)." = OverflowError msg).
Proof.
  apply (form_errors_name_the_field (B := {| float_of_str := fun _ => None;
                                             float_repr := fun _ => "";
                                             int_of_str := fun _ => Some 1 |})
           example_app).
  reflexivity.
Defined.

